(** * Y2MLocal: the browser-side controller [static/js/script.js]

    A shallow embedding of the [YouTubeDownloader] class and of the
    host facilities it relies on (strings, regular expressions, numbers,
    timers, the parts of the page it reads and writes).

    The source file holds two revisions of the class.  The second one
    (notifications, cookie status, the [finished] response shape, the
    billions suffix) is embedded in [Rev2]; the functions of the first
    one that differ are embedded in [Rev1]. *)

From Stdlib Require Import ZArith List String Ascii Bool Lia Arith.
From Stdlib Require Import SpecFloat DecimalString.
Import ListNotations.
Local Open Scope string_scope.

(** ** Strings

    A JavaScript string is a sequence of code units; the model uses
    [string], one [ascii] per code unit, so its alphabet is the range
    0..255. *)

Module Str.

(** [s.startsWith(p)], returning what follows the prefix. *)
Fixpoint strip_prefix (p s : string) {struct s} : option string :=
  match p with
  | EmptyString => Some s
  | String a p' =>
      match s with
      | String b s' => if Ascii.eqb a b then strip_prefix p' s' else None
      | EmptyString => None
      end
  end.

(** [hay.includes(needle)]. *)
Fixpoint includes (hay needle : string) : bool :=
  match strip_prefix needle hay with
  | Some _ => true
  | None => match hay with
            | EmptyString => false
            | String _ t => includes t needle
            end
  end.

(** [s.substring(n)]. *)
Fixpoint skip (n : nat) (s : string) : string :=
  match n, s with
  | O, _ => s
  | S n', String _ t => skip n' t
  | S _, EmptyString => EmptyString
  end.

Definition is_empty (s : string) : bool :=
  match s with EmptyString => true | _ => false end.

Fixpoint forall_chars (p : ascii -> bool) (s : string) : bool :=
  match s with
  | EmptyString => true
  | String c t => p c && forall_chars p t
  end.

(** [parts.join('')]. *)
Fixpoint join (parts : list string) : string :=
  match parts with
  | [] => EmptyString
  | p :: ps => p ++ join ps
  end.

(** The quotation mark. *)
Definition dq : string := String "034"%char EmptyString.

(** White space and line terminators, as [trim] strips them. *)
Definition white_space (c : ascii) : bool :=
  existsb (Ascii.eqb c)
    ["009"; "010"; "011"; "012"; "013"; "032"; "160"]%char.

Fixpoint trim_start (s : string) : string :=
  match s with
  | String c t => if white_space c then trim_start t else s
  | EmptyString => EmptyString
  end.

(** What is left of [s] when its trailing white space is removed. *)
Fixpoint trim_end (s : string) : string :=
  match s with
  | EmptyString => EmptyString
  | String c t =>
      match trim_end t with
      | EmptyString => if white_space c then EmptyString else String c EmptyString
      | t' => String c t'
      end
  end.

(** [s.trim()] *)
Definition trim (s : string) : string := trim_end (trim_start s).

(** [s.replace(c, by)] with the global flag, for a one-character pattern. *)
Fixpoint replace_all (c : ascii) (by_ : string) (s : string) : string :=
  match s with
  | EmptyString => EmptyString
  | String a t => (if Ascii.eqb a c then by_ else String a EmptyString) ++ replace_all c by_ t
  end.

(** Line terminators of the language that fit the alphabet: LF and CR. *)
Definition line_terminator (c : ascii) : bool :=
  Ascii.eqb c "010"%char || Ascii.eqb c "013"%char.

Definition single_line (s : string) : bool :=
  forall_chars (fun c => negb (line_terminator c)) s.

End Str.

(** ** Regular expressions

    The fragment of the pattern language the source uses, with a
    backtracking matcher in continuation-passing style.  [test] is
    [RegExp.prototype.test] for a pattern without flags: a match may
    start at any offset. *)

Module Regex.
Import Str.

Inductive re : Type :=
| Bol                     (* ^ *)
| Eol                     (* $ *)
| Lit (l : string)        (* literal characters, escapes resolved *)
| Dot                     (* . *)
| Cat (a b : re)          (* ab *)
| Alt (a b : re)          (* a|b *)
| Opt (a : re)            (* a? *)
| Plus (a : re).          (* a+ *)

Declare Scope re_scope.
Delimit Scope re_scope with re.
Bind Scope re_scope with re.
Notation "a ;; b" := (Cat a b) (at level 61, right associativity) : re_scope.
Notation "a || b" := (Alt a b) : re_scope.

Definition cont : Type := nat -> string -> bool.

(** The loop of [a+], where [step] matches [a] once.  An iteration that
    consumes nothing is not repeated, so [length s] iterations bound the
    loop. *)
Fixpoint plus_loop (step : nat -> string -> cont -> bool)
    (fuel pos : nat) (s : string) (k : cont) {struct fuel} : bool :=
  match fuel with
  | O => false
  | S fuel' =>
      step pos s (fun p t =>
        (if Nat.ltb (String.length t) (String.length s)
         then plus_loop step fuel' p t k else false) || k p t)
  end.

(** [m r pos s k]: [r] matches at offset [pos], where [s] is the rest of
    the input, and the continuation accepts what follows. *)
Fixpoint m (r : re) (pos : nat) (s : string) (k : cont) {struct r} : bool :=
  match r with
  | Bol => Nat.eqb pos 0 && k pos s
  | Eol => is_empty s && k pos s
  | Lit l =>
      match strip_prefix l s with
      | Some t => k (pos + String.length l) t
      | None => false
      end
  | Dot =>
      match s with
      | String c t => negb (line_terminator c) && k (S pos) t
      | EmptyString => false
      end
  | Cat a b => m a pos s (fun p t => m b p t k)
  | Alt a b => m a pos s k || m b pos s k
  | Opt a => m a pos s k || k pos s
  | Plus a => plus_loop (m a) (S (String.length s)) pos s k
  end.

Definition accept : cont := fun _ _ => true.

Definition test (r : re) (s : string) : bool :=
  existsb (fun i => m r i (skip i s) accept) (seq 0 (S (String.length s))).

End Regex.

(** ** The URL validator (both revisions, lines 39-46 and 319-326) *)

Module Validator.
Import Str Regex.
Local Open Scope re_scope.

(** /^(https?:\/\/)?(www\.)?(youtube\.com|youtu\.?be)\/.+$/ *)
Definition pattern1 : re :=
  Bol;; Opt (Lit "http";; Opt (Lit "s");; Lit "://");; Opt (Lit "www.");;
  (Lit "youtube.com" || (Lit "youtu";; Opt (Lit ".");; Lit "be"));;
  Lit "/";; Plus Dot;; Eol.

(** /^https?:\/\/(youtu\.be\/|(www\.)?youtube\.com\/(watch|embed|v)\/)/ *)
Definition pattern2 : re :=
  Bol;; Lit "http";; Opt (Lit "s");; Lit "://";;
  (Lit "youtu.be/" ||
   (Opt (Lit "www.");; Lit "youtube.com/";;
    (Lit "watch" || (Lit "embed" || Lit "v"));; Lit "/")).

(** /^https?:\/\/music\.youtube\.com\/watch\?v=/ *)
Definition pattern3 : re :=
  Bol;; Lit "http";; Opt (Lit "s");; Lit "://music.youtube.com/watch?v=".

Definition patterns : list re := [pattern1; pattern2; pattern3].

Definition isValidYouTubeUrl (url : string) : bool :=
  existsb (fun p => test p url) patterns.

End Validator.

(** ** Values of the language

    Numbers are IEEE 754 binary64 values ([spec_float] at precision 53),
    so that [v / 1e6] and [toFixed] round as the engine does.  The
    fields of a JSON reply the controller reads are scalars or absent. *)

Module Js.
Import Str.

Definition number : Type := spec_float.
Definition prec : Z := 53.
Definition emax : Z := 1024.

(** The number a decimal integer literal denotes. *)
Definition of_Z (z : Z) : number := binary_normalize prec emax z 0 false.
Definition div (x y : number) : number := SFdiv prec emax x y.
(** [x >= y] *)
Definition geb (x y : number) : bool := SFleb y x.

Inductive Json : Type :=
| JUndefined                  (* the property is absent *)
| JNull
| JBool (b : bool)
| JNum (x : number)
| JStr (s : string).

(** What the engine and the browser decide and the model takes as given. *)
Record Host : Type := {
  (** Number::toString on a positive finite number that is not an
      integer below 2^53 (shortest round-trip digits). *)
  number_digits : number -> string;
  (** StringToNumber *)
  string_to_number : string -> number;
  (** the absolute URL a relative reference resolves to in the page *)
  resolve_url : string -> string;
  (** [formatFileSize], which rests on [Math.log] *)
  formatFileSize : Json -> string;
  (** [formatDate], which rests on [toLocaleDateString] *)
  formatDate : Json -> string
}.

Definition sign_text (s : bool) : string := if s then "-" else EmptyString.

Definition digits (n : Z) : string :=
  NilZero.string_of_uint (N.to_uint (Z.to_N n)).

(** The integer a number is, when it is one. *)
Definition integer_value (x : number) : option Z :=
  match x with
  | S754_zero _ => Some 0%Z
  | S754_finite s m e =>
      if (0 <=? e)%Z then Some (cond_Zopp s (Zpos m * 2 ^ e))
      else if (Zpos m mod 2 ^ (- e) =? 0)%Z
           then Some (cond_Zopp s (Zpos m / 2 ^ (- e)))
           else None
  | _ => None
  end.

(** Number::toString, radix 10. *)
Definition NumberToString (h : Host) (x : number) : string :=
  match x with
  | S754_nan => "NaN"
  | S754_zero _ => "0"
  | S754_infinity s => sign_text s ++ "Infinity"
  | S754_finite s _ _ =>
      sign_text s ++
      match integer_value (SFabs x) with
      | Some v => if (v <=? 2 ^ 53)%Z then digits v else number_digits h (SFabs x)
      | None => number_digits h (SFabs x)
      end
  end.

Definition ToString (h : Host) (v : Json) : string :=
  match v with
  | JUndefined => "undefined"
  | JNull => "null"
  | JBool b => if b then "true" else "false"
  | JNum x => NumberToString h x
  | JStr s => s
  end.

Definition ToNumber (h : Host) (v : Json) : number :=
  match v with
  | JUndefined => S754_nan
  | JNull => S754_zero false
  | JBool b => if b then of_Z 1 else S754_zero false
  | JNum x => x
  | JStr s => string_to_number h s
  end.

(** ToBoolean *)
Definition truthy (v : Json) : bool :=
  match v with
  | JUndefined | JNull => false
  | JBool b => b
  | JNum (S754_zero _) | JNum S754_nan => false
  | JNum _ => true
  | JStr s => negb (is_empty s)
  end.

(** [a || b] *)
Definition or_else (a b : Json) : Json := if truthy a then a else b.

(** [v === 'literal'] *)
Definition is_str (v : Json) (s : string) : bool :=
  match v with
  | JStr t => String.eqb t s
  | _ => false
  end.

(** [v !== undefined] *)
Definition defined (v : Json) : bool :=
  match v with JUndefined => false | _ => true end.

(** [Math.round]: the integer nearest to [x], ties towards +infinity. *)
Definition Math_round (x : number) : number :=
  match x with
  | S754_finite s m e =>
      if (0 <=? e)%Z then x
      else
        let d := (2 ^ (- e))%Z in
        let n := ((2 * cond_Zopp s (Zpos m) + d) / (2 * d))%Z in
        if (n =? 0)%Z then S754_zero s else of_Z n
  | _ => x
  end.

(** [x.toFixed(1)]: with [n] the integer nearest to [10 x] (the larger
    one on a tie), the digits of [n] with a point before the last. *)
Definition toFixed1 (h : Host) (x : number) : string :=
  match x with
  | S754_finite s m e =>
      if geb (SFabs x) (of_Z (10 ^ 21)) then NumberToString h x
      else
        let n := if (0 <=? e)%Z then (10 * Zpos m * 2 ^ e)%Z
                 else ((20 * Zpos m + 2 ^ (- e)) / (2 * 2 ^ (- e)))%Z in
        sign_text s ++ digits (n / 10) ++ "." ++ digits (n mod 10)
  | S754_zero _ => "0.0"
  | _ => NumberToString h x
  end.

(** Assigning [v] to [textContent], a nullable string attribute. *)
Definition text_of (h : Host) (v : Json) : string :=
  match v with
  | JUndefined | JNull => EmptyString
  | _ => ToString h v
  end.

End Js.

(** ** The browser side: timers, requests in flight, the page *)

Module Browser.
Import Js.

(** The functions the controller hands to [setInterval] and [setTimeout]. *)
Inductive Callback : Type :=
| PollProgress                 (* the callback of [monitorProgress] *)
| ResetProgress                (* hideProgressSection(); currentDownloadId = null *)
| RemoveNode (node : nat)      (* if (notification.parentNode) notification.remove() *)
| RefreshDownloads             (* () => downloader.loadDownloads() *)
| InfoFor (url : string).      (* () => this.getVideoInfo(pastedText) *)

Inductive Timer : Type :=
| Interval (ms : N) (cb : Callback)
| Timeout (ms : N) (cb : Callback).

(** A promise the controller awaits, with what its continuation closes over. *)
Inductive Pending : Type :=
| AwaitInfo
| AwaitCookieStatus
| AwaitClipboard
| AwaitDownload
| AwaitProgress (url : string)
| AwaitList
| AwaitFile (filename : string)
| AwaitDelete (filename : string)
| AwaitPlay.

(** Nodes the controller appends to the body.  The class name and the
    markup of a node are functions of what is kept here. *)
Inductive Notice : Type :=
| Note (type msg : string)               (* showNotification(msg, type) *)
| AlreadyDownloaded (filename : string). (* showAlreadyDownloaded(filename) *)

Record ProgressUi : Type := {
  progressSection_hidden : bool;
  progressFill_width : string;
  progressText : string;
  progressStatus : string
}.

Record Button : Type := {
  disabled : bool;
  innerHTML : string
}.

Record Player : Type := {
  src_attr : option string;       (* the src attribute, when set *)
  paused : bool;
  currentTime : nat;
  nowPlayingTitle : string;
  audioPlayerSection_hidden : bool
}.

Record VideoInfo : Type := {
  videoInfo_hidden : bool;
  videoThumbnail_src : string;
  videoTitle : string;
  videoUploader : string;
  videoDuration : string;
  videoViews : string;
  alreadyDownloaded_hidden : bool
}.

(** The page is taken to hold every element the script looks up by its
    id, so the tests [if (element)] of the second revision succeed. *)
Record Page : Type := {
  youtubeUrl_value : string;
  loadingSpinner_hidden : bool;
  videoInfo : VideoInfo;
  downloadBtn : Button;
  progressUi : ProgressUi;
  downloadsList_innerHTML : string;
  player : Player;
  notices : list (nat * Notice);   (* attached nodes, oldest first *)
  saved : list string;             (* files handed to the user by a click on a link *)
  alerts : list string             (* alert() dialogs shown, oldest first *)
}.

Record State : Type := {
  currentDownloadId : Json;
  progressInterval : option nat;   (* null, or a timer handle *)
  timers : list (nat * Timer);     (* the active timers, by handle *)
  next_handle : nat;
  next_node : nat;
  pending : list Pending;
  console : list string;           (* console.error, oldest first *)
  page : Page
}.

(** *** Field updates *)

Definition set_currentDownloadId (v : Json) (s : State) : State :=
  {| currentDownloadId := v; progressInterval := progressInterval s;
     timers := timers s; next_handle := next_handle s; next_node := next_node s;
     pending := pending s; console := console s; page := page s |}.

Definition set_progressInterval (v : option nat) (s : State) : State :=
  {| currentDownloadId := currentDownloadId s; progressInterval := v;
     timers := timers s; next_handle := next_handle s; next_node := next_node s;
     pending := pending s; console := console s; page := page s |}.

Definition set_timers (v : list (nat * Timer)) (s : State) : State :=
  {| currentDownloadId := currentDownloadId s; progressInterval := progressInterval s;
     timers := v; next_handle := next_handle s; next_node := next_node s;
     pending := pending s; console := console s; page := page s |}.

Definition set_next_handle (v : nat) (s : State) : State :=
  {| currentDownloadId := currentDownloadId s; progressInterval := progressInterval s;
     timers := timers s; next_handle := v; next_node := next_node s;
     pending := pending s; console := console s; page := page s |}.

Definition set_next_node (v : nat) (s : State) : State :=
  {| currentDownloadId := currentDownloadId s; progressInterval := progressInterval s;
     timers := timers s; next_handle := next_handle s; next_node := v;
     pending := pending s; console := console s; page := page s |}.

Definition set_pending (v : list Pending) (s : State) : State :=
  {| currentDownloadId := currentDownloadId s; progressInterval := progressInterval s;
     timers := timers s; next_handle := next_handle s; next_node := next_node s;
     pending := v; console := console s; page := page s |}.

Definition set_console (v : list string) (s : State) : State :=
  {| currentDownloadId := currentDownloadId s; progressInterval := progressInterval s;
     timers := timers s; next_handle := next_handle s; next_node := next_node s;
     pending := pending s; console := v; page := page s |}.

Definition set_page (v : Page) (s : State) : State :=
  {| currentDownloadId := currentDownloadId s; progressInterval := progressInterval s;
     timers := timers s; next_handle := next_handle s; next_node := next_node s;
     pending := pending s; console := console s; page := v |}.

Definition set_youtubeUrl_value (v : string) (p : Page) : Page :=
  {| youtubeUrl_value := v; loadingSpinner_hidden := loadingSpinner_hidden p;
     videoInfo := videoInfo p; downloadBtn := downloadBtn p; progressUi := progressUi p;
     downloadsList_innerHTML := downloadsList_innerHTML p; player := player p;
     notices := notices p; saved := saved p; alerts := alerts p |}.

Definition set_loadingSpinner_hidden (v : bool) (p : Page) : Page :=
  {| youtubeUrl_value := youtubeUrl_value p; loadingSpinner_hidden := v;
     videoInfo := videoInfo p; downloadBtn := downloadBtn p; progressUi := progressUi p;
     downloadsList_innerHTML := downloadsList_innerHTML p; player := player p;
     notices := notices p; saved := saved p; alerts := alerts p |}.

Definition set_videoInfo (v : VideoInfo) (p : Page) : Page :=
  {| youtubeUrl_value := youtubeUrl_value p; loadingSpinner_hidden := loadingSpinner_hidden p;
     videoInfo := v; downloadBtn := downloadBtn p; progressUi := progressUi p;
     downloadsList_innerHTML := downloadsList_innerHTML p; player := player p;
     notices := notices p; saved := saved p; alerts := alerts p |}.

Definition set_downloadBtn (v : Button) (p : Page) : Page :=
  {| youtubeUrl_value := youtubeUrl_value p; loadingSpinner_hidden := loadingSpinner_hidden p;
     videoInfo := videoInfo p; downloadBtn := v; progressUi := progressUi p;
     downloadsList_innerHTML := downloadsList_innerHTML p; player := player p;
     notices := notices p; saved := saved p; alerts := alerts p |}.

Definition set_progressUi (v : ProgressUi) (p : Page) : Page :=
  {| youtubeUrl_value := youtubeUrl_value p; loadingSpinner_hidden := loadingSpinner_hidden p;
     videoInfo := videoInfo p; downloadBtn := downloadBtn p; progressUi := v;
     downloadsList_innerHTML := downloadsList_innerHTML p; player := player p;
     notices := notices p; saved := saved p; alerts := alerts p |}.

Definition set_downloadsList_innerHTML (v : string) (p : Page) : Page :=
  {| youtubeUrl_value := youtubeUrl_value p; loadingSpinner_hidden := loadingSpinner_hidden p;
     videoInfo := videoInfo p; downloadBtn := downloadBtn p; progressUi := progressUi p;
     downloadsList_innerHTML := v; player := player p;
     notices := notices p; saved := saved p; alerts := alerts p |}.

Definition set_player (v : Player) (p : Page) : Page :=
  {| youtubeUrl_value := youtubeUrl_value p; loadingSpinner_hidden := loadingSpinner_hidden p;
     videoInfo := videoInfo p; downloadBtn := downloadBtn p; progressUi := progressUi p;
     downloadsList_innerHTML := downloadsList_innerHTML p; player := v;
     notices := notices p; saved := saved p; alerts := alerts p |}.

Definition set_notices (v : list (nat * Notice)) (p : Page) : Page :=
  {| youtubeUrl_value := youtubeUrl_value p; loadingSpinner_hidden := loadingSpinner_hidden p;
     videoInfo := videoInfo p; downloadBtn := downloadBtn p; progressUi := progressUi p;
     downloadsList_innerHTML := downloadsList_innerHTML p; player := player p;
     notices := v; saved := saved p; alerts := alerts p |}.

Definition set_saved (v : list string) (p : Page) : Page :=
  {| youtubeUrl_value := youtubeUrl_value p; loadingSpinner_hidden := loadingSpinner_hidden p;
     videoInfo := videoInfo p; downloadBtn := downloadBtn p; progressUi := progressUi p;
     downloadsList_innerHTML := downloadsList_innerHTML p; player := player p;
     notices := notices p; saved := v; alerts := alerts p |}.

Definition set_alerts (v : list string) (p : Page) : Page :=
  {| youtubeUrl_value := youtubeUrl_value p; loadingSpinner_hidden := loadingSpinner_hidden p;
     videoInfo := videoInfo p; downloadBtn := downloadBtn p; progressUi := progressUi p;
     downloadsList_innerHTML := downloadsList_innerHTML p; player := player p;
     notices := notices p; saved := saved p; alerts := v |}.

(** [on_page f]: a handler that only touches the page. *)
Definition on_page (f : Page -> Page) (s : State) : State := set_page (f (page s)) s.

(** *** Timers *)

Definition setInterval (cb : Callback) (ms : N) (s : State) : nat * State :=
  (next_handle s,
   set_next_handle (S (next_handle s))
     (set_timers (timers s ++ [(next_handle s, Interval ms cb)]) s)).

Definition setTimeout (cb : Callback) (ms : N) (s : State) : State :=
  set_next_handle (S (next_handle s))
    (set_timers (timers s ++ [(next_handle s, Timeout ms cb)]) s).

Definition drop_timer (h : nat) (l : list (nat * Timer)) : list (nat * Timer) :=
  filter (fun e => negb (Nat.eqb (fst e) h)) l.

(** [clearInterval(handle)]; [null] names no timer. *)
Definition clearInterval (handle : option nat) (s : State) : State :=
  match handle with
  | Some h => set_timers (drop_timer h (timers s)) s
  | None => s
  end.

Fixpoint find_timer (h : nat) (l : list (nat * Timer)) : option Timer :=
  match l with
  | [] => None
  | (h', t) :: l' => if Nat.eqb h' h then Some t else find_timer h l'
  end.

(** The intervals that run the poll callback. *)
Definition is_poller (e : nat * Timer) : bool :=
  match snd e with
  | Interval _ PollProgress => true
  | _ => false
  end.

Definition pollers (s : State) : list (nat * Timer) := filter is_poller (timers s).

(** *** Requests in flight *)

Definition Pending_eqb (a b : Pending) : bool :=
  match a, b with
  | AwaitInfo, AwaitInfo | AwaitCookieStatus, AwaitCookieStatus
  | AwaitClipboard, AwaitClipboard | AwaitDownload, AwaitDownload
  | AwaitList, AwaitList | AwaitPlay, AwaitPlay => true
  | AwaitProgress u, AwaitProgress v => String.eqb u v
  | AwaitFile u, AwaitFile v => String.eqb u v
  | AwaitDelete u, AwaitDelete v => String.eqb u v
  | _, _ => false
  end.

(** Settle the oldest pending promise equal to [p]. *)
Fixpoint settle (p : Pending) (l : list Pending) : option (list Pending) :=
  match l with
  | [] => None
  | q :: l' =>
      if Pending_eqb p q then Some l'
      else option_map (cons q) (settle p l')
  end.

Definition await (p : Pending) (s : State) : State :=
  set_pending (pending s ++ [p]) s.

Definition console_error (msg : string) (s : State) : State :=
  set_console (console s ++ [msg]) s.

End Browser.

(** ** The JSON shapes of the server's replies (the fields the controller reads) *)

Module Api.
Import Js.

Module Info.
Record t : Type := {
  success : Json; title : Json; uploader : Json; duration : Json;
  view_count : Json; thumbnail : Json; already_downloaded : Json;
  error : Json; cookie_status : Json
}.
End Info.

Module Download.
Record t : Type := {
  success : Json; download_id : Json; error : Json;
  existing_file : Json; cookie_status : Json
}.
End Download.

Module Progress.
Record t : Type := {
  finished : Json; progress : Json; status : Json; error : Json
}.
End Progress.

(** An item of the downloads list. *)
Record Entry : Type := {
  filename : string;
  name : string;
  size : Json;
  size_formatted : Json;
  modified : Json;
  modified_formatted : Json;
  duration_formatted : Json
}.

Module Listing.
Record t : Type := {
  success : Json;
  downloads : option (list Entry)    (* [None]: absent or null *)
}.
End Listing.

Module Deletion.
Record t : Type := { success : Json; error : Json }.
End Deletion.

Module Cookies.
Record t : Type := { success : Json; cookies_available : Json }.
End Cookies.

End Api.

(** What happens to the page: the user's actions, timers that fire,
    promises that settle. *)

Module Events.
Import Js Api.

Inductive Event : Type :=
| Paste (text : string)
| Input (value : string)
| Submit                                     (* the button, or Enter in the field *)
| Fire (handle : nat)
| ClipboardText (text : string)
| ClipboardDenied
| CookieReply (d : Cookies.t)
| CookieError
| InfoReply (d : Info.t)
| InfoError
| DownloadReply (d : Download.t)
| DownloadError
| ProgressReply (url : string) (r : Progress.t)
| ProgressError (url : string)
| ListReply (d : Listing.t)
| ListError
| ClickPlay (filename title : string)
| ClickStop
| ClickDownload (filename : string)
| FileReply (filename : string) (ok : bool) (err : Json)
| FileError (filename : string)
| ClickDelete (filename : string) (confirmed : bool)
| DeleteReply (filename : string) (d : Deletion.t)
| DeleteError (filename : string)
| PlayStarted
| PlayRejected
| Playback (time : nat)
| CloseNotice (node : nat).

End Events.

(** ** The second revision of the controller (lines 280-870) *)

Module Rev2.
Import Str Js Browser Api Events Validator.

(** Handlers run one after the other on the state. *)
Definition andThen (f g : State -> State) : State -> State := fun s => g (f s).
Infix ">>" := andThen (at level 55, left associativity).

(** The markup of a text node: what [innerHTML] gives back for an element
    whose [textContent] was set. *)
Fixpoint serialize_text (s : string) : string :=
  match s with
  | EmptyString => EmptyString
  | String c t =>
      (if Ascii.eqb c "&" then "&amp;"
       else if Ascii.eqb c "160" then "&nbsp;"
       else if Ascii.eqb c "<" then "&lt;"
       else if Ascii.eqb c ">" then "&gt;"
       else String c EmptyString) ++ serialize_text t
  end.

(** lines 701-705 *)
Definition escapeHtml (s : string) : string := serialize_text s.

Definition spinner_label : string := "<i class=" ++ dq ++ "fas fa-spinner fa-spin" ++ dq ++ "></i> Downloading...".
Definition download_label : string := "<i class=" ++ dq ++ "fas fa-download" ++ dq ++ "></i> Download".

Section WithHost.
Variable h : Host.

(** lines 694-699 *)
Definition formatViews (v : Json) : Json :=
  if geb (ToNumber h v) (of_Z (10 ^ 9))
  then JStr (toFixed1 h (div (ToNumber h v) (of_Z (10 ^ 9))) ++ "B")
  else if geb (ToNumber h v) (of_Z (10 ^ 6))
  then JStr (toFixed1 h (div (ToNumber h v) (of_Z (10 ^ 6))) ++ "M")
  else if geb (ToNumber h v) (of_Z (10 ^ 3))
  then JStr (toFixed1 h (div (ToNumber h v) (of_Z (10 ^ 3))) ++ "K")
  else v.

(** lines 707-719 *)
Definition showLoading : State -> State := on_page (set_loadingSpinner_hidden false).
Definition hideLoading : State -> State := on_page (set_loadingSpinner_hidden true).

Definition appendToBody (n : Notice) (s : State) : State :=
  set_next_node (S (next_node s))
    (on_page (fun p => set_notices (notices p ++ [(next_node s, n)]) p) s).

(** lines 729-764 *)
Definition showNotification (msg type : string) (s : State) : State :=
  setTimeout (RemoveNode (next_node s)) 5000 (appendToBody (Note type msg) s).

(** lines 721-727 *)
Definition showError (msg : string) : State -> State := showNotification msg "error".
Definition showSuccess (msg : string) : State -> State := showNotification msg "success".

(** lines 436-471 *)
Definition showAlreadyDownloaded (filename : string) (s : State) : State :=
  setTimeout (RemoveNode (next_node s)) 8000 (appendToBody (AlreadyDownloaded filename) s).

(** lines 328-338 *)
Definition checkCookieStatus : State -> State := await AwaitCookieStatus.

Definition checkCookieStatus_then (d : Cookies.t) : State -> State :=
  if truthy (Cookies.success d) && truthy (Cookies.cookies_available d)
  then showNotification "Cookies loaded - authentication enabled" "success"
  else fun s => s.

(** lines 377-385 *)
Definition displayVideoInfo (info : Info.t) : State -> State :=
  on_page (fun p => set_videoInfo
    {| videoInfo_hidden := false;
       videoThumbnail_src := ToString h (Info.thumbnail info);
       videoTitle := text_of h (Info.title info);
       videoUploader := text_of h (Info.uploader info);
       videoDuration := text_of h (Info.duration info);
       videoViews := text_of h (formatViews (Info.view_count info));
       alreadyDownloaded_hidden := alreadyDownloaded_hidden (videoInfo p) |} p).

Definition set_videoInfo_hidden (v : bool) (p : Page) : Page :=
  set_videoInfo
    {| videoInfo_hidden := v;
       videoThumbnail_src := videoThumbnail_src (videoInfo p);
       videoTitle := videoTitle (videoInfo p);
       videoUploader := videoUploader (videoInfo p);
       videoDuration := videoDuration (videoInfo p);
       videoViews := videoViews (videoInfo p);
       alreadyDownloaded_hidden := alreadyDownloaded_hidden (videoInfo p) |} p.

Definition set_alreadyDownloaded_hidden (v : bool) (p : Page) : Page :=
  set_videoInfo
    {| videoInfo_hidden := videoInfo_hidden (videoInfo p);
       videoThumbnail_src := videoThumbnail_src (videoInfo p);
       videoTitle := videoTitle (videoInfo p);
       videoUploader := videoUploader (videoInfo p);
       videoDuration := videoDuration (videoInfo p);
       videoViews := videoViews (videoInfo p);
       alreadyDownloaded_hidden := v |} p.

(** lines 387-389 *)
Definition hideVideoInfo : State -> State := on_page (set_videoInfo_hidden true).

Definition network_error : string :=
  "Network error. Please check your connection and try again.".

(** lines 340-347: up to the request *)
Definition getVideoInfo (url : string) : State -> State :=
  showLoading >> await AwaitInfo.

(** lines 371-374 *)
Definition getVideoInfo_catch : State -> State :=
  hideLoading >> showError network_error.

(** lines 348-370; [errorMsg.includes] throws unless the error is a string *)
Definition getVideoInfo_then (data : Info.t) : State -> State :=
  hideLoading >>
  if truthy (Info.success data) then
    displayVideoInfo data >>
    on_page (set_alreadyDownloaded_hidden (negb (truthy (Info.already_downloaded data))))
  else
    match Info.error data with
    | JStr errorMsg =>
        if includes errorMsg "authentication" || includes errorMsg "Sign in"
           || includes errorMsg "bot"
        then
          if is_str (Info.cookie_status data) "available"
          then showError "YouTube is requiring authentication. The app is using cookies but this video may still be restricted."
          else showError "YouTube is requiring authentication. Some videos may not be accessible without cookies."
        else if includes errorMsg "Private" || includes errorMsg "unavailable"
        then showError "This video is private or unavailable."
        else if includes errorMsg "Invalid YouTube URL"
        then showError "Please enter a valid YouTube URL."
        else showError errorMsg
    | _ => getVideoInfo_catch
    end.

(** lines 303-308 *)
Definition handlePaste (pastedText : string) : State -> State :=
  if isValidYouTubeUrl pastedText
  then setTimeout (InfoFor pastedText) 100
  else fun s => s.

(** lines 310-317 *)
Definition handleUrlInput (value : string) : State -> State :=
  if isValidYouTubeUrl (trim value)
  then getVideoInfo (trim value)
  else hideVideoInfo.

(** lines 766-776 *)
Definition checkClipboard : State -> State := await AwaitClipboard.

Definition checkClipboard_then (text : string) : State -> State :=
  if isValidYouTubeUrl text
  then on_page (set_youtubeUrl_value text) >> getVideoInfo text
  else fun s => s.

(** lines 545-557 *)
Definition set_progressSection_hidden (v : bool) (p : Page) : Page :=
  set_progressUi
    {| progressSection_hidden := v;
       progressFill_width := progressFill_width (progressUi p);
       progressText := progressText (progressUi p);
       progressStatus := progressStatus (progressUi p) |} p.

Definition showProgressSection : State -> State := on_page (set_progressSection_hidden false).
Definition hideProgressSection : State -> State := on_page (set_progressSection_hidden true).

(** lines 527-543.  [progressFill_width] is the value assigned to
    [style.width]. *)
Definition updateProgress (progress : Progress.t) : State -> State :=
  on_page (fun p => set_progressUi
    {| progressSection_hidden := progressSection_hidden (progressUi p);
       progressFill_width := ToString h (Progress.progress progress) ++ "%";
       progressText :=
         NumberToString h (Math_round (ToNumber h (Progress.progress progress))) ++ "%";
       progressStatus :=
         if is_str (Progress.status progress) "downloading" then "Downloading..."
         else if is_str (Progress.status progress) "completed" then "Completed!"
         else if is_str (Progress.status progress) "error" then "Error occurred"
         else "Processing..." |} p).

(** lines 559-561: up to the request *)
Definition loadDownloads : State -> State := await AwaitList.

(** lines 582-603: the markup of one item *)
Definition item (d : Entry) : string :=
  "
            <div class=" ++ dq ++ "download-item" ++ dq ++ ">
                <div class=" ++ dq ++ "download-info" ++ dq ++ ">
                    " ++ "<h4>" ++ escapeHtml (name d) ++ "</h4>" ++ "
                    <div class=" ++ dq ++ "download-meta" ++ dq ++ ">
                        <span><i class=" ++ dq ++ "fas fa-hdd" ++ dq ++ "></i> " ++ (if truthy (size_formatted d) then ToString h (size_formatted d) else formatFileSize h (size d)) ++ "</span>
                        <span><i class=" ++ dq ++ "fas fa-calendar" ++ dq ++ "></i> " ++ (if truthy (modified_formatted d) then ToString h (modified_formatted d) else formatDate h (modified d)) ++ "</span>
                    </div>
                </div>
                <div class=" ++ dq ++ "download-actions" ++ dq ++ ">
                    <button class=" ++ dq ++ "action-btn play-btn" ++ dq ++ " " ++ "onclick=" ++ dq ++ "playFile('" ++ filename d ++ "', '" ++ escapeHtml (name d) ++ "')" ++ dq ++ ">
                        <i class=" ++ dq ++ "fas fa-play" ++ dq ++ "></i> Play
                    </button>
                    <button class=" ++ dq ++ "action-btn download-btn" ++ dq ++ " " ++ "onclick=" ++ dq ++ "downloadFile('" ++ filename d ++ "')" ++ dq ++ ">
                        <i class=" ++ dq ++ "fas fa-download" ++ dq ++ "></i> Download
                    </button>
                    <button class=" ++ dq ++ "action-btn delete-btn" ++ dq ++ " " ++ "onclick=" ++ dq ++ "deleteFile('" ++ filename d ++ "')" ++ dq ++ ">
                        <i class=" ++ dq ++ "fas fa-trash" ++ dq ++ "></i> Delete
                    </button>
                </div>
            </div>
        ".

Definition empty_state : string :=
  "<div class=" ++ dq ++ "empty-state" ++ dq ++ "><i class=" ++ dq ++ "fas fa-music" ++ dq ++ "></i><p>No downloads yet.</p></div>".

(** lines 573-604 *)
Definition displayDownloads (downloads : option (list Entry)) : State -> State :=
  match downloads with
  | None | Some [] => on_page (set_downloadsList_innerHTML empty_state)
  | Some l => on_page (set_downloadsList_innerHTML (join (map item l)))
  end.

(** lines 562-570 *)
Definition loadDownloads_then (data : Listing.t) : State -> State :=
  if truthy (Listing.success data)
  then displayDownloads (Listing.downloads data)
  else console_error "Failed to load downloads:".

Definition loadDownloads_catch : State -> State :=
  console_error "Error loading downloads:".

(** lines 473-475 and 524: the interval is created and its handle kept *)
Definition monitorProgress (s : State) : State :=
  let (handle, s') := setInterval PollProgress 1000 (showProgressSection s) in
  set_progressInterval (Some handle) s'.

Definition enable_downloadBtn : State -> State :=
  on_page (set_downloadBtn {| disabled := false; innerHTML := download_label |}).

(** line 477: the callback of the interval, up to the request *)
Definition poll (s : State) : State :=
  await (AwaitProgress ("/progress/" ++ ToString h (currentDownloadId s))) s.

(** lines 478-520: the callback, once the reply is parsed *)
Definition poll_then (progress : Progress.t) : State -> State :=
  if defined (Progress.finished progress) then
    updateProgress
      {| Progress.finished := JUndefined;
         Progress.progress := or_else (Progress.progress progress) (JNum (of_Z 0));
         Progress.status :=
           JStr (if truthy (Progress.finished progress)
                 then (if truthy (Progress.error progress) then "error" else "completed")
                 else "downloading");
         Progress.error := Progress.error progress |} >>
    if truthy (Progress.finished progress) then
      (fun s => clearInterval (progressInterval s) s) >>
      (if truthy (Progress.error progress)
       then showError ("Download failed: " ++ ToString h (Progress.error progress))
       else showSuccess "Download completed!" >> loadDownloads) >>
      enable_downloadBtn >>
      setTimeout ResetProgress 3000
    else fun s => s
  else
    updateProgress progress >>
    if is_str (Progress.status progress) "completed"
       || is_str (Progress.status progress) "error"
    then
      (fun s => clearInterval (progressInterval s) s) >>
      (if is_str (Progress.status progress) "completed"
       then showSuccess "Download completed!" >> loadDownloads
       else showError ("Download failed: " ++ ToString h (Progress.error progress))) >>
      enable_downloadBtn >>
      setTimeout ResetProgress 3000
    else fun s => s.

(** lines 521-523 *)
Definition poll_catch : State -> State :=
  console_error "Error monitoring progress:".

(** lines 497-500 and 515-518: the function handed to [setTimeout] *)
Definition resetProgress : State -> State :=
  hideProgressSection >> set_currentDownloadId JNull.

(** lines 391-405: up to the request *)
Definition startDownload (s : State) : State :=
  let url := trim (youtubeUrl_value (page s)) in
  if is_empty url || negb (isValidYouTubeUrl url)
  then showError "Please enter a valid YouTube URL" s
  else
    (showLoading >>
     on_page (set_downloadBtn {| disabled := true; innerHTML := spinner_label |}) >>
     await AwaitDownload) s.

(** lines 428-433 *)
Definition startDownload_catch : State -> State :=
  hideLoading >> showError network_error >> enable_downloadBtn.

(** lines 406-427; [errorMsg.includes] and [filename.replace] throw
    unless they are applied to strings *)
Definition startDownload_then (data : Download.t) : State -> State :=
  hideLoading >>
  if truthy (Download.success data) then
    set_currentDownloadId (Download.download_id data) >>
    monitorProgress >>
    showSuccess "Download started successfully!"
  else
    match Download.error data with
    | JStr errorMsg =>
        if includes errorMsg "authentication" || includes errorMsg "Sign in"
           || includes errorMsg "bot"
        then
          (if is_str (Download.cookie_status data) "available"
           then showError "YouTube is requiring authentication for this video. The app is using cookies but this video may be restricted."
           else showError "YouTube is requiring authentication for this video. Some videos require cookies to download.") >>
          enable_downloadBtn
        else if includes errorMsg "already been downloaded"
        then
          match Download.existing_file data with
          | JStr filename =>
              showAlreadyDownloaded filename >> showError errorMsg >> enable_downloadBtn
          | _ => startDownload_catch
          end
        else showError errorMsg >> enable_downloadBtn
    | _ => startDownload_catch
    end.

(** lines 606-623.  Assigning [src] loads the resource from its start;
    [play()] clears [paused] and returns a promise. *)
Definition playAudio (filename title : string) : State -> State :=
  on_page (fun p => set_player
    {| src_attr := Some ("/play-audio/" ++ filename);
       paused := false;
       currentTime := 0;
       nowPlayingTitle := title;
       audioPlayerSection_hidden := false |} p) >>
  await AwaitPlay >>
  showSuccess ("Now playing: " ++ title).

(** lines 617-620 *)
Definition playAudio_catch : State -> State :=
  console_error "Error playing audio:" >>
  showError "Error playing audio. Please try downloading the file instead.".

(** lines 625-636 *)
Definition stopAudio : State -> State :=
  on_page (fun p => set_player
    {| src_attr := src_attr (player p);
       paused := true;
       currentTime := 0;
       nowPlayingTitle := nowPlayingTitle (player p);
       audioPlayerSection_hidden := true |} p).

(** lines 638-640: up to the request *)
Definition downloadFile (filename : string) : State -> State :=
  await (AwaitFile filename).

(** lines 641-655 *)
Definition downloadFile_then (filename : string) (ok : bool) (err : Json)
  : State -> State :=
  if ok
  then on_page (fun p => set_saved (saved p ++ [filename]) p) >>
       showSuccess "Download started!"
  else showError (ToString h (or_else err (JStr "Failed to download file"))).

(** lines 656-658 *)
Definition downloadFile_catch : State -> State :=
  showError "Network error downloading file".

(** [audioPlayer.src]: the attribute, resolved; empty when it is not set. *)
Definition audioPlayer_src (p : Page) : string :=
  match src_attr (player p) with
  | Some a => resolve_url h a
  | None => EmptyString
  end.

(** lines 661-665: the confirmation and the request *)
Definition deleteFile (filename : string) (confirmed : bool) : State -> State :=
  if confirmed then await (AwaitDelete filename) else fun s => s.

(** lines 666-676 *)
Definition deleteFile_then (filename : string) (data : Deletion.t) : State -> State :=
  if truthy (Deletion.success data) then
    showSuccess "File deleted successfully!" >>
    loadDownloads >>
    (fun s => if includes (audioPlayer_src (page s)) filename then stopAudio s else s)
  else showError (ToString h (or_else (Deletion.error data) (JStr "Failed to delete file"))).

(** lines 677-679 *)
Definition deleteFile_catch : State -> State :=
  showError "Network error deleting file".

(** lines 281-292: the constructor; [bindEvents] registers the handlers
    that [Paste], [Input] and [Submit] run *)
Definition init : State -> State :=
  loadDownloads >> checkClipboard >> checkCookieStatus.

(** lines 864-870: the state once the document is loaded, on a page [p] *)
Definition boot (p : Page) : State :=
  snd (setInterval RefreshDownloads 30000
    (init {| currentDownloadId := JNull; progressInterval := None;
             timers := []; next_handle := 1; next_node := 0;
             pending := []; console := []; page := p |})).

(** What a timer runs when it fires. *)
Definition run_callback (cb : Callback) : State -> State :=
  match cb with
  | PollProgress => poll
  | ResetProgress => resetProgress
  | RemoveNode node =>
      on_page (fun p => set_notices (filter (fun e => negb (Nat.eqb (fst e) node)) (notices p)) p)
  | RefreshDownloads => loadDownloads
  | InfoFor url => getVideoInfo url
  end.

Definition fire (handle : nat) (s : State) : option State :=
  match find_timer handle (timers s) with
  | Some (Interval _ cb) => Some (run_callback cb s)
  | Some (Timeout _ cb) =>
      Some (run_callback cb (set_timers (drop_timer handle (timers s)) s))
  | None => None
  end.

(** A promise settles: its continuation runs, if it is pending. *)
Definition settled (p : Pending) (k : State -> State) (s : State) : option State :=
  match settle p (pending s) with
  | Some l => Some (k (set_pending l s))
  | None => None
  end.

Definition is_note (node : nat) (p : Page) : bool :=
  existsb (fun e => Nat.eqb (fst e) node &&
                    match snd e with Note _ _ => true | _ => false end) (notices p).

(** One turn of the event loop; [None] when the event cannot occur. *)
Definition step (e : Event) (s : State) : option State :=
  match e with
  | Paste text => Some (handlePaste text s)
  | Input value => Some (handleUrlInput value (on_page (set_youtubeUrl_value value) s))
  | Submit => Some (startDownload s)
  | Fire handle => fire handle s
  | ClipboardText text => settled AwaitClipboard (checkClipboard_then text) s
  | ClipboardDenied => settled AwaitClipboard (fun s => s) s
  | CookieReply d => settled AwaitCookieStatus (checkCookieStatus_then d) s
  | CookieError => settled AwaitCookieStatus (fun s => s) s
  | InfoReply d => settled AwaitInfo (getVideoInfo_then d) s
  | InfoError => settled AwaitInfo getVideoInfo_catch s
  | DownloadReply d => settled AwaitDownload (startDownload_then d) s
  | DownloadError => settled AwaitDownload startDownload_catch s
  | ProgressReply url r => settled (AwaitProgress url) (poll_then r) s
  | ProgressError url => settled (AwaitProgress url) poll_catch s
  | ListReply d => settled AwaitList (loadDownloads_then d) s
  | ListError => settled AwaitList loadDownloads_catch s
  | ClickPlay filename title => Some (playAudio filename title s)
  | ClickStop => Some (stopAudio s)
  | ClickDownload filename => Some (downloadFile filename s)
  | FileReply filename ok err => settled (AwaitFile filename) (downloadFile_then filename ok err) s
  | FileError filename => settled (AwaitFile filename) downloadFile_catch s
  | ClickDelete filename confirmed => Some (deleteFile filename confirmed s)
  | DeleteReply filename d => settled (AwaitDelete filename) (deleteFile_then filename d) s
  | DeleteError filename => settled (AwaitDelete filename) deleteFile_catch s
  | PlayStarted => settled AwaitPlay (fun s => s) s
  | PlayRejected => settled AwaitPlay playAudio_catch s
  | Playback time =>
      if paused (player (page s)) then None
      else Some (on_page (fun p => set_player
             {| src_attr := src_attr (player p); paused := false; currentTime := time;
                nowPlayingTitle := nowPlayingTitle (player p);
                audioPlayerSection_hidden := audioPlayerSection_hidden (player p) |} p) s)
  | CloseNotice node =>
      if is_note node (page s)
      then Some (run_callback (RemoveNode node) s)
      else None
  end.

Fixpoint run (tr : list Event) (s : State) : option State :=
  match tr with
  | [] => Some s
  | e :: tr' =>
      match step e s with
      | Some s' => run tr' s'
      | None => None
      end
  end.

End WithHost.
End Rev2.


(** ** The first revision (lines 1-279): the functions that differ *)

Module Rev1.
Import Str Js Browser Api Events Validator.

Definition andThen (f g : State -> State) : State -> State := fun s => g (f s).
Infix ">>" := andThen (at level 55, left associativity).

(** line 252 *)
Definition escapeHtml (s : string) : string :=
  replace_all "'" "&#039;"
    (replace_all "034" "&quot;"
      (replace_all ">" "&gt;"
        (replace_all "<" "&lt;"
          (replace_all "&" "&amp;" s)))).

Definition download_label : string := "<i class=" ++ dq ++ "fas fa-download" ++ dq ++ "></i> Download".

Section WithHost.
Variable h : Host.

(** line 251 *)
Definition formatViews (v : Json) : Json :=
  if geb (ToNumber h v) (of_Z (10 ^ 6))
  then JStr (toFixed1 h (div (ToNumber h v) (of_Z (10 ^ 6))) ++ "M")
  else if geb (ToNumber h v) (of_Z (10 ^ 3))
  then JStr (toFixed1 h (div (ToNumber h v) (of_Z (10 ^ 3))) ++ "K")
  else v.

Definition alert (msg : string) : State -> State :=
  on_page (fun p => set_alerts (alerts p ++ [msg]) p).

(** lines 255-256 *)
Definition showError (msg : string) : State -> State := alert ("Error: " ++ msg).
Definition showSuccess (msg : string) : State -> State := alert ("Success: " ++ msg).

(** lines 160-166 *)
Definition set_progressSection_hidden (v : bool) (p : Page) : Page :=
  set_progressUi
    {| progressSection_hidden := v;
       progressFill_width := progressFill_width (progressUi p);
       progressText := progressText (progressUi p);
       progressStatus := progressStatus (progressUi p) |} p.

Definition showProgressSection : State -> State := on_page (set_progressSection_hidden false).
Definition hideProgressSection : State -> State := on_page (set_progressSection_hidden true).

(** lines 149-158 *)
Definition updateProgress (progress : Progress.t) : State -> State :=
  on_page (fun p => set_progressUi
    {| progressSection_hidden := progressSection_hidden (progressUi p);
       progressFill_width := ToString h (Progress.progress progress) ++ "%";
       progressText :=
         NumberToString h (Math_round (ToNumber h (Progress.progress progress))) ++ "%";
       progressStatus :=
         if is_str (Progress.status progress) "downloading" then "Downloading..."
         else if is_str (Progress.status progress) "completed" then "Completed!"
         else if is_str (Progress.status progress) "error" then "Error occurred"
         else "Processing..." |} p).

(** lines 168-170: up to the request *)
Definition loadDownloads : State -> State := await AwaitList.

(** lines 184-200: the markup of one item *)
Definition item (d : Entry) : string :=
  "
            <div class=" ++ dq ++ "download-item" ++ dq ++ ">
                <div class=" ++ dq ++ "download-info" ++ dq ++ ">
                    " ++ "<h4>" ++ escapeHtml (name d) ++ "</h4>" ++ "
                    <div class=" ++ dq ++ "download-meta" ++ dq ++ ">
                        <span><i class=" ++ dq ++ "fas fa-hdd" ++ dq ++ "></i> " ++ (if truthy (size_formatted d) then ToString h (size_formatted d) else formatFileSize h (size d)) ++ "</span>
                        <span><i class=" ++ dq ++ "fas fa-clock" ++ dq ++ "></i> " ++ ToString h (or_else (duration_formatted d) (JStr "Unknown")) ++ "</span>
                        <span><i class=" ++ dq ++ "fas fa-calendar" ++ dq ++ "></i> " ++ (if truthy (modified_formatted d) then ToString h (modified_formatted d) else formatDate h (modified d)) ++ "</span>
                    </div>
                </div>
                <div class=" ++ dq ++ "download-actions" ++ dq ++ ">
                    <button class=" ++ dq ++ "action-btn play-btn" ++ dq ++ " " ++ "onclick=" ++ dq ++ "playFile('" ++ filename d ++ "', '" ++ escapeHtml (name d) ++ "')" ++ dq ++ "><i class=" ++ dq ++ "fas fa-play" ++ dq ++ "></i> Play</button>
                    <button class=" ++ dq ++ "action-btn download-btn" ++ dq ++ " " ++ "onclick=" ++ dq ++ "downloadFile('" ++ filename d ++ "')" ++ dq ++ "><i class=" ++ dq ++ "fas fa-download" ++ dq ++ "></i> Download</button>
                    <button class=" ++ dq ++ "action-btn delete-btn" ++ dq ++ " " ++ "onclick=" ++ dq ++ "deleteFile('" ++ filename d ++ "')" ++ dq ++ "><i class=" ++ dq ++ "fas fa-trash" ++ dq ++ "></i> Delete</button>
                </div>
            </div>
        ".

Definition empty_state : string :=
  "<div class=" ++ dq ++ "empty-state" ++ dq ++ "><i class=" ++ dq ++ "fas fa-music" ++ dq ++ "></i><p>No downloads yet.</p></div>".

(** lines 178-201, for an array *)
Definition displayDownloads (downloads : list Entry) : State -> State :=
  match downloads with
  | [] => on_page (set_downloadsList_innerHTML empty_state)
  | l => on_page (set_downloadsList_innerHTML (join (map item l)))
  end.

(** lines 173-175 *)
Definition loadDownloads_catch : State -> State :=
  console_error "Error loading downloads:".

(** lines 171-172; [downloads.length] throws when the list is absent *)
Definition loadDownloads_then (data : Listing.t) : State -> State :=
  if truthy (Listing.success data)
  then match Listing.downloads data with
       | Some l => displayDownloads l
       | None => loadDownloads_catch
       end
  else fun s => s.

(** lines 120-122 and 146 *)
Definition monitorProgress (s : State) : State :=
  let (handle, s') := setInterval PollProgress 1000 (showProgressSection s) in
  set_progressInterval (Some handle) s'.

Definition enable_downloadBtn : State -> State :=
  on_page (set_downloadBtn {| disabled := false; innerHTML := download_label |}).

(** line 124 *)
Definition poll (s : State) : State :=
  await (AwaitProgress ("/progress/" ++ ToString h (currentDownloadId s))) s.

(** lines 125-142 *)
Definition poll_then (progress : Progress.t) : State -> State :=
  updateProgress progress >>
  if is_str (Progress.status progress) "completed"
     || is_str (Progress.status progress) "error"
  then
    (fun s => clearInterval (progressInterval s) s) >>
    (if is_str (Progress.status progress) "completed"
     then showSuccess "Download completed!" >> loadDownloads
     else showError ("Download failed: " ++ ToString h (Progress.error progress))) >>
    enable_downloadBtn >>
    setTimeout ResetProgress 2000
  else fun s => s.

(** lines 143-145 *)
Definition poll_catch : State -> State :=
  console_error "Error monitoring progress:".

(** lines 138-141: the function handed to [setTimeout] *)
Definition resetProgress : State -> State :=
  hideProgressSection >> set_currentDownloadId JNull.

(** lines 203-212 *)
Definition playAudio (filename title : string) : State -> State :=
  on_page (fun p => set_player
    {| src_attr := Some ("/play-audio/" ++ filename);
       paused := false;
       currentTime := 0;
       nowPlayingTitle := title;
       audioPlayerSection_hidden := false |} p) >>
  await AwaitPlay >>
  showSuccess ("Now playing: " ++ title).

(** lines 214-218 *)
Definition stopAudio : State -> State :=
  on_page (fun p => set_player
    {| src_attr := src_attr (player p);
       paused := true;
       currentTime := 0;
       nowPlayingTitle := nowPlayingTitle (player p);
       audioPlayerSection_hidden := audioPlayerSection_hidden (player p) |} p).

Definition set_audioPlayerSection_hidden (v : bool) (p : Page) : Page :=
  set_player
    {| src_attr := src_attr (player p);
       paused := paused (player p);
       currentTime := currentTime (player p);
       nowPlayingTitle := nowPlayingTitle (player p);
       audioPlayerSection_hidden := v |} p.

Definition audioPlayer_src (p : Page) : string :=
  match src_attr (player p) with
  | Some a => resolve_url h a
  | None => EmptyString
  end.

(** lines 235-237: the confirmation and the request *)
Definition deleteFile (filename : string) (confirmed : bool) : State -> State :=
  if confirmed then await (AwaitDelete filename) else fun s => s.

(** lines 238-246 *)
Definition deleteFile_then (filename : string) (data : Deletion.t) : State -> State :=
  if truthy (Deletion.success data) then
    showSuccess "Deleted successfully!" >>
    loadDownloads >>
    (fun s => if includes (audioPlayer_src (page s)) filename
              then on_page (set_audioPlayerSection_hidden true) (stopAudio s)
              else s)
  else showError (ToString h (Deletion.error data)).

End WithHost.
End Rev1.

(** ** The vocabulary of the properties *)

Module Spec.
Import Str Js Browser Api Events.

(** *** Link shapes (for the validator) *)

Definition scheme (s : string) : Prop := s = "http://" \/ s = "https://".
Definition www (s : string) : Prop := s = EmptyString \/ s = "www.".

(** The accepted link shapes; [rest] is the text of the link after the
    fixed part, on one line. *)
Inductive accepted_shape : string -> Prop :=
| canonical sc w rest :
    scheme sc -> www w -> single_line rest = true ->
    accepted_shape (sc ++ w ++ "youtube.com/watch?v=" ++ rest)
| shortened sc rest :
    scheme sc -> single_line rest = true ->
    accepted_shape (sc ++ "youtu.be/" ++ rest)
| embed sc w rest :
    scheme sc -> www w -> single_line rest = true ->
    accepted_shape (sc ++ w ++ "youtube.com/embed/" ++ rest)
| music sc rest :
    scheme sc -> single_line rest = true ->
    accepted_shape (sc ++ "music.youtube.com/watch?v=" ++ rest).

(** A string that names no youtube domain. *)
Definition unrelated (s : string) : Prop :=
  includes s "youtube" = false /\ includes s "youtu.be" = false.

(** *** Progress replies *)

(** A reply that reports a terminal state, in either shape. *)
Inductive terminal : Progress.t -> Prop :=
| terminal_finished r :
    Progress.finished r = JBool true -> terminal r
| terminal_status r :
    Progress.finished r = JUndefined ->
    Progress.status r = JStr "completed" \/ Progress.status r = JStr "error" ->
    terminal r.

(** The three states of a job, as a reply reports them. *)
Inductive JobState : Type :=
| InProgress
| Completed
| Failed (reason : string).

Definition reported_error (j : JobState) : Json :=
  match j with
  | Failed reason => JStr reason
  | _ => JUndefined
  end.

(** [{finished, progress, error?}] *)
Definition finished_shape (j : JobState) (percent : number) : Progress.t :=
  {| Progress.finished := JBool (match j with InProgress => false | _ => true end);
     Progress.progress := JNum percent;
     Progress.status := JUndefined;
     Progress.error := reported_error j |}.

(** [{status, progress, error?}] *)
Definition status_shape (j : JobState) (percent : number) : Progress.t :=
  {| Progress.finished := JUndefined;
     Progress.progress := JNum percent;
     Progress.status :=
       JStr (match j with
             | InProgress => "downloading"
             | Completed => "completed"
             | Failed _ => "error"
             end);
     Progress.error := reported_error j |}.

(** A failure carries a reason. *)
Definition well_reported (j : JobState) : Prop :=
  match j with
  | Failed reason => reason <> EmptyString
  | _ => True
  end.

(** *** Runs of the controller *)

(** The grace timers armed and not yet fired. *)
Definition is_reset (e : nat * Timer) : bool :=
  match snd e with
  | Timeout _ ResetProgress => true
  | _ => false
  end.

Definition resets_armed (s : State) : nat := List.length (filter is_reset (timers s)).

(** The handle kept in [progressInterval] was issued by [setInterval]. *)
Definition issued (s : State) : Prop :=
  forall hd, progressInterval s = Some hd -> hd < next_handle s.

(** The timers left when the one kept in [progressInterval] is cleared. *)
Definition slot_cleared (s : State) : list (nat * Timer) :=
  match progressInterval s with
  | Some hd => drop_timer hd (timers s)
  | None => timers s
  end.

(** The event starts a poller: the server accepted a submission. *)
Definition starts_poller (e : Event) : bool :=
  match e with
  | DownloadReply d => truthy (Download.success d)
  | _ => false
  end.

Definition submissions (tr : list Event) : nat := List.length (filter starts_poller tr).

(** States reached when no submission is accepted while a poller is
    still active. *)
Inductive serial (h : Host) (p : Page) : State -> Prop :=
| serial_boot : serial h p (Rev2.boot p)
| serial_step e s s' :
    serial h p s ->
    (starts_poller e = true -> pollers s = []) ->
    Rev2.step h e s = Some s' ->
    serial h p s'.

(** [f] keeps the relation [R] between the state it is given and the
    state it returns. *)
Definition keeps (R : State -> State -> Prop) (f : State -> State) : Prop :=
  forall s, R s (f s).

(** No poller is added. *)
Definition calm (s s' : State) : Prop :=
  List.length (pollers s') <= List.length (pollers s).

(** Handles are issued in increasing order, and the handle kept is the
    old one or one issued since. *)
Definition fresh (s s' : State) : Prop :=
  next_handle s <= next_handle s' /\
  (forall hd, progressInterval s' = Some hd ->
              progressInterval s = Some hd \/ hd < next_handle s').

(** *** A host and a page to run examples on *)

Definition sample_host : Host :=
  {| number_digits := fun _ => "?";
     string_to_number := fun _ => S754_nan;
     resolve_url := fun ref => "http://localhost:5000" ++ ref;
     formatFileSize := fun _ => "? MB";
     formatDate := fun _ => "1/1/2025" |}.

Definition sample_page : Page :=
  {| youtubeUrl_value := EmptyString;
     loadingSpinner_hidden := true;
     videoInfo :=
       {| videoInfo_hidden := true; videoThumbnail_src := EmptyString;
          videoTitle := EmptyString; videoUploader := EmptyString;
          videoDuration := EmptyString; videoViews := EmptyString;
          alreadyDownloaded_hidden := true |};
     downloadBtn := {| disabled := false; innerHTML := Rev2.download_label |};
     progressUi :=
       {| progressSection_hidden := true; progressFill_width := "0%";
          progressText := "0%"; progressStatus := "Starting..." |};
     downloadsList_innerHTML := EmptyString;
     player :=
       {| src_attr := None; paused := true; currentTime := 0;
          nowPlayingTitle := EmptyString; audioPlayerSection_hidden := true |};
     notices := []; saved := []; alerts := [] |}.

Definition accepted (id : string) : Download.t :=
  {| Download.success := JBool true; Download.download_id := JStr id;
     Download.error := JUndefined; Download.existing_file := JUndefined;
     Download.cookie_status := JUndefined |}.

(** [{finished: true, progress: 40, error: "x"}] *)
Definition finished_with_error : Progress.t :=
  {| Progress.finished := JBool true; Progress.progress := JNum (of_Z 40);
     Progress.status := JUndefined; Progress.error := JStr "x" |}.

(** [{status: "completed", progress: 100}] *)
Definition completed : Progress.t :=
  {| Progress.finished := JUndefined; Progress.progress := JNum (of_Z 100);
     Progress.status := JStr "completed"; Progress.error := JUndefined |}.

Definition sample_url : string := "https://youtu.be/dQw4w9WgXcQ".

(** A host whose URL parser writes a space of a path as %20, as the URL
    standard has it. *)
Definition encoding_host : Host :=
  {| number_digits := fun _ => "?";
     string_to_number := fun _ => S754_nan;
     resolve_url := fun ref => "http://localhost:5000" ++ replace_all " " "%20" ref;
     formatFileSize := fun _ => "? MB";
     formatDate := fun _ => "1/1/2025" |}.

(** The state a run of events leads to from the sample page. *)
Definition after_on (h : Host) (tr : list Event) : State :=
  match Rev2.run h tr (Rev2.boot sample_page) with
  | Some s => s
  | None => Rev2.boot sample_page
  end.

Definition after : list Event -> State := after_on sample_host.

(** A link is typed and submitted. *)
Definition submitted : list Event := [Input sample_url; Submit].

(** One job is submitted and polled once. *)
Definition one_job : list Event :=
  [Input sample_url; Submit; DownloadReply (accepted "job1"); Fire 2].

(** A second submission (Enter in the field) is accepted while the first
    job is still polled. *)
Definition two_submissions : list Event :=
  [Input sample_url; Submit; DownloadReply (accepted "job1");
   Submit; DownloadReply (accepted "job2")].

(** Two polls of one job are in flight and both replies report completion. *)
Definition overlapping_replies : list Event :=
  [Input sample_url; Submit; DownloadReply (accepted "job1");
   Fire 2; Fire 2;
   ProgressReply "/progress/job1" completed;
   ProgressReply "/progress/job1" completed].

Definition deleted : Deletion.t :=
  {| Deletion.success := JBool true; Deletion.error := JUndefined |}.

(** The file aa.mp3 is playing. *)
Definition play_one : list Event :=
  [ClickPlay "aa.mp3" "aa"; PlayStarted; Playback 7].

(** The file aa.mp3 is playing and the file a.mp3 is deleted. *)
Definition play_one_delete_another : list Event :=
  play_one ++ [ClickDelete "a.mp3" true; DeleteReply "a.mp3" deleted].

(** A file with a space in its name is playing and is deleted. *)
Definition play_and_delete_spaced : list Event :=
  [ClickPlay "my song.mp3" "my song"; PlayStarted; Playback 7;
   ClickDelete "my song.mp3" true; DeleteReply "my song.mp3" deleted].

(** [{status: "pending", progress: 0}] *)
Definition pending_reply : Progress.t :=
  {| Progress.finished := JUndefined; Progress.progress := JNum (of_Z 0);
     Progress.status := JStr "pending"; Progress.error := JUndefined |}.

(** The state of the first revision when aa.mp3 is playing. *)
Definition rev1_playing : State :=
  Rev1.playAudio "aa.mp3" "aa" (Rev2.boot sample_page).

Definition sample_entry : Entry :=
  {| filename := "it's.mp3"; name := "<b>Tom & Jerry</b>";
     size := JNum (of_Z 1024); size_formatted := JStr "1.00 KB";
     modified := JNum (of_Z 0); modified_formatted := JStr "2025-01-01";
     duration_formatted := JUndefined |}.

End Spec.


(** ** The markup of the nodes appended to the body (second revision) *)

Module Markup.
Import Str Js Browser.

(** [s.replace(pat, by)] for a string pattern: the first occurrence. *)
Fixpoint replace_first (pat by_ s : string) : string :=
  match strip_prefix pat s with
  | Some t => by_ ++ t
  | None =>
      match s with
      | EmptyString => EmptyString
      | String c t => String c (replace_first pat by_ t)
      end
  end.

(** line 731 *)
Definition notification_className (type : string) : string :=
  "notification notification-" ++ type.

(** lines 732-740 *)
Definition notification_innerHTML (msg type : string) : string :=
  "
            <div class=" ++ dq ++ "notification-content" ++ dq ++ ">
                <i class=" ++ dq ++ "fas fa-" ++ (if String.eqb type "success" then "check-circle" else if String.eqb type "error" then "exclamation-circle" else "info-circle") ++ dq ++ "></i>
                " ++ "<span>" ++ msg ++ "</span>" ++ "
                <button class=" ++ dq ++ "notification-close" ++ dq ++ " onclick=" ++ dq ++ "this.parentElement.parentElement.remove()" ++ dq ++ ">
                    <i class=" ++ dq ++ "fas fa-times" ++ dq ++ "></i>
                </button>
            </div>
        ".

(** lines 439-450 *)
Definition alreadyDownloaded_innerHTML (filename : string) : string :=
  "
            <div class=" ++ dq ++ "notification-content" ++ dq ++ ">
                <i class=" ++ dq ++ "fas fa-info-circle" ++ dq ++ "></i>
                <span>This video was already downloaded!</span>
                <button " ++ "onclick=" ++ dq ++ "playFile('" ++ filename ++ "', '" ++ Rev2.escapeHtml (replace_first ".mp3" EmptyString filename) ++ "')" ++ dq ++ " class=" ++ dq ++ "play-existing-btn" ++ dq ++ ">
                    <i class=" ++ dq ++ "fas fa-play" ++ dq ++ "></i> Play
                </button>
                <button " ++ "onclick=" ++ dq ++ "downloadFile('" ++ filename ++ "')" ++ dq ++ " class=" ++ dq ++ "download-existing-btn" ++ dq ++ ">
                    <i class=" ++ dq ++ "fas fa-download" ++ dq ++ "></i> Download
                </button>
            </div>
        ".

(** The class name and the markup of a node. *)
Definition className (n : Notice) : string :=
  match n with
  | Note type _ => notification_className type
  | AlreadyDownloaded _ => "already-downloaded-notification"
  end.

Definition innerHTML_of (n : Notice) : string :=
  match n with
  | Note type msg => notification_innerHTML msg type
  | AlreadyDownloaded filename => alreadyDownloaded_innerHTML filename
  end.

End Markup.

(** ** The first revision: fetching the preview and submitting (lines 48-118) *)

Module Rev1Handlers.
Import Str Js Browser Api Events Validator.
Import Rev1.

Section WithHost.
Variable h : Host.

(** lines 253-254 *)
Definition showLoading : State -> State := on_page (set_loadingSpinner_hidden false).
Definition hideLoading : State -> State := on_page (set_loadingSpinner_hidden true).

(** lines 71-79 *)
Definition displayVideoInfo (info : Info.t) : State -> State :=
  on_page (fun p => set_videoInfo
    {| videoInfo_hidden := false;
       videoThumbnail_src := ToString h (Info.thumbnail info);
       videoTitle := text_of h (Info.title info);
       videoUploader := text_of h (Info.uploader info);
       videoDuration := text_of h (Info.duration info);
       videoViews := text_of h (Rev1.formatViews h (Info.view_count info));
       alreadyDownloaded_hidden := alreadyDownloaded_hidden (videoInfo p) |} p).

(** lines 48-55: up to the request *)
Definition getVideoInfo (url : string) : State -> State :=
  showLoading >> await AwaitInfo.

(** lines 56-64 *)
Definition getVideoInfo_then (data : Info.t) : State -> State :=
  hideLoading >>
  if truthy (Info.success data) then
    displayVideoInfo data >>
    on_page (Rev2.set_alreadyDownloaded_hidden (negb (truthy (Info.already_downloaded data))))
  else showError ("Could not fetch video info: " ++ ToString h (Info.error data)).

(** lines 65-68; [message] is the text of the exception *)
Definition getVideoInfo_catch (message : string) : State -> State :=
  hideLoading >> showError ("Error fetching video info: " ++ message).

(** lines 85-99: up to the request *)
Definition startDownload (s : State) : State :=
  let url := trim (youtubeUrl_value (page s)) in
  if is_empty url || negb (isValidYouTubeUrl url)
  then showError "Please enter a valid YouTube URL" s
  else
    (showLoading >>
     on_page (set_downloadBtn {| disabled := true; innerHTML := Rev2.spinner_label |}) >>
     await AwaitDownload) s.

(** lines 100-111 *)
Definition startDownload_then (data : Download.t) : State -> State :=
  hideLoading >>
  if truthy (Download.success data) then
    set_currentDownloadId (Download.download_id data) >>
    monitorProgress >>
    showSuccess "Download started successfully!"
  else
    showError (ToString h (Download.error data)) >> enable_downloadBtn.

(** lines 112-117 *)
Definition startDownload_catch (message : string) : State -> State :=
  hideLoading >> showError ("Error starting download: " ++ message) >>
  enable_downloadBtn.

End WithHost.
End Rev1Handlers.

(** ** More vocabulary *)

Module Laws.
Import Str Js Browser Api Events.

(** *** What the three patterns of the validator describe *)

Definition optional_schemes : list string := [EmptyString; "http://"; "https://"].
Definition schemes : list string := ["http://"; "https://"].
Definition optional_www : list string := [EmptyString; "www."].
Definition domains : list string := ["youtube.com"; "youtu.be"; "youtube"].
Definition paths : list string :=
  ["youtu.be/";
   "youtube.com/watch/"; "youtube.com/embed/"; "youtube.com/v/";
   "www.youtube.com/watch/"; "www.youtube.com/embed/"; "www.youtube.com/v/"].

Inductive valid_link : string -> Prop :=
| by_domain sc w dom rest :
    In sc optional_schemes -> In w optional_www -> In dom domains ->
    rest <> EmptyString -> single_line rest = true ->
    valid_link (sc ++ w ++ dom ++ "/" ++ rest)
| by_path sc p rest :
    In sc schemes -> In p paths ->
    valid_link (sc ++ p ++ rest)
| by_music sc rest :
    In sc schemes ->
    valid_link (sc ++ "music.youtube.com/watch?v=" ++ rest).

(** *** Sessions *)

(** The handles of the timers and the identities of the nodes are
    distinct and were issued, and so was the handle kept. *)
Definition well_formed (s : State) : Prop :=
  NoDup (map fst (timers s)) /\
  (forall e, In e (timers s) -> fst e < next_handle s) /\
  NoDup (map fst (notices (page s))) /\
  (forall e, In e (notices (page s)) -> fst e < next_node s) /\
  Spec.issued s.

(** Every interval but the one whose handle is kept is still there, and
    its handle is still not the one kept. *)
Definition kept_running (s s' : State) : Prop :=
  forall hd ms cb,
    In (hd, Interval ms cb) (timers s) ->
    progressInterval s <> Some hd ->
    In (hd, Interval ms cb) (timers s') /\ progressInterval s' <> Some hd.

(** The handle was issued and no timer has it: the timer fired, being a
    timeout, or was cleared. *)
Definition retired (s : State) (hd : nat) : Prop :=
  hd < next_handle s /\ ~ In hd (map fst (timers s)).

Definition stays_retired (s s' : State) : Prop :=
  forall hd, retired s hd -> retired s' hd.

Definition sound (s s' : State) : Prop :=
  well_formed s -> well_formed s' /\ kept_running s s' /\ stays_retired s s'.

Definition safe (f : State -> State) : Prop := forall s, sound s (f s).

(** *** The three states of a job, as the page shows them *)

(** The text of the status line in each state. *)
Definition status_text (j : Spec.JobState) : string :=
  match j with
  | Spec.InProgress => "Downloading..."
  | Spec.Completed => "Completed!"
  | Spec.Failed _ => "Error occurred"
  end.

(** The progress display of a job in state [j] at [percent]. *)
Definition shown (h : Host) (j : Spec.JobState) (percent : number) (hidden : bool)
  : ProgressUi :=
  {| progressSection_hidden := hidden;
     progressFill_width := NumberToString h percent ++ "%";
     progressText := NumberToString h (Math_round percent) ++ "%";
     progressStatus := status_text j |}.

(** The two timers a terminal reply adds: the one that removes its
    notice and the one that resets the progress display. *)
Definition terminal_timers (s : State) : list (nat * Timer) :=
  [(next_handle s, Timeout 5000 (RemoveNode (next_node s)));
   (S (next_handle s), Timeout 3000 ResetProgress)].

(** *** Character references *)




(** *** The job the pollers ask for *)

(** The event changes the job identifier: a submission is accepted, or
    a reset fires. *)
Definition changes_job (s : State) (e : Event) : bool :=
  match e with
  | DownloadReply d => truthy (Download.success d)
  | Fire hd =>
      match find_timer hd (timers s) with
      | Some (Interval _ ResetProgress) | Some (Timeout _ ResetProgress) => true
      | _ => false
      end
  | _ => false
  end.

(** A run in which no event changes the job identifier. *)
Fixpoint steady_run (h : Host) (tr : list Event) (s : State) : option State :=
  match tr with
  | [] => Some s
  | e :: tr' =>
      if changes_job s e then None
      else match Rev2.step h e s with
           | Some s' => steady_run h tr' s'
           | None => None
           end
  end.

Definition same_job (f : State -> State) : Prop :=
  forall s, currentDownloadId (f s) = currentDownloadId s.

(** The value has no [includes] method: it is absent, null, a boolean
    or a number. *)
Definition has_no_includes (e : Json) : Prop :=
  e = JUndefined \/ e = JNull \/ (exists b, e = JBool b) \/ (exists x, e = JNum x).

(** *** Progress replies *)

(** A reply the poll callback takes for one of a job that goes on: its
    [finished] field is present and falsy, or absent with a status that
    is neither of the two final ones. *)
Inductive in_progress : Progress.t -> Prop :=
| in_progress_finished r :
    defined (Progress.finished r) = true ->
    truthy (Progress.finished r) = false ->
    in_progress r
| in_progress_status r :
    Progress.finished r = JUndefined ->
    is_str (Progress.status r) "completed" = false ->
    is_str (Progress.status r) "error" = false ->
    in_progress r.

Definition with_status (st : Json) (r : Progress.t) : Progress.t :=
  {| Progress.finished := Progress.finished r;
     Progress.progress := Progress.progress r;
     Progress.status := st;
     Progress.error := Progress.error r |}.

(** A reply of a job that goes on, in either shape, with the percentage
    as the server put it. *)
Definition going_on (finished_field : bool) (percent : Json) : Progress.t :=
  {| Progress.finished := if finished_field then JBool false else JUndefined;
     Progress.progress := percent;
     Progress.status := if finished_field then JUndefined else JStr "downloading";
     Progress.error := JUndefined |}.

(** The integers from [lo] up to [hi - 1]. *)
Definition Z_range (lo hi : Z) : list Z :=
  map (fun i => (lo + Z.of_nat i)%Z) (seq 0 (Z.to_nat (hi - lo))).

(** The texts of the bar and of the label for a percentage given in
    tenths. *)
Definition shown_tenths (h : Host) (finished_field : bool) (k : Z) : string * string :=
  let ui := progressUi (page (Rev2.poll_then h
              (going_on finished_field (JNum (div (of_Z k) (of_Z 10))))
              (Rev2.boot Spec.sample_page))) in
  (progressFill_width ui, progressText ui).

Definition tenths_checked (h : Host) (finished_field : bool) (k : Z) : bool :=
  String.eqb (snd (shown_tenths h finished_field k)) (digits ((k + 5) / 10) ++ "%") &&
  (negb (k mod 10 =? 0)%Z ||
   String.eqb (fst (shown_tenths h finished_field k)) (digits (k / 10) ++ "%")).

(** *** View counts *)

(** [n] tenths, as [toFixed(1)] writes them. *)
Definition tenths (n : Z) : string := digits (n / 10) ++ "." ++ digits (n mod 10).

(** The count is below a thousand in the comparisons of [formatViews]
    and is written with its digits. *)
Definition plain_checked (h : Host) (z : Z) : bool :=
  negb (geb (of_Z z) (of_Z (10 ^ 3))) && negb (geb (of_Z z) (of_Z (10 ^ 6))) &&
  negb (geb (of_Z z) (of_Z (10 ^ 9))) &&
  String.eqb (NumberToString h (of_Z z)) (digits z).

(** The count is in the thousands in the comparisons of [formatViews],
    and the decimal written for it is the count in thousands to the
    nearest tenth; a count that ends in 50 may go either way. *)
Definition thousands_checked (h : Host) (z : Z) : bool :=
  geb (of_Z z) (of_Z (10 ^ 3)) && negb (geb (of_Z z) (of_Z (10 ^ 6))) &&
  negb (geb (of_Z z) (of_Z (10 ^ 9))) &&
  let t := toFixed1 h (div (of_Z z) (of_Z (10 ^ 3))) in
  let n := ((z + 50) / 100)%Z in
  String.eqb t (tenths n) || ((z mod 100 =? 50)%Z && String.eqb t (tenths (n - 1))).

(** The count is in the thousands and the decimal written for it is
    1000.0. *)
Definition carry_checked (h : Host) (z : Z) : bool :=
  geb (of_Z z) (of_Z (10 ^ 3)) && negb (geb (of_Z z) (of_Z (10 ^ 6))) &&
  negb (geb (of_Z z) (of_Z (10 ^ 9))) &&
  String.eqb (toFixed1 h (div (of_Z z) (of_Z (10 ^ 3)))) "1000.0".

(** *** Error texts *)

(** The words that make the submit handler take an error for a demand
    to sign in. *)
Definition sign_in_words : list string := ["authentication"; "Sign in"; "bot"].

(** [e] includes one of the words. *)
Definition mentions (words : list string) (e : string) : bool :=
  existsb (includes e) words.

(** A refusal of a submission, with its error text. *)
Definition refused (e : Json) (file : Json) : Download.t :=
  {| Download.success := JBool false; Download.download_id := JUndefined;
     Download.error := e; Download.existing_file := file;
     Download.cookie_status := JUndefined |}.

(** A refusal of a preview. *)
Definition no_info (e : Json) : Info.t :=
  {| Info.success := JBool false; Info.title := JUndefined;
     Info.uploader := JUndefined; Info.duration := JUndefined;
     Info.view_count := JUndefined; Info.thumbnail := JUndefined;
     Info.already_downloaded := JUndefined; Info.error := e;
     Info.cookie_status := JUndefined |}.

End Laws.
(** * Properties *)

(** ** Strings *)

Module StrFacts.
Import Str.

Lemma strip_prefix_app (p t : string) : strip_prefix p (p ++ t) = Some t.
Proof.
  induction p as [|a p IH]; simpl; [destruct t; reflexivity|].
  rewrite Ascii.eqb_refl. exact IH.
Qed.

Lemma strip_prefix_nil (s : string) : strip_prefix EmptyString s = Some s.
Proof. destruct s; reflexivity. Qed.

Lemma strip_prefix_Some (p s t : string) :
  strip_prefix p s = Some t -> s = p ++ t.
Proof.
  revert s; induction p as [|a p IH]; intros s H.
  - destruct s; simpl in H; injection H as <-; reflexivity.
  - destruct s as [|b s]; simpl in H; [discriminate|].
    destruct (Ascii.eqb_spec a b) as [->|]; [|discriminate].
    simpl. f_equal. apply IH, H.
Qed.

Lemma append_assoc (a b c : string) : (a ++ b) ++ c = a ++ b ++ c.
Proof. induction a; simpl; congruence. Qed.

Lemma includes_unfold (s n : string) :
  includes s n =
  match strip_prefix n s with
  | Some _ => true
  | None => match s with
            | EmptyString => false
            | String _ t => includes t n
            end
  end.
Proof. destruct s; reflexivity. Qed.

Lemma includes_here (n t : string) : includes (n ++ t) n = true.
Proof. rewrite includes_unfold, strip_prefix_app. reflexivity. Qed.

(** A string includes each of its infixes. *)
Lemma includes_app (a n b : string) : includes (a ++ n ++ b) n = true.
Proof.
  induction a as [|c a IH].
  - exact (includes_here n b).
  - change (String c a ++ n ++ b) with (String c (a ++ n ++ b)).
    rewrite includes_unfold, IH.
    destruct (strip_prefix n (String c (a ++ n ++ b))); reflexivity.
Qed.

Lemma includes_inv (s n : string) :
  includes s n = true -> exists a b, s = a ++ n ++ b.
Proof.
  induction s as [|c s IH]; rewrite includes_unfold.
  - destruct (strip_prefix n EmptyString) eqn:E; [|discriminate].
    intros _. exists EmptyString, s. apply strip_prefix_Some in E. exact E.
  - destruct (strip_prefix n (String c s)) eqn:E.
    + intros _. exists EmptyString, s0. apply strip_prefix_Some in E. exact E.
    + intros H. destruct (IH H) as (a & b & ->).
      exists (String c a), b. reflexivity.
Qed.



End StrFacts.

(** ** The validator *)

Module ValidatorFacts.
Import Str Regex Validator StrFacts Spec.

(** A pattern that starts with [^] matches at offset 0 or not at all. *)
Lemma test_anchored (r : re) (s : string) :
  test (Cat Bol r) s = m r 0 s accept.
Proof.
  unfold test. cbn [seq existsb m Nat.eqb andb skip].
  assert (H : forall n k, existsb
     (fun i => Nat.eqb i 0 && m r i (skip i s) accept) (seq (S k) n) = false).
  { induction n as [|n IH]; intros k; simpl; [reflexivity|]. apply IH. }
  rewrite H. apply orb_false_r.
Qed.

(** The bound on the iterations of [.+] cuts nothing off: any larger
    one gives the same answer. *)
Lemma plus_dot_fuel (k : cont) (s : string) :
  forall fuel1 fuel2 pos,
    String.length s < fuel1 -> String.length s < fuel2 ->
    plus_loop (m Dot) fuel1 pos s k = plus_loop (m Dot) fuel2 pos s k.
Proof.
  induction s as [|c t IH]; intros [|f1] [|f2] pos H1 H2; simpl in H1, H2; try lia.
  - reflexivity.
  - change (negb (line_terminator c) &&
            ((if Nat.ltb (String.length t) (String.length (String c t))
              then plus_loop (m Dot) f1 (S pos) t k else false) || k (S pos) t) =
            negb (line_terminator c) &&
            ((if Nat.ltb (String.length t) (String.length (String c t))
              then plus_loop (m Dot) f2 (S pos) t k else false) || k (S pos) t)).
    rewrite (IH f1 f2 (S pos)) by lia. reflexivity.
Qed.

(** [.+$] takes a whole line that is not empty. *)
Lemma plus_dot_eol (fuel pos : nat) (c : ascii) (t : string) :
  String.length t < fuel ->
  single_line (String c t) = true ->
  plus_loop (m Dot) fuel pos (String c t) (fun p u => m Eol p u accept) = true.
Proof.
  revert pos c t; induction fuel as [|fuel IH]; intros pos c t Hf Hl; [lia|].
  unfold single_line in Hl. simpl in Hl. apply andb_true_iff in Hl as [Hc Ht].
  change (negb (line_terminator c) &&
          ((if Nat.ltb (String.length t) (String.length (String c t))
            then plus_loop (m Dot) fuel (S pos) t (fun p u => m Eol p u accept)
            else false) || m Eol (S pos) t accept) = true).
  rewrite Hc. cbn [andb].
  destruct t as [|d t]; [apply orb_true_r|].
  replace (Nat.ltb (String.length (String d t)) (String.length (String c (String d t))))
    with true by (symmetry; apply Nat.ltb_lt; simpl; lia).
  rewrite IH; [reflexivity| simpl in *; lia | exact Ht].
Qed.

Lemma accepts_shapes (s : string) :
  accepted_shape s -> isValidYouTubeUrl s = true.
Proof.
  unfold isValidYouTubeUrl, patterns. cbn [existsb].
  unfold pattern1, pattern2, pattern3. rewrite !test_anchored.
  intros H; destruct H as [sc w rest [->| ->] [->| ->] Hr | sc rest [->| ->] Hr
    | sc w rest [->| ->] [->| ->] Hr | sc rest [->| ->] Hr ];
  cbn -[plus_loop String.length]; rewrite ?strip_prefix_nil;
  cbn -[plus_loop String.length]; rewrite ?orb_false_r;
    first [ reflexivity | apply orb_true_r
          | apply plus_dot_eol; [simpl; lia | exact Hr] ].
Qed.

(** Case analysis on the literals of a pattern; a literal that names a
    domain contradicts [H1] or [H2]. *)
Ltac crack H1 H2 :=
  repeat (cbn -[plus_loop String.length] in *;
    match goal with
    | |- context [strip_prefix ?l ?s] =>
        let E := fresh "E" in
        destruct (strip_prefix l s) eqn:E;
        [ try rewrite E in H1; try rewrite E in H2; try discriminate;
          apply strip_prefix_Some in E; subst s;
          cbn -[plus_loop String.length] in H1, H2; try discriminate
        | ]
    end).

Lemma rejects_unrelated (s : string) :
  unrelated s -> isValidYouTubeUrl s = false.
Proof.
  intros [H1 H2].
  unfold isValidYouTubeUrl, patterns. cbn [existsb].
  unfold pattern1, pattern2, pattern3. rewrite !test_anchored.
  crack H1 H2; reflexivity.
Qed.

(** C7.  The validator is a function from strings to booleans (it reads
    and writes nothing else); it answers [true] on every link of an
    accepted shape (canonical, shortened, embed, music subdomain) and
    [false] on every string that names no youtube domain. *)
Theorem isValidYouTubeUrl_accepts_shapes_rejects_unrelated :
  forall s : string,
    (accepted_shape s -> isValidYouTubeUrl s = true) /\
    (unrelated s -> isValidYouTubeUrl s = false).
Proof.
  intros s; split; [apply accepts_shapes | apply rejects_unrelated].
Qed.

Lemma isValidYouTubeUrl_accepts_shapes_rejects_unrelated_witness :
  isValidYouTubeUrl "https://www.youtube.com/watch?v=dQw4w9WgXcQ" = true /\
  isValidYouTubeUrl "https://example.com/watch?v=dQw4w9WgXcQ" = false.
Proof.
  split.
  - apply (proj1 (isValidYouTubeUrl_accepts_shapes_rejects_unrelated _)).
    apply (canonical "https://" "www." "dQw4w9WgXcQ");
      [right; reflexivity | right; reflexivity | reflexivity].
  - apply (proj2 (isValidYouTubeUrl_accepts_shapes_rejects_unrelated _)).
    split; reflexivity.
Defined.

End ValidatorFacts.

(** ** [formatViews] *)

Module FormatFacts.
Import Js Browser.

(** C8.  The view count 999 is shown as "999" (the formatter hands the
    number back and the page renders it), 1500 as "1.5K", 2300000 as
    "2.3M" and 4000000000 as "4.0B". *)
Theorem formatViews_examples :
  forall h : Host,
    text_of h (Rev2.formatViews h (JNum (of_Z 999))) = "999" /\
    text_of h (Rev2.formatViews h (JNum (of_Z 1500))) = "1.5K" /\
    text_of h (Rev2.formatViews h (JNum (of_Z 2300000))) = "2.3M" /\
    text_of h (Rev2.formatViews h (JNum (of_Z 4000000000))) = "4.0B".
Proof. intros h. vm_compute. repeat split. Qed.

(** Below a thousand the formatter returns its argument, a number. *)
Lemma formatViews_plain (h : Host) :
  Rev2.formatViews h (JNum (of_Z 999)) = JNum (of_Z 999).
Proof. reflexivity. Qed.

(** The text of the views element is the rendering of [formatViews]. *)
Lemma displayVideoInfo_views (h : Host) (info : Api.Info.t) (s : State) :
  videoViews (videoInfo (page (Rev2.displayVideoInfo h info s))) =
  text_of h (Rev2.formatViews h (Api.Info.view_count info)).
Proof. reflexivity. Qed.

(** The division is the IEEE one: 1.15 is below the tie. *)
Lemma formatViews_1150 (h : Host) :
  Rev2.formatViews h (JNum (of_Z 1150)) = JStr "1.1K".
Proof. vm_compute. reflexivity. Qed.

(** The first revision has no billions suffix. *)
Lemma formatViews_rev1_billions (h : Host) :
  Rev1.formatViews h (JNum (of_Z 4000000000)) = JStr "4000.0M".
Proof. vm_compute. reflexivity. Qed.

End FormatFacts.

(** ** Timers *)

Module BrowserFacts.
Import Js Browser.

Lemma drop_timer_app (hd : nat) (l1 l2 : list (nat * Timer)) :
  drop_timer hd (l1 ++ l2) = (drop_timer hd l1 ++ drop_timer hd l2)%list.
Proof. apply filter_app. Qed.

Lemma drop_timer_idem (hd : nat) (l : list (nat * Timer)) :
  drop_timer hd (drop_timer hd l) = drop_timer hd l.
Proof.
  unfold drop_timer. induction l as [|e l IH]; simpl; [reflexivity|].
  destruct (negb (Nat.eqb (fst e) hd)) eqn:E; simpl; rewrite ?E, IH; reflexivity.
Qed.

Lemma filter_drop_timer (f : nat * Timer -> bool) (hd : nat) (l : list (nat * Timer)) :
  filter f (drop_timer hd l) = drop_timer hd (filter f l).
Proof.
  unfold drop_timer. induction l as [|e l IH]; simpl; [reflexivity|].
  destruct (negb (Nat.eqb (fst e) hd)) eqn:E, (f e) eqn:F; simpl;
    rewrite ?E, ?F, IH; reflexivity.
Qed.

Lemma drop_timer_not_In (hd : nat) (l : list (nat * Timer)) :
  ~ In hd (map fst (drop_timer hd l)).
Proof.
  unfold drop_timer. intros H. apply in_map_iff in H as (e & <- & He).
  apply filter_In in He as [_ He]. rewrite Nat.eqb_refl in He. discriminate.
Qed.

Lemma drop_timer_length (hd : nat) (l : list (nat * Timer)) :
  List.length (drop_timer hd l) <= List.length l.
Proof. apply filter_length_le. Qed.

Lemma drop_timer_fresh (hd : nat) (l : list (nat * Timer)) :
  (forall e, In e l -> fst e <> hd) -> drop_timer hd l = l.
Proof.
  unfold drop_timer. induction l as [|e l IH]; intros H; simpl; [reflexivity|].
  destruct (Nat.eqb_spec (fst e) hd) as [E|E]; simpl.
  - exfalso. apply (H e); [left; reflexivity | exact E].
  - rewrite IH; [reflexivity|]. intros e' He'. apply H. right. exact He'.
Qed.

End BrowserFacts.

(** ** The progress poller *)

Module PollerFacts.
Import Str Js Browser Api Events Spec BrowserFacts.

Lemma Pending_eqb_refl (p : Pending) : Pending_eqb p p = true.
Proof. destruct p; simpl; rewrite ?String.eqb_refl; reflexivity. Qed.

(** A pending promise can settle. *)
Lemma settle_In (p : Pending) (l : list Pending) :
  In p l -> exists l', settle p l = Some l'.
Proof.
  induction l as [|q l IH]; [intros []|].
  intros Hin. cbn [settle].
  destruct (Pending_eqb p q) eqn:Q; [eauto|].
  destruct Hin as [->|Hin]; [rewrite Pending_eqb_refl in Q; discriminate|].
  destruct (IH Hin) as (l' & ->). simpl. eauto.
Qed.

Section WithHost.
Variable h : Host.

Ltac finish_terminal :=
  match goal with
  | |- context [progressInterval ?s] =>
      unfold slot_cleared;
      let E := fresh "E" in
      destruct (progressInterval s) eqn:E; cbn; rewrite ?E; cbn;
      rewrite <- ?app_assoc; repeat split; first [reflexivity | assumption]
  end.

(** What a terminal reply does to each part of the state. *)
Lemma poll_then_terminal (r : Progress.t) (s : State) :
  terminal r ->
  exists type msg load,
    ((type = "success" /\ msg = "Download completed!" /\ load = [AwaitList]) \/
     (type = "error" /\ msg = "Download failed: " ++ ToString h (Progress.error r)
      /\ load = [])) /\
    let s' := Rev2.poll_then h r s in
    timers s' =
      (slot_cleared s ++
       [(next_handle s, Timeout 5000 (RemoveNode (next_node s)));
        (S (next_handle s), Timeout 3000 ResetProgress)])%list /\
    next_handle s' = S (S (next_handle s)) /\
    progressInterval s' = progressInterval s /\
    currentDownloadId s' = currentDownloadId s /\
    pending s' = (pending s ++ load)%list /\
    console s' = console s /\
    notices (page s') = (notices (page s) ++ [(next_node s, Note type msg)])%list /\
    downloadBtn (page s') = {| disabled := false; innerHTML := Rev2.download_label |}.
Proof.
  intros [r' Hf | r' Hf Hs]; unfold Rev2.poll_then; rewrite Hf; cbn [defined truthy].
  - destruct (truthy (Progress.error r')).
    + exists "error", ("Download failed: " ++ ToString h (Progress.error r')), [].
      split; [right; repeat split|]. rewrite app_nil_r. finish_terminal.
    + exists "success", "Download completed!", [AwaitList].
      split; [left; repeat split|]. finish_terminal.
  - destruct Hs as [Hs|Hs]; rewrite Hs; cbn [is_str String.eqb Ascii.eqb Bool.eqb orb].
    + exists "success", "Download completed!", [AwaitList].
      split; [left; repeat split|]. finish_terminal.
    + exists "error", ("Download failed: " ++ ToString h (Progress.error r')), [].
      split; [right; repeat split|]. rewrite app_nil_r. finish_terminal.
Qed.

Lemma pollers_slot_cleared (s : State) (l : list (nat * Timer)) :
  forallb (fun e => negb (is_poller e)) l = true ->
  filter is_poller (slot_cleared s ++ l) =
  match progressInterval s with
  | Some hd => drop_timer hd (pollers s)
  | None => pollers s
  end.
Proof.
  intros Hl. rewrite filter_app.
  replace (filter is_poller l) with (@nil (nat * Timer)).
  - rewrite app_nil_r. unfold slot_cleared, pollers.
    destruct (progressInterval s); [apply filter_drop_timer | reflexivity].
  - induction l as [|e l IH]; [reflexivity|]. simpl in *.
    apply andb_true_iff in Hl as [He Hl]. destruct (is_poller e); [discriminate|].
    apply IH, Hl.
Qed.

(** C1.  On a reply that reports a terminal state the poller stops the
    interval whose handle it keeps, shows a completion or a failure
    message, enables the download button again and arms a timer of
    3000 ms; what that timer runs hides the progress section and sets the
    job identifier to null. *)
Theorem terminal_reply_stops_polling_and_resets :
  forall (r : Progress.t) (s : State),
    terminal r ->
    let s' := Rev2.poll_then h r s in
    (forall hd, progressInterval s = Some hd -> ~ In hd (map fst (pollers s'))) /\
    (exists type msg,
        notices (page s') = (notices (page s) ++ [(next_node s, Note type msg)])%list /\
        ((type = "success" /\ msg = "Download completed!") \/
         (type = "error" /\
          msg = "Download failed: " ++ ToString h (Progress.error r)))) /\
    disabled (downloadBtn (page s')) = false /\
    In (S (next_handle s), Timeout 3000 ResetProgress) (timers s') /\
    (forall s0,
        let s1 := Rev2.run_callback h ResetProgress s0 in
        progressSection_hidden (progressUi (page s1)) = true /\
        currentDownloadId s1 = JNull).
Proof.
  intros r s Ht.
  destruct (poll_then_terminal r s Ht)
    as (type & msg & load & Hm & Htm & _ & _ & _ & _ & _ & Hn & Hb).
  cbn zeta. repeat split.
  - intros hd Hhd. unfold pollers. rewrite Htm, pollers_slot_cleared by reflexivity.
    rewrite Hhd. apply drop_timer_not_In.
  - exists type, msg. split; [exact Hn|].
    destruct Hm as [(-> & -> & _)|(-> & -> & _)]; [left | right]; split; reflexivity.
  - rewrite Hb. reflexivity.
  - rewrite Htm. apply in_or_app. right. right. left. reflexivity.
Qed.

(** The first revision arms the timer with 2000 ms. *)
Lemma rev1_grace_delay (r : Progress.t) (s : State) :
  Progress.status r = JStr "completed" ->
  In (next_handle s, Timeout 2000 ResetProgress) (timers (Rev1.poll_then h r s)).
Proof.
  intros Hs. unfold Rev1.poll_then, Rev1.andThen. rewrite Hs.
  cbn [is_str String.eqb Ascii.eqb Bool.eqb orb].
  unfold clearInterval. cbn [progressInterval Rev1.updateProgress on_page set_page].
  destruct (progressInterval s); cbn; apply in_or_app; right; left; reflexivity.
Qed.

(** C3.  A reply [{finished: true, error: x}] with [x] not empty shows
    the failure message and the error status; no completion message is
    added, the status is not the completed one and the list is not
    asked for again. *)
Theorem finished_with_error_is_failure :
  forall (r : Progress.t) (x : string) (s : State),
    Progress.finished r = JBool true ->
    Progress.error r = JStr x ->
    x <> EmptyString ->
    let s' := Rev2.poll_then h r s in
    notices (page s') =
      (notices (page s) ++ [(next_node s, Note "error" ("Download failed: " ++ x))])%list /\
    progressStatus (progressUi (page s')) = "Error occurred" /\
    progressStatus (progressUi (page s')) <> "Completed!" /\
    pending s' = pending s.
Proof.
  intros r x s Hf He Hx. unfold Rev2.poll_then. rewrite Hf, He.
  destruct x as [|c x]; [congruence|].
  destruct (progressInterval s) eqn:E; cbn; rewrite ?E; cbn;
    repeat split; discriminate.
Qed.

(** The first revision does not read [finished]: the same reply leaves
    its poller running. *)
Lemma rev1_ignores_finished (s : State) :
  timers (Rev1.poll_then h finished_with_error s) = timers s /\
  alerts (page (Rev1.poll_then h finished_with_error s)) = alerts (page s).
Proof. split; reflexivity. Qed.


(** The two shapes of one report lead to the same state. *)
Lemma shapes_agree (j : JobState) (percent : number) (s : State) :
  well_reported j ->
  percent <> S754_nan ->
  Rev2.poll_then h (finished_shape j percent) s =
  Rev2.poll_then h (status_shape j percent) s.
Proof.
  intros Hj Hp.
  assert (U : Rev2.updateProgress h
                {| Progress.finished := JUndefined;
                   Progress.progress := or_else (JNum percent) (JNum (of_Z 0));
                   Progress.status := Progress.status (status_shape j percent);
                   Progress.error := reported_error j |} s =
              Rev2.updateProgress h (status_shape j percent) s).
  { destruct percent; try congruence; reflexivity. }
  destruct j as [| |reason].
  - unfold Rev2.poll_then, Rev2.andThen. cbn [finished_shape Progress.finished
      Progress.progress Progress.error Progress.status defined truthy status_shape
      is_str String.eqb Ascii.eqb Bool.eqb orb reported_error] in *.
    exact U.
  - unfold Rev2.poll_then, Rev2.andThen. cbn [finished_shape Progress.finished
      Progress.progress Progress.error Progress.status defined truthy status_shape
      is_str String.eqb Ascii.eqb Bool.eqb orb reported_error] in *.
    rewrite U. reflexivity.
  - destruct reason as [|c reason]; [contradiction Hj; reflexivity|].
    unfold Rev2.poll_then, Rev2.andThen. cbn [finished_shape Progress.finished
      Progress.progress Progress.error Progress.status defined truthy status_shape
      is_str String.eqb Ascii.eqb Bool.eqb orb reported_error is_empty negb] in *.
    rewrite U. reflexivity.
Qed.

(** C4, as amended.  A report of one of the three states of a job, with
    a numeric percentage, leads to the same state of the controller and
    of the page in either shape, and that state is the one the contract
    names.  The display shows the percentage and the text of the state.
    In progress nothing else changes.  Completed: the interval kept is
    cleared, the success notice is added, the list is requested, the
    button is enabled and the reset is armed.  Failed, with a reason
    that is not empty: the same, with the failure notice naming the
    reason and no request for the list.  The in-progress report of the
    status shape is the one with status downloading. *)
Theorem both_shapes_same_transition :
  forall (j : JobState) (percent : number) (s : State),
    well_reported j ->
    percent <> S754_nan ->
    Rev2.poll_then h (finished_shape j percent) s =
      Rev2.poll_then h (status_shape j percent) s /\
    progressUi (page (Rev2.poll_then h (status_shape j percent) s)) =
      Laws.shown h j percent (progressSection_hidden (progressUi (page s))) /\
    match j with
    | InProgress =>
        Rev2.poll_then h (status_shape j percent) s =
        on_page (set_progressUi
          (Laws.shown h j percent (progressSection_hidden (progressUi (page s))))) s
    | Completed =>
        let s' := Rev2.poll_then h (status_shape j percent) s in
        timers s' = (slot_cleared s ++ Laws.terminal_timers s)%list /\
        notices (page s') =
          (notices (page s) ++ [(next_node s, Note "success" "Download completed!")])%list /\
        pending s' = (pending s ++ [AwaitList])%list /\
        downloadBtn (page s') = {| disabled := false; innerHTML := Rev2.download_label |}
    | Failed reason =>
        let s' := Rev2.poll_then h (status_shape j percent) s in
        timers s' = (slot_cleared s ++ Laws.terminal_timers s)%list /\
        notices (page s') =
          (notices (page s) ++
           [(next_node s, Note "error" ("Download failed: " ++ reason)%string)])%list /\
        pending s' = pending s /\
        downloadBtn (page s') = {| disabled := false; innerHTML := Rev2.download_label |}
    end.
Proof.
  intros j percent s Hj Hp.
  split; [apply shapes_agree; assumption|].
  destruct j as [| |reason]; unfold Rev2.poll_then, Laws.shown, Laws.terminal_timers;
    cbn [status_shape Progress.finished Progress.progress Progress.error
         Progress.status defined is_str String.eqb Ascii.eqb Bool.eqb orb
         reported_error Laws.status_text].
  - split; reflexivity.
  - unfold slot_cleared. destruct (progressInterval s) eqn:E; cbn; rewrite ?E; cbn;
      rewrite <- ?app_assoc; repeat split.
  - unfold slot_cleared. destruct (progressInterval s) eqn:E; cbn; rewrite ?E; cbn;
      rewrite <- ?app_assoc; repeat split.
Qed.

(** A [pending] status is in progress too: nothing but the progress
    display changes, and the status text is the only difference from a
    [downloading] one. *)
Lemma pending_is_in_progress (s : State) :
  let s' := Rev2.poll_then h pending_reply s in
  timers s' = timers s /\
  notices (page s') = notices (page s) /\
  downloadBtn (page s') = downloadBtn (page s) /\
  progressStatus (progressUi (page s')) = "Processing...".
Proof. repeat split. Qed.

(** The first revision handles the [status] shape only. *)
Lemma rev1_shapes_differ (s : State) :
  progressStatus (progressUi (page
    (Rev1.poll_then h (finished_shape Completed (of_Z 100)) s))) = "Processing..." /\
  progressStatus (progressUi (page
    (Rev1.poll_then h (status_shape Completed (of_Z 100)) s))) = "Completed!".
Proof.
  split; [reflexivity|].
  destruct (progressInterval s) eqn:E; cbn; rewrite ?E; reflexivity.
Qed.

(** C5, as amended.  Stopping is idempotent: after a second terminal
    reply the pollers, the handle kept and the button are as the first
    one left them.  The other terminal actions run once per terminal
    reply: the second one adds a message and arms a grace timer again. *)
Theorem second_terminal_reply_repeats_actions :
  forall (r1 r2 : Progress.t) (s : State),
    issued s ->
    terminal r1 ->
    terminal r2 ->
    let s1 := Rev2.poll_then h r1 s in
    let s2 := Rev2.poll_then h r2 s1 in
    pollers s2 = pollers s1 /\
    progressInterval s2 = progressInterval s1 /\
    downloadBtn (page s2) = downloadBtn (page s1) /\
    List.length (notices (page s2)) = S (List.length (notices (page s1))) /\
    resets_armed s2 = S (resets_armed s1).
Proof.
  intros r1 r2 s Hi H1 H2.
  destruct (poll_then_terminal r1 s H1)
    as (t1 & m1 & l1 & _ & Ht1 & Hh1 & Hs1 & _ & _ & _ & Hn1 & Hb1).
  destruct (poll_then_terminal r2 (Rev2.poll_then h r1 s) H2)
    as (t2 & m2 & l2 & _ & Ht2 & _ & Hs2 & _ & _ & _ & Hn2 & Hb2).
  cbn zeta in *. repeat split.
  - assert (P1 : pollers (Rev2.poll_then h r1 s) =
                 match progressInterval s with
                 | Some hd => drop_timer hd (pollers s)
                 | None => pollers s
                 end).
    { unfold pollers at 1. rewrite Ht1. apply pollers_slot_cleared. reflexivity. }
    unfold pollers at 1. rewrite Ht2, pollers_slot_cleared by reflexivity.
    rewrite Hs1. destruct (progressInterval s); [|reflexivity].
    rewrite P1. apply drop_timer_idem.
  - exact Hs2.
  - rewrite Hb2, Hb1. reflexivity.
  - rewrite Hn2, length_app. simpl. lia.
  - unfold resets_armed. rewrite Ht2. unfold slot_cleared at 1. rewrite Hs1.
    rewrite filter_app, length_app. cbn [filter is_reset snd List.length].
    destruct (progressInterval s) as [hd|] eqn:E; [|lia].
    rewrite Ht1, drop_timer_app. unfold slot_cleared. rewrite E, drop_timer_idem.
    rewrite (drop_timer_fresh hd [_; _]); [lia|].
    specialize (Hi hd E). intros e [<-|[<-|[]]]; simpl; lia.
Qed.

(** C6.  A poll request that fails is logged and nothing else happens:
    the failure can always be taken, the timers, the handle kept, the
    job identifier and the page stay as they are, and the console gets
    one line.  The first revision does the same. *)
Theorem failed_poll_is_logged_and_ignored :
  forall (url : string) (s : State),
    (In (AwaitProgress url) (pending s) ->
     exists s', Rev2.step h (ProgressError url) s = Some s') /\
    (forall s',
        Rev2.step h (ProgressError url) s = Some s' ->
        timers s' = timers s /\
        progressInterval s' = progressInterval s /\
        currentDownloadId s' = currentDownloadId s /\
        page s' = page s /\
        console s' = (console s ++ ["Error monitoring progress:"])%list) /\
    (let s1 := Rev1.poll_catch s in
     timers s1 = timers s /\
     progressInterval s1 = progressInterval s /\
     currentDownloadId s1 = currentDownloadId s /\
     page s1 = page s /\
     console s1 = (console s ++ ["Error monitoring progress:"])%list).
Proof.
  intros url s. split; [|split].
  - intros Hin. unfold Rev2.step, Rev2.settled.
    destruct (settle_In _ _ Hin) as (l & ->). eauto.
  - intros s'. unfold Rev2.step, Rev2.settled.
    destruct (settle (AwaitProgress url) (pending s)); [|discriminate].
    intros [= <-]. repeat split.
  - repeat split.
Qed.

End WithHost.

Lemma terminal_reply_stops_polling_and_resets_witness :
  terminal finished_with_error /\
  disabled (downloadBtn (page
    (Rev2.poll_then sample_host finished_with_error (Rev2.boot sample_page)))) = false.
Proof.
  assert (T : terminal finished_with_error) by (apply terminal_finished; reflexivity).
  split; [exact T|].
  exact (proj1 (proj2 (proj2
    (terminal_reply_stops_polling_and_resets sample_host finished_with_error
       (Rev2.boot sample_page) T)))).
Defined.

Lemma finished_with_error_is_failure_witness :
  progressStatus (progressUi (page
    (Rev2.poll_then sample_host finished_with_error (Rev2.boot sample_page)))) = "Error occurred".
Proof.
  refine (proj1 (proj2 (finished_with_error_is_failure sample_host finished_with_error "x"
    (Rev2.boot sample_page) eq_refl eq_refl _))).
  discriminate.
Defined.

Lemma both_shapes_same_transition_witness :
  well_reported (Failed "x") /\
  of_Z 40 <> S754_nan /\
  Rev2.poll_then sample_host (finished_shape (Failed "x") (of_Z 40)) (after one_job) =
  Rev2.poll_then sample_host (status_shape (Failed "x") (of_Z 40)) (after one_job).
Proof.
  assert (W : well_reported (Failed "x")) by (simpl; discriminate).
  assert (N : of_Z 40 <> S754_nan) by (vm_compute; discriminate).
  split; [exact W|]. split; [exact N|].
  exact (proj1 (both_shapes_same_transition sample_host (Failed "x") (of_Z 40)
                  (after one_job) W N)).
Defined.

(** C4, as stated, fails.  Two reports of a job in progress at 0 per
    cent, one with [finished] false and one with the status pending,
    both leave the timers alone and show different texts.  Two reports
    of a job in progress without a percentage show 0% and NaN%.  Two
    reports of a failure without a reason differ more: the one with
    [finished] is taken for a completion. *)
Lemma equivalent_reports_shown_differently :
  let s := after one_job in
  let by_field := Rev2.poll_then sample_host (finished_shape InProgress (of_Z 0)) s in
  let by_status := Rev2.poll_then sample_host pending_reply s in
  let bare_field := Rev2.poll_then sample_host (Laws.going_on true JUndefined) s in
  let bare_status := Rev2.poll_then sample_host (Laws.going_on false JUndefined) s in
  let failed_field :=
    Rev2.poll_then sample_host (finished_shape (Failed EmptyString) (of_Z 40)) s in
  let failed_status :=
    Rev2.poll_then sample_host (status_shape (Failed EmptyString) (of_Z 40)) s in
  (timers by_field = timers s /\ timers by_status = timers s /\
   progressStatus (progressUi (page by_field)) = "Downloading..." /\
   progressStatus (progressUi (page by_status)) = "Processing...") /\
  (progressText (progressUi (page bare_field)) = "0%" /\
   progressText (progressUi (page bare_status)) = "NaN%") /\
  (notices (page failed_field) =
     (notices (page s) ++ [(1, Note "success" "Download completed!")])%list /\
   notices (page failed_status) =
     (notices (page s) ++ [(1, Note "error" "Download failed: ")])%list).
Proof.
  cbv zeta.
  split; [split; [|split; [|split]] | split; [split | split]]; vm_compute; reflexivity.
Qed.

Lemma failed_poll_is_logged_and_ignored_witness :
  In (AwaitProgress "/progress/job1") (pending (after one_job)) /\
  exists s',
    Rev2.step sample_host (ProgressError "/progress/job1") (after one_job) = Some s' /\
    timers s' = timers (after one_job).
Proof.
  assert (I : In (AwaitProgress "/progress/job1") (pending (after one_job))).
  { vm_compute. do 4 right. left. reflexivity. }
  split; [exact I|].
  destruct (proj1 (failed_poll_is_logged_and_ignored sample_host
                     "/progress/job1" (after one_job)) I) as (s' & Hs').
  exists s'. split; [exact Hs'|].
  exact (proj1 (proj1 (proj2 (failed_poll_is_logged_and_ignored sample_host
                                "/progress/job1" (after one_job))) s' Hs')).
Defined.

End PollerFacts.

(** ** Sessions: what every handler leaves alone *)

Module SessionFacts.
Import Str Js Browser Api Events Spec BrowserFacts PollerFacts.

(** A relation between the state before and after a handler that is
    kept by the primitive updates is kept by every handler that does not
    create an interval. *)
Section Frame.
Variable h : Host.
Variable R : State -> State -> Prop.
Hypothesis R_refl : forall s, R s s.
Hypothesis R_trans : forall a b c, R a b -> R b c -> R a c.
Hypothesis R_page : forall p s, R s (set_page p s).
Hypothesis R_pending : forall l s, R s (set_pending l s).
Hypothesis R_console : forall l s, R s (set_console l s).
Hypothesis R_node : forall n s, R s (set_next_node n s).
Hypothesis R_id : forall v s, R s (set_currentDownloadId v s).
Hypothesis R_setTimeout : forall cb ms s, R s (setTimeout cb ms s).
Hypothesis R_drop : forall hd s, R s (set_timers (drop_timer hd (timers s)) s).

Local Abbreviation keeps := (Spec.keeps R).

Lemma keeps_same : keeps (fun s => s).
Proof. intros s. apply R_refl. Qed.

Lemma keeps_andThen (f g : State -> State) :
  keeps f -> keeps g -> keeps (Rev2.andThen f g).
Proof. intros Hf Hg s. unfold Rev2.andThen. eapply R_trans; [apply Hf | apply Hg]. Qed.

Lemma keeps_if (b : bool) (f g : State -> State) :
  keeps f -> keeps g -> keeps (if b then f else g).
Proof. destruct b; tauto. Qed.

Lemma keeps_on_page (f : Page -> Page) : keeps (on_page f).
Proof. intros s. apply R_page. Qed.

Lemma keeps_await (p : Pending) : keeps (await p).
Proof. intros s. apply R_pending. Qed.

Lemma keeps_console_error (msg : string) : keeps (console_error msg).
Proof. intros s. apply R_console. Qed.

Lemma keeps_setTimeout (cb : Callback) (ms : N) : keeps (setTimeout cb ms).
Proof. intros s. apply R_setTimeout. Qed.

Lemma keeps_set_currentDownloadId (v : Json) : keeps (set_currentDownloadId v).
Proof. intros s. apply R_id. Qed.

Lemma keeps_clearInterval : keeps (fun s => clearInterval (progressInterval s) s).
Proof.
  intros s. unfold clearInterval. destruct (progressInterval s); [apply R_drop | apply R_refl].
Qed.

Lemma keeps_appendToBody (n : Notice) : keeps (Rev2.appendToBody n).
Proof.
  intros s. unfold Rev2.appendToBody.
  eapply R_trans; [apply keeps_on_page | apply R_node].
Qed.

Lemma keeps_showNotification (msg type : string) : keeps (Rev2.showNotification msg type).
Proof.
  intros s. unfold Rev2.showNotification.
  eapply R_trans; [apply keeps_appendToBody | apply R_setTimeout].
Qed.

Lemma keeps_showAlreadyDownloaded (filename : string) :
  keeps (Rev2.showAlreadyDownloaded filename).
Proof.
  intros s. unfold Rev2.showAlreadyDownloaded.
  eapply R_trans; [apply keeps_appendToBody | apply R_setTimeout].
Qed.

(** Handlers are built from the primitives with [>>] and conditionals. *)
Ltac keep :=
  repeat
    match goal with
    | |- keeps (Rev2.andThen _ _) => apply keeps_andThen
    | |- keeps (on_page _) => apply keeps_on_page
    | |- keeps (await _) => apply keeps_await
    | |- keeps (console_error _) => apply keeps_console_error
    | |- keeps (setTimeout _ _) => apply keeps_setTimeout
    | |- keeps (set_currentDownloadId _) => apply keeps_set_currentDownloadId
    | |- keeps (fun s => clearInterval (progressInterval s) s) =>
        apply keeps_clearInterval
    | |- keeps (Rev2.showNotification _ _) => apply keeps_showNotification
    | |- keeps (Rev2.showAlreadyDownloaded _) => apply keeps_showAlreadyDownloaded
    | |- keeps (fun s => s) => apply keeps_same
    | |- keeps (if ?b then _ else _) => destruct b
    | |- keeps (match ?x with JStr _ => _ | _ => _ end) => destruct x
    | |- keeps (match ?x with Some _ => _ | None => _ end) => destruct x
    | |- keeps (match ?x with nil => _ | cons _ _ => _ end) => destruct x
    end.

(** Read [R s (f s)] as [keeps f]. *)
Ltac as_keeps :=
  match goal with
  | |- R ?s (?f ?s) => revert s; change (keeps f)
  end.

Lemma keeps_getVideoInfo (url : string) : keeps (Rev2.getVideoInfo url).
Proof. unfold Rev2.getVideoInfo, Rev2.showLoading. keep. Qed.

Lemma keeps_getVideoInfo_catch : keeps Rev2.getVideoInfo_catch.
Proof. unfold Rev2.getVideoInfo_catch, Rev2.hideLoading, Rev2.showError. keep. Qed.

Lemma keeps_getVideoInfo_then (d : Info.t) : keeps (Rev2.getVideoInfo_then h d).
Proof.
  pose proof keeps_getVideoInfo_catch.
  unfold Rev2.getVideoInfo_then, Rev2.hideLoading, Rev2.showError,
    Rev2.displayVideoInfo.
  keep; assumption.
Qed.

Lemma keeps_startDownload : keeps Rev2.startDownload.
Proof.
  intros s. unfold Rev2.startDownload.
  destruct (_ || _).
  - apply keeps_showNotification.
  - as_keeps. unfold Rev2.showLoading. keep.
Qed.

Lemma keeps_startDownload_catch : keeps Rev2.startDownload_catch.
Proof.
  unfold Rev2.startDownload_catch, Rev2.hideLoading, Rev2.showError,
    Rev2.enable_downloadBtn. keep.
Qed.

(** A refused submission. *)
Lemma keeps_startDownload_then (d : Download.t) :
  truthy (Download.success d) = false -> keeps (Rev2.startDownload_then d).
Proof.
  intros Hd. pose proof keeps_startDownload_catch.
  unfold Rev2.startDownload_then, Rev2.hideLoading, Rev2.showError,
    Rev2.enable_downloadBtn. rewrite Hd.
  keep; assumption.
Qed.

Lemma keeps_poll_then (r : Progress.t) : keeps (Rev2.poll_then h r).
Proof.
  unfold Rev2.poll_then, Rev2.updateProgress, Rev2.showError, Rev2.showSuccess,
    Rev2.loadDownloads, Rev2.enable_downloadBtn. keep.
Qed.

Lemma keeps_loadDownloads_then (d : Listing.t) : keeps (Rev2.loadDownloads_then h d).
Proof.
  unfold Rev2.loadDownloads_then, Rev2.displayDownloads. keep.
Qed.

Lemma keeps_deleteFile_then (filename : string) (d : Deletion.t) :
  keeps (Rev2.deleteFile_then h filename d).
Proof.
  unfold Rev2.deleteFile_then, Rev2.showSuccess, Rev2.showError, Rev2.loadDownloads.
  keep. intros s. destruct (includes _ _); [apply keeps_on_page | apply R_refl].
Qed.

Lemma keeps_run_callback (cb : Callback) : keeps (Rev2.run_callback h cb).
Proof.
  destruct cb; cbn [Rev2.run_callback].
  - intros s. apply R_pending.
  - unfold Rev2.resetProgress, Rev2.hideProgressSection. keep.
  - keep.
  - unfold Rev2.loadDownloads. keep.
  - apply keeps_getVideoInfo.
Qed.

Lemma keeps_settled (p : Pending) (k : State -> State) (s s' : State) :
  keeps k -> Rev2.settled p k s = Some s' -> R s s'.
Proof.
  intros Hk. unfold Rev2.settled. destruct (settle p (pending s)); [|discriminate].
  intros [= <-]. eapply R_trans; [apply R_pending | apply Hk].
Qed.

(** Every event but an accepted submission keeps the relation. *)
Lemma step_keeps (e : Event) (s s' : State) :
  starts_poller e = false -> Rev2.step h e s = Some s' -> R s s'.
Proof.
  intros He. destruct e; cbn [Rev2.step];
    try (apply keeps_settled; clear s s').
  - intros [= <-]. unfold Rev2.handlePaste. destruct (Validator.isValidYouTubeUrl _);
      [apply R_setTimeout | apply R_refl].
  - intros [= <-]. eapply R_trans; [apply keeps_on_page|].
    unfold Rev2.handleUrlInput. destruct (Validator.isValidYouTubeUrl _).
    + apply keeps_getVideoInfo.
    + unfold Rev2.hideVideoInfo. apply keeps_on_page.
  - intros [= <-]. apply keeps_startDownload.
  - unfold Rev2.fire. destruct (find_timer handle (timers s)) as [[ms cb|ms cb]|];
      [| |discriminate]; intros [= <-].
    + apply keeps_run_callback.
    + eapply R_trans; [apply R_drop | apply keeps_run_callback].
  - unfold Rev2.checkClipboard_then. keep. apply keeps_getVideoInfo.
  - keep.
  - unfold Rev2.checkCookieStatus_then. keep.
  - keep.
  - apply keeps_getVideoInfo_then.
  - apply keeps_getVideoInfo_catch.
  - apply keeps_startDownload_then. exact He.
  - apply keeps_startDownload_catch.
  - apply keeps_poll_then.
  - unfold Rev2.poll_catch. keep.
  - apply keeps_loadDownloads_then.
  - unfold Rev2.loadDownloads_catch. keep.
  - intros [= <-]. as_keeps. unfold Rev2.playAudio, Rev2.showSuccess. keep.
  - intros [= <-]. apply keeps_on_page.
  - intros [= <-]. apply keeps_await.
  - unfold Rev2.downloadFile_then, Rev2.showSuccess, Rev2.showError. keep.
  - unfold Rev2.downloadFile_catch, Rev2.showError. keep.
  - intros [= <-]. as_keeps. unfold Rev2.deleteFile. keep.
  - apply keeps_deleteFile_then.
  - unfold Rev2.deleteFile_catch, Rev2.showError. keep.
  - keep.
  - unfold Rev2.playAudio_catch, Rev2.showError. keep.
  - destruct (paused _); [discriminate|]. intros [= <-]. apply keeps_on_page.
  - destruct (Rev2.is_note _ _); [|discriminate]. intros [= <-].
    apply keeps_on_page.
Qed.

End Frame.


Lemma calm_setTimeout (cb : Callback) (ms : N) (s : State) :
  pollers (setTimeout cb ms s) = pollers s.
Proof.
  unfold pollers, setTimeout. cbn. rewrite filter_app. cbn. apply app_nil_r.
Qed.

(** No handler but an accepted submission adds a poller. *)
Lemma step_calm (h : Host) (e : Event) (s s' : State) :
  starts_poller e = false -> Rev2.step h e s = Some s' -> calm s s'.
Proof.
  apply step_keeps; unfold calm; intros; try reflexivity.
  - etransitivity; eassumption.
  - rewrite calm_setTimeout. reflexivity.
  - unfold pollers. cbn. rewrite filter_drop_timer. apply drop_timer_length.
Qed.

Lemma step_fresh_quiet (h : Host) (e : Event) (s s' : State) :
  starts_poller e = false -> Rev2.step h e s = Some s' -> fresh s s'.
Proof.
  apply step_keeps; unfold fresh; intros; cbn; try (split; [lia | tauto]).
  - destruct H as [H1 H2], H0 as [H3 H4]. split; [lia|].
    intros hd Hhd. destruct (H4 hd Hhd) as [E|E]; [|tauto].
    destruct (H2 hd E) as [E'|E']; [tauto | right; lia].
Qed.

(** What an accepted submission does to the timers and the handle kept. *)
Lemma accepted_submission (h : Host) (d : Download.t) (s s' : State) :
  truthy (Download.success d) = true ->
  Rev2.step h (DownloadReply d) s = Some s' ->
  timers s' =
    (timers s ++ [(next_handle s, Interval 1000 PollProgress);
                  (S (next_handle s), Timeout 5000 (RemoveNode (next_node s)))])%list /\
  progressInterval s' = Some (next_handle s) /\
  next_handle s' = S (S (next_handle s)).
Proof.
  intros Hd. cbn [Rev2.step]. unfold Rev2.settled.
  destruct (settle AwaitDownload (pending s)); [|discriminate].
  intros [= <-]. unfold Rev2.startDownload_then. rewrite Hd. cbn.
  rewrite <- app_assoc. repeat split.
Qed.

Lemma step_fresh (h : Host) (e : Event) (s s' : State) :
  Rev2.step h e s = Some s' -> fresh s s'.
Proof.
  destruct (starts_poller e) eqn:He; [|apply step_fresh_quiet, He].
  destruct e; try discriminate. intros Hs.
  destruct (accepted_submission h d s s' He Hs) as (_ & Hp & Hn).
  split; [lia|]. intros hd. rewrite Hp, Hn. intros [= <-]. right. lia.
Qed.

(** In every state a run reaches the handle kept was issued. *)
Lemma run_issued (h : Host) (tr : list Event) (s s' : State) :
  issued s -> Rev2.run h tr s = Some s' -> issued s'.
Proof.
  revert s. induction tr as [|e tr IH]; intros s Hi; cbn [Rev2.run].
  - intros [= <-]. exact Hi.
  - destruct (Rev2.step h e s) as [s1|] eqn:E; [|discriminate].
    apply IH. destruct (step_fresh h e s s1 E) as [Hn Hk].
    intros hd Hhd. destruct (Hk hd Hhd) as [Hs|Hs]; [|exact Hs].
    specialize (Hi hd Hs). lia.
Qed.

Lemma reachable_issued (h : Host) (p : Page) (tr : list Event) (s : State) :
  Rev2.run h tr (Rev2.boot p) = Some s -> issued s.
Proof. apply run_issued. intros hd. discriminate. Qed.

(** C2, as amended.  The controller keeps one handle and never clears
    the interval it names when a submission is accepted: an accepted
    submission adds a poller.  So at most one poller is active as long
    as no submission is accepted while a poller is still active. *)
Theorem one_poller_unless_resubmitted :
  forall (h : Host) (p : Page),
    (forall s, serial h p s -> List.length (pollers s) <= 1) /\
    (forall d s s',
        truthy (Download.success d) = true ->
        Rev2.step h (DownloadReply d) s = Some s' ->
        pollers s' = (pollers s ++ [(next_handle s, Interval 1000 PollProgress)])%list).
Proof.
  intros h p.
  assert (A : forall d s s',
             truthy (Download.success d) = true ->
             Rev2.step h (DownloadReply d) s = Some s' ->
             pollers s' = (pollers s ++ [(next_handle s, Interval 1000 PollProgress)])%list).
  { intros d s s' Hd Hs. destruct (accepted_submission h d s s' Hd Hs) as (Ht & _).
    unfold pollers. rewrite Ht, filter_app. reflexivity. }
  split; [|exact A].
  induction 1 as [|e s s' Hs IH Hg He]; [cbn; lia|].
  destruct (starts_poller e) eqn:Hp.
  - destruct e; try discriminate.
    rewrite (A d s s' Hp He), (Hg eq_refl). cbn. lia.
  - pose proof (step_calm h e s s' Hp He) as Hc. unfold calm in Hc. lia.
Qed.

Lemma one_poller_unless_resubmitted_witness :
  serial sample_host sample_page (Rev2.boot sample_page) /\
  List.length (pollers (Rev2.boot sample_page)) <= 1 /\
  truthy (Download.success (accepted "job1")) = true /\
  pollers (after (submitted ++ [DownloadReply (accepted "job1")])) =
    (pollers (after submitted) ++ [(2, Interval 1000 PollProgress)])%list.
Proof.
  split; [apply serial_boot|]. split; [|split; [reflexivity|]].
  - apply (proj1 (one_poller_unless_resubmitted sample_host sample_page)).
    apply serial_boot.
  - apply (proj2 (one_poller_unless_resubmitted sample_host sample_page)
             (accepted "job1") (after submitted)); [reflexivity|].
    vm_compute. reflexivity.
Defined.

Lemma second_terminal_reply_repeats_actions_witness :
  issued (after one_job) /\
  terminal completed /\
  resets_armed (Rev2.poll_then sample_host completed
                  (Rev2.poll_then sample_host completed (after one_job))) =
  S (resets_armed (Rev2.poll_then sample_host completed (after one_job))).
Proof.
  assert (I : issued (after one_job)).
  { apply (reachable_issued sample_host sample_page one_job). vm_compute. reflexivity. }
  assert (T : terminal completed).
  { apply terminal_status; [reflexivity | left; reflexivity]. }
  split; [exact I|]. split; [exact T|].
  exact (proj2 (proj2 (proj2 (proj2
    (second_terminal_reply_repeats_actions sample_host completed completed
       (after one_job) I T T))))).
Defined.

(** C2, as stated, fails: two accepted submissions in a row leave two
    pollers running. *)
Lemma two_submissions_two_pollers :
  Rev2.run sample_host two_submissions (Rev2.boot sample_page) =
    Some (after two_submissions) /\
  pollers (after two_submissions) =
    [(2, Interval 1000 PollProgress); (4, Interval 1000 PollProgress)].
Proof. split; vm_compute; reflexivity. Qed.

(** C5, as stated, fails: with two polls of one job in flight, both
    answered with a terminal reply, the completion message is shown
    twice and two grace timers are armed. *)
Lemma overlapping_replies_repeat_terminal_actions :
  Rev2.run sample_host overlapping_replies (Rev2.boot sample_page) =
    Some (after overlapping_replies) /\
  submissions overlapping_replies = 1 /\
  notices (page (after overlapping_replies)) =
    [(0, Note "success" "Download started successfully!");
     (1, Note "success" "Download completed!");
     (2, Note "success" "Download completed!")] /\
  resets_armed (after overlapping_replies) = 2.
Proof. split; [|split; [|split]]; vm_compute; reflexivity. Qed.

End SessionFacts.

(** ** The library: rendering, playing, deleting *)

Module LibraryFacts.
Import Str Js Browser Api Events Spec StrFacts.

Lemma includes_skip (a t n : string) :
  includes t n = true -> includes (a ++ t) n = true.
Proof.
  intros H. destruct (includes_inv _ _ H) as (x & y & ->).
  rewrite <- append_assoc. apply includes_app.
Qed.

Lemma includes_prefix (t n : string) :
  (exists b, t = n ++ b) -> includes t n = true.
Proof. intros (b & ->). apply includes_here. Qed.

(** Find the chunks of the needle among the chunks of the text. *)
Ltac find_chunks :=
  lazymatch goal with
  | |- includes (?c ++ _) (?c ++ _) = true =>
      first [ apply includes_prefix; eexists; rewrite ?append_assoc; reflexivity
            | apply includes_skip; find_chunks ]
  | |- includes (_ ++ _) _ = true => apply includes_skip; find_chunks
  end.

Lemma includes_char_app (c : ascii) (a b : string) :
  includes (a ++ b) (String c EmptyString) =
  includes a (String c EmptyString) || includes b (String c EmptyString).
Proof.
  induction a as [|x a IH].
  - reflexivity.
  - change (String x a ++ b) with (String x (a ++ b)).
    rewrite (includes_unfold (String x (a ++ b))), (includes_unfold (String x a)).
    cbn [strip_prefix]. destruct (Ascii.eqb c x); [rewrite !strip_prefix_nil; reflexivity|].
    exact IH.
Qed.

Lemma includes_char_cons (c x : ascii) (t : string) :
  includes (String x t) (String c EmptyString) =
  Ascii.eqb c x || includes t (String c EmptyString).
Proof.
  rewrite includes_unfold. cbn [strip_prefix].
  destruct (Ascii.eqb c x); [rewrite strip_prefix_nil|]; reflexivity.
Qed.





Lemma replace_all_app (c : ascii) (by_ a b : string) :
  replace_all c by_ (a ++ b) = replace_all c by_ a ++ replace_all c by_ b.
Proof.
  induction a as [|x a IH]; [reflexivity|].
  cbn [append replace_all]. rewrite IH, append_assoc. reflexivity.
Qed.

Lemma rev1_escapeHtml_cons (c : ascii) (t : string) :
  Rev1.escapeHtml (String c t) = Rev1.escapeHtml (String c EmptyString) ++ Rev1.escapeHtml t.
Proof.
  unfold Rev1.escapeHtml.
  change (String c t) with (String c EmptyString ++ t).
  rewrite !replace_all_app. reflexivity.
Qed.

Lemma rev1_escapeHtml_char (c : ascii) :
  Rev1.escapeHtml (String c EmptyString) =
  if Ascii.eqb c "&" then "&amp;"
  else if Ascii.eqb c "<" then "&lt;"
  else if Ascii.eqb c ">" then "&gt;"
  else if Ascii.eqb c "034" then "&quot;"
  else if Ascii.eqb c "'" then "&#039;"
  else String c EmptyString.
Proof.
  unfold Rev1.escapeHtml.
  destruct (Ascii.eqb_spec c "&") as [->|N1]; [reflexivity|].
  destruct (Ascii.eqb_spec c "<") as [->|N2]; [reflexivity|].
  destruct (Ascii.eqb_spec c ">") as [->|N3]; [reflexivity|].
  destruct (Ascii.eqb_spec c "034") as [->|N4]; [reflexivity|].
  destruct (Ascii.eqb_spec c "'") as [->|N5]; [reflexivity|].
  cbn [replace_all append].
  apply Ascii.eqb_neq in N1, N2, N3, N4, N5.
  rewrite N1. cbn [replace_all append]. rewrite N2. cbn [replace_all append].
  rewrite N3. cbn [replace_all append]. rewrite N4. cbn [replace_all append].
  rewrite N5. reflexivity.
Qed.







Section WithHost.
Variable h : Host.






(** What a successful delete does to the player: it is stopped and
    hidden exactly when the address it plays includes the filename. *)
Lemma deleteFile_then_player (filename : string) (d : Deletion.t) (s : State) :
  truthy (Deletion.success d) = true ->
  player (page (Rev2.deleteFile_then h filename d s)) =
  if includes (Rev2.audioPlayer_src h (page s)) filename
  then {| src_attr := src_attr (player (page s));
          paused := true;
          currentTime := 0;
          nowPlayingTitle := nowPlayingTitle (player (page s));
          audioPlayerSection_hidden := true |}
  else player (page s).
Proof.
  intros Hd. unfold Rev2.deleteFile_then, Rev2.andThen. rewrite Hd.
  change (Rev2.audioPlayer_src h
            (page (Rev2.loadDownloads (Rev2.showSuccess "File deleted successfully!" s))))
    with (Rev2.audioPlayer_src h (page s)).
  destruct (includes (Rev2.audioPlayer_src h (page s)) filename); reflexivity.
Qed.

End WithHost.


(** The sample entry: the name is escaped, the quote of the filename is not. *)
Lemma sample_entry_markup :
  includes (Rev2.item sample_host sample_entry)
    "<h4>&lt;b&gt;Tom &amp; Jerry&lt;/b&gt;</h4>" = true /\
  includes (Rev2.item sample_host sample_entry) "deleteFile('it's.mp3')" = true.
Proof. split; vm_compute; reflexivity. Qed.

(** C9, where the code departs from it.  The file aa.mp3 is playing and
    the file a.mp3 is deleted: the address of the player includes
    "a.mp3", so the player is paused, rewound and hidden, in both
    revisions. *)
Theorem deleting_another_file_stops_playback :
  Rev2.run sample_host play_one (Rev2.boot sample_page) = Some (after play_one) /\
  Rev2.run sample_host play_one_delete_another (Rev2.boot sample_page) =
    Some (after play_one_delete_another) /\
  player (page (after play_one)) =
    {| src_attr := Some "/play-audio/aa.mp3"; paused := false; currentTime := 7;
       nowPlayingTitle := "aa"; audioPlayerSection_hidden := false |} /\
  player (page (after play_one_delete_another)) =
    {| src_attr := Some "/play-audio/aa.mp3"; paused := true; currentTime := 0;
       nowPlayingTitle := "aa"; audioPlayerSection_hidden := true |} /\
  paused (player (page rev1_playing)) = false /\
  player (page (Rev1.deleteFile_then sample_host "a.mp3" deleted rev1_playing)) =
    {| src_attr := Some "/play-audio/aa.mp3"; paused := true; currentTime := 0;
       nowPlayingTitle := "aa"; audioPlayerSection_hidden := true |}.
Proof. split; [|split; [|split; [|split; [|split]]]]; vm_compute; reflexivity. Qed.

(** The same test misses the file that is playing when the address of
    the player does not spell its name as the filename does: on a host
    that writes a space as %20 the player goes on playing the deleted
    file. *)
Lemma deleting_the_playing_file_with_a_space_keeps_playing :
  Rev2.run encoding_host play_and_delete_spaced (Rev2.boot sample_page) =
    Some (after_on encoding_host play_and_delete_spaced) /\
  Rev2.audioPlayer_src encoding_host
    (page (after_on encoding_host play_and_delete_spaced)) =
    "http://localhost:5000/play-audio/my%20song.mp3" /\
  player (page (after_on encoding_host play_and_delete_spaced)) =
    {| src_attr := Some "/play-audio/my song.mp3"; paused := false; currentTime := 7;
       nowPlayingTitle := "my song"; audioPlayerSection_hidden := false |}.
Proof. split; [|split]; vm_compute; reflexivity. Qed.

(** Deleting the file that is playing does stop it. *)
Lemma deleting_the_playing_file_stops_playback :
  player (page (Rev2.deleteFile_then sample_host "aa.mp3" deleted (after play_one))) =
    {| src_attr := Some "/play-audio/aa.mp3"; paused := true; currentTime := 0;
       nowPlayingTitle := "aa"; audioPlayerSection_hidden := true |}.
Proof. vm_compute. reflexivity. Qed.

End LibraryFacts.

(** * Further properties *)

(** ** The validator, in full *)

Module ValidatorLaws.
Import Str Regex Validator Browser StrFacts Spec Laws ValidatorFacts.

Lemma plus_dot_inv (fuel pos : nat) (s : string) :
  plus_loop (m Dot) fuel pos s (fun p u => m Eol p u accept) = true ->
  s <> EmptyString /\ single_line s = true.
Proof.
  revert pos s; induction fuel as [|fuel IH]; intros pos s; [discriminate|].
  destruct s as [|c t]; [discriminate|].
  change (negb (line_terminator c) &&
          ((if Nat.ltb (String.length t) (String.length (String c t))
            then plus_loop (m Dot) fuel (S pos) t (fun p u => m Eol p u accept)
            else false) || m Eol (S pos) t accept) = true ->
          String c t <> EmptyString /\ single_line (String c t) = true).
  intros H. apply andb_true_iff in H as [Hc H]. split; [discriminate|].
  unfold single_line. cbn [forall_chars]. rewrite Hc. cbn [andb].
  apply orb_true_iff in H as [H|H].
  - destruct (Nat.ltb _ _); [|discriminate]. apply (IH _ _ H).
  - destruct t; [reflexivity | discriminate].
Qed.

Ltac choose_in := simpl; repeat first [left; reflexivity | right].

Lemma valid_link_accepted (s : string) : valid_link s -> isValidYouTubeUrl s = true.
Proof.
  unfold isValidYouTubeUrl, patterns. cbn [existsb].
  unfold pattern1, pattern2, pattern3. rewrite !test_anchored.
  intros H; destruct H as [sc w dom rest Hsc Hw Hd Hn Hr | sc p rest Hsc Hp | sc rest Hsc].
  - destruct rest as [|c rest]; [congruence|].
    simpl in Hsc, Hw, Hd.
    destruct Hsc as [<-|[<-|[<-|[]]]]; destruct Hw as [<-|[<-|[]]];
      destruct Hd as [<-|[<-|[<-|[]]]];
      cbn -[plus_loop String.length]; rewrite ?strip_prefix_nil;
      cbn -[plus_loop String.length]; rewrite ?orb_false_r;
      first [ apply orb_true_r | apply plus_dot_eol; [simpl; lia | exact Hr]
            | apply orb_true_iff; left; apply plus_dot_eol; [simpl; lia | exact Hr] ].
  - simpl in Hsc, Hp.
    destruct Hsc as [<-|[<-|[]]];
      destruct Hp as [<-|[<-|[<-|[<-|[<-|[<-|[<-|[]]]]]]]];
      cbn -[plus_loop String.length]; rewrite ?strip_prefix_nil;
      cbn -[plus_loop String.length]; rewrite ?orb_false_r;
      first [ reflexivity | apply orb_true_r ].
  - simpl in Hsc. destruct Hsc as [<-|[<-|[]]];
      cbn -[plus_loop String.length]; rewrite ?strip_prefix_nil;
      cbn -[plus_loop String.length]; rewrite ?orb_false_r;
      first [ reflexivity | apply orb_true_r ].
Qed.

Ltac open_literals :=
  repeat (cbn -[plus_loop String.length] in *;
    match goal with
    | |- context [strip_prefix ?l ?s] =>
        let E := fresh "E" in
        destruct (strip_prefix l s) eqn:E;
        [ apply strip_prefix_Some in E; subst s | ]
    end).

Ltac pick_path :=
  first [ eapply (by_path "http://" "youtu.be/")
        | eapply (by_path "https://" "youtu.be/")
        | eapply (by_path "http://" "youtube.com/watch/")
        | eapply (by_path "https://" "youtube.com/watch/")
        | eapply (by_path "http://" "youtube.com/embed/")
        | eapply (by_path "https://" "youtube.com/embed/")
        | eapply (by_path "http://" "youtube.com/v/")
        | eapply (by_path "https://" "youtube.com/v/")
        | eapply (by_path "http://" "www.youtube.com/watch/")
        | eapply (by_path "https://" "www.youtube.com/watch/")
        | eapply (by_path "http://" "www.youtube.com/embed/")
        | eapply (by_path "https://" "www.youtube.com/embed/")
        | eapply (by_path "http://" "www.youtube.com/v/")
        | eapply (by_path "https://" "www.youtube.com/v/")
        | eapply (by_music "http://")
        | eapply (by_music "https://") ]; choose_in.

Ltac try_domain sc w :=
  first [ eapply (by_domain sc w "youtube.com")
        | eapply (by_domain sc w "youtu.be")
        | eapply (by_domain sc w "youtube") ].

Ltac pick_domain :=
  first [ try_domain EmptyString EmptyString
        | try_domain EmptyString "www."
        | try_domain "http://" EmptyString
        | try_domain "http://" "www."
        | try_domain "https://" EmptyString
        | try_domain "https://" "www." ].

Lemma accepted_valid_link (s : string) : isValidYouTubeUrl s = true -> valid_link s.
Proof.
  unfold isValidYouTubeUrl, patterns. cbn [existsb].
  unfold pattern1, pattern2, pattern3. rewrite !test_anchored.
  open_literals.
  all: try (intros H; discriminate H).
  all: try (intros _; pick_path).
  all: intros H; rewrite ?orb_false_r in H; apply plus_dot_inv in H as [Hn Hr];
    pick_domain; first [ exact Hn | exact Hr | choose_in ].
Qed.

(** X1.  The validator accepts exactly the strings of three forms: an
    optional scheme, an optional "www.", one of the domains youtube.com,
    youtu.be or youtube, a slash and a non-empty rest on one line; a
    scheme, one of seven host-and-path prefixes and anything; a scheme,
    the music watch prefix and anything. *)
Theorem isValidYouTubeUrl_iff_valid_link :
  forall s : string, isValidYouTubeUrl s = true <-> valid_link s.
Proof.
  intros s; split; [apply accepted_valid_link | apply valid_link_accepted].
Qed.

Lemma isValidYouTubeUrl_iff_valid_link_witness :
  valid_link "youtube/x" /\ isValidYouTubeUrl "youtube/x" = true.
Proof.
  assert (V : valid_link "youtube/x").
  { apply (by_domain EmptyString EmptyString "youtube" "x");
      [choose_in | choose_in | choose_in | discriminate | reflexivity]. }
  split; [exact V|].
  exact (proj2 (isValidYouTubeUrl_iff_valid_link "youtube/x") V).
Defined.

(** An accepted string starts with h, w or y. *)
Lemma valid_link_first (s : string) :
  valid_link s ->
  exists c t, s = String c t /\ (c = "h" \/ c = "w" \/ c = "y")%char.
Proof.
  intros [sc w dom rest Hsc Hw Hd _ _ | sc p rest Hsc _ | sc rest Hsc].
  - simpl in Hsc, Hw, Hd.
    destruct Hsc as [<-|[<-|[<-|[]]]]; destruct Hw as [<-|[<-|[]]];
      destruct Hd as [<-|[<-|[<-|[]]]]; simpl; eauto 6.
  - simpl in Hsc. destruct Hsc as [<-|[<-|[]]]; simpl; eauto 6.
  - simpl in Hsc. destruct Hsc as [<-|[<-|[]]]; simpl; eauto 6.
Qed.

Lemma white_space_rejected (c : ascii) (t : string) :
  white_space c = true -> isValidYouTubeUrl (String c t) = false.
Proof.
  intros Hc. destruct (isValidYouTubeUrl (String c t)) eqn:E; [|reflexivity].
  apply accepted_valid_link, valid_link_first in E.
  destruct E as (c' & t' & E & [E'|[E'|E']]); injection E as <- <-; subst c; discriminate Hc.
Qed.

(** X2.  Text that starts with white space is ignored when it is pasted
    or read from the clipboard, because those handlers hand it to the
    validator as it is; the input handler trims it first and treats it
    as the text without the space. *)
Theorem leading_white_space_is_ignored_unless_typed :
  forall (c : ascii) (text : string) (s : State),
    white_space c = true ->
    Rev2.handlePaste (String c text) s = s /\
    Rev2.checkClipboard_then (String c text) s = s /\
    Rev2.handleUrlInput (String c text) s = Rev2.handleUrlInput text s.
Proof.
  intros c text s Hc. unfold Rev2.handlePaste, Rev2.checkClipboard_then.
  rewrite (white_space_rejected c text Hc). repeat split.
  unfold Rev2.handleUrlInput, trim. cbn [trim_start]. rewrite Hc. reflexivity.
Qed.

Lemma leading_white_space_is_ignored_unless_typed_witness :
  white_space " " = true /\
  Rev2.handlePaste (String " " sample_url) (Rev2.boot sample_page) =
    Rev2.boot sample_page.
Proof.
  split; [reflexivity|].
  exact (proj1 (leading_white_space_is_ignored_unless_typed " " sample_url
                  (Rev2.boot sample_page) eq_refl)).
Defined.

End ValidatorLaws.

(** ** Submitting a link *)

Module SubmitLaws.
Import Str Js Browser Api Events Validator Spec Laws.

(** X3.  A link the validator rejects never reaches the network: the
    submit handler only shows an error, and the button, the spinner,
    the timers of the pollers and the requests in flight stay as they
    are.  A link it accepts shows the spinner, disables the button and
    leaves one request pending. *)
Theorem startDownload_validates_locally :
  forall s : State,
    let url := trim (youtubeUrl_value (page s)) in
    let s' := Rev2.startDownload s in
    (isValidYouTubeUrl url = false ->
       pending s' = pending s /\
       pollers s' = pollers s /\
       downloadBtn (page s') = downloadBtn (page s) /\
       loadingSpinner_hidden (page s') = loadingSpinner_hidden (page s) /\
       notices (page s') =
         (notices (page s) ++
          [(next_node s, Note "error" "Please enter a valid YouTube URL")])%list) /\
    (isValidYouTubeUrl url = true ->
       pending s' = (pending s ++ [AwaitDownload])%list /\
       timers s' = timers s /\
       downloadBtn (page s') = {| disabled := true; innerHTML := Rev2.spinner_label |} /\
       loadingSpinner_hidden (page s') = false /\
       notices (page s') = notices (page s)).
Proof.
  intros s. cbn zeta. unfold Rev2.startDownload.
  destruct (trim (youtubeUrl_value (page s))) as [|c t] eqn:E.
  - split; [|discriminate]. intros _. cbn.
    unfold pollers. cbn. rewrite filter_app. cbn. rewrite app_nil_r. repeat split.
  - cbn [is_empty orb]. split; intros H; rewrite H; cbn.
    + unfold pollers. cbn. rewrite filter_app. cbn. rewrite app_nil_r. repeat split.
    + repeat split.
Qed.

Lemma startDownload_validates_locally_witness :
  isValidYouTubeUrl (trim (youtubeUrl_value (page (Rev2.boot sample_page)))) = false /\
  pending (Rev2.startDownload (Rev2.boot sample_page)) =
    pending (Rev2.boot sample_page).
Proof.
  split; [reflexivity|].
  exact (proj1 (proj1 (startDownload_validates_locally (Rev2.boot sample_page))
                  eq_refl)).
Defined.

Ltac refusal_cases :=
  repeat match goal with
         | |- context [if ?b then _ else _] => destruct b
         | |- context [match ?x with JStr _ => _ | _ => _ end] => destruct x
         end.

(** X4.  Whatever the refusal of a submission says, and also when the
    request fails, the spinner is hidden, the button is enabled again
    with its label, and neither a poller nor a job identifier nor a
    request is added.  One error notice is added as the last node; only
    the notice of a file already downloaded can come before it. *)
Theorem refused_submission_restores_the_button :
  forall (d : Download.t) (s : State),
    truthy (Download.success d) = false ->
    forall s',
      s' = Rev2.startDownload_then d s \/ s' = Rev2.startDownload_catch s ->
      downloadBtn (page s') = {| disabled := false; innerHTML := Rev2.download_label |} /\
      loadingSpinner_hidden (page s') = true /\
      pollers s' = pollers s /\
      progressInterval s' = progressInterval s /\
      currentDownloadId s' = currentDownloadId s /\
      pending s' = pending s /\
      ((exists msg,
          notices (page s') = (notices (page s) ++ [(next_node s, Note "error" msg)])%list) \/
       (exists file msg,
          notices (page s') =
            (notices (page s) ++
             [(next_node s, AlreadyDownloaded file);
              (S (next_node s), Note "error" msg)])%list)).
Proof.
  intros d s Hd s' [-> | ->].
  - unfold Rev2.startDownload_then. rewrite Hd.
    unfold Rev2.startDownload_catch, Rev2.andThen, pollers.
    refusal_cases; cbn; rewrite ?filter_app; cbn; rewrite ?app_nil_r;
      rewrite <- ?app_assoc;
      (split; [reflexivity|]); (split; [reflexivity|]); (split; [reflexivity|]);
      (split; [reflexivity|]); (split; [reflexivity|]); (split; [reflexivity|]);
      first [ left; eexists; reflexivity | right; do 2 eexists; reflexivity ].
  - unfold Rev2.startDownload_catch, Rev2.andThen, pollers.
    cbn; rewrite ?filter_app; cbn; rewrite ?app_nil_r;
      repeat (split; [reflexivity|]); left; eexists; reflexivity.
Qed.

Lemma refused_submission_restores_the_button_witness :
  truthy (Download.success (refused (JStr "Video unavailable") JUndefined)) = false /\
  disabled (downloadBtn (page
    (Rev2.startDownload_then (refused (JStr "Video unavailable") JUndefined)
       (after submitted)))) = false.
Proof.
  split; [reflexivity|].
  pose proof (proj1 (refused_submission_restores_the_button
    (refused (JStr "Video unavailable") JUndefined) (after submitted) eq_refl
    _ (or_introl eq_refl))) as H.
  rewrite H. reflexivity.
Defined.

Section WithHost.
Variable h : Host.

(** X5.  A refusal whose error is absent, null, a boolean or a
    number (a value without an [includes] method) is handled as a
    failed request: the call of [includes] throws, and the user reads
    the network error message.  This holds for the preview and for the
    submission.  The first revision, which calls no method on the
    error, shows the absent one as the text undefined.  Arrays and
    objects are not among the values of the model. *)
Theorem refusal_without_text_reads_as_network_error :
  forall (e file : Json) (s : State),
    has_no_includes e ->
    Rev2.startDownload_then (refused e file) s = Rev2.startDownload_catch s /\
    Rev2.getVideoInfo_then h (no_info e) s = Rev2.getVideoInfo_catch s /\
    (e = JUndefined ->
     alerts (page (Rev1Handlers.startDownload_then h (refused e file) s)) =
       (alerts (page s) ++ ["Error: undefined"])%list).
Proof.
  intros e file s [->|[->|[[b ->]|[x ->]]]]; repeat split; discriminate.
Qed.

(** X6.  An error text that includes none of the words the handlers
    look for is shown as it is, for the submission and for the preview. *)
Theorem plain_error_is_shown_verbatim :
  forall (e : string) (file : Json) (s : State),
    mentions sign_in_words e = false ->
    (includes e "already been downloaded" = false ->
     notices (page (Rev2.startDownload_then (refused (JStr e) file) s)) =
       (notices (page s) ++ [(next_node s, Note "error" e)])%list) /\
    (mentions ["Private"; "unavailable"; "Invalid YouTube URL"] e = false ->
     notices (page (Rev2.getVideoInfo_then h (no_info (JStr e)) s)) =
       (notices (page s) ++ [(next_node s, Note "error" e)])%list).
Proof.
  intros e file s Hm. unfold mentions, sign_in_words in *. cbn [existsb] in *.
  rewrite orb_false_r in Hm. apply orb_false_iff in Hm as [H1 Hm].
  apply orb_false_iff in Hm as [H2 H3]. split.
  - intros H4. unfold Rev2.startDownload_then, refused. cbn [Download.success
      Download.error truthy]. rewrite H1, H2, H3, H4. reflexivity.
  - intros H4. rewrite orb_false_r in H4. apply orb_false_iff in H4 as [H4 H5].
    apply orb_false_iff in H5 as [H5 H6].
    unfold Rev2.getVideoInfo_then, no_info. cbn [Info.success Info.error truthy].
    rewrite H1, H2, H3, H4, H5, H6. reflexivity.
Qed.

(** X7.  A refusal that says the video has already been downloaded
    and names the file.  When its text has none of the words taken for
    a demand to sign in, two nodes are added: the notice with the Play
    and Download buttons, removed after 8000 ms, and the error, removed
    after 5000 ms.  When it has one of them (bot is one, and so is part
    of Robot), the words are looked for first and the only node added is
    the error about authentication.  The button is enabled again in
    both cases. *)
Theorem already_downloaded_adds_two_nodes :
  forall (e file : string) (s : State),
    includes e "already been downloaded" = true ->
    let s' := Rev2.startDownload_then (refused (JStr e) (JStr file)) s in
    (mentions sign_in_words e = false ->
     notices (page s') =
       (notices (page s) ++
        [(next_node s, AlreadyDownloaded file); (S (next_node s), Note "error" e)])%list /\
     timers s' =
       (timers s ++
        [(next_handle s, Timeout 8000 (RemoveNode (next_node s)));
         (S (next_handle s), Timeout 5000 (RemoveNode (S (next_node s))))])%list /\
     downloadBtn (page s') = {| disabled := false; innerHTML := Rev2.download_label |}) /\
    (mentions sign_in_words e = true ->
     notices (page s') =
       (notices (page s) ++
        [(next_node s,
          Note "error" "YouTube is requiring authentication for this video. Some videos require cookies to download.")])%list /\
     timers s' =
       (timers s ++ [(next_handle s, Timeout 5000 (RemoveNode (next_node s)))])%list /\
     downloadBtn (page s') = {| disabled := false; innerHTML := Rev2.download_label |}).
Proof.
  intros e file s Ha. cbn zeta. unfold mentions, sign_in_words. cbn [existsb].
  rewrite orb_false_r.
  unfold Rev2.startDownload_then, refused. cbn [Download.success
    Download.error Download.existing_file Download.cookie_status truthy is_str].
  split; intros Hm.
  - rewrite orb_assoc in Hm. rewrite Hm, Ha. cbn. rewrite <- !app_assoc. repeat split.
  - rewrite orb_assoc in Hm. rewrite Hm. cbn. repeat split.
Qed.

End WithHost.

Lemma plain_error_is_shown_verbatim_witness :
  mentions sign_in_words "Quota exceeded" = false /\
  includes "Quota exceeded" "already been downloaded" = false /\
  notices (page (Rev2.startDownload_then (refused (JStr "Quota exceeded") JUndefined)
                   (Rev2.boot sample_page))) =
    [(0, Note "error" "Quota exceeded")].
Proof.
  split; [reflexivity|]. split; [reflexivity|].
  exact (proj1 (plain_error_is_shown_verbatim sample_host "Quota exceeded" JUndefined
                  (Rev2.boot sample_page) eq_refl) eq_refl).
Defined.

Lemma already_downloaded_adds_two_nodes_witness :
  includes "Robot Rock has already been downloaded" "already been downloaded" = true /\
  mentions sign_in_words "Robot Rock has already been downloaded" = true /\
  List.length (notices (page
    (Rev2.startDownload_then
       (refused (JStr "Robot Rock has already been downloaded") (JStr "a.mp3"))
       (Rev2.boot sample_page)))) = 1.
Proof.
  split; [reflexivity|]. split; [reflexivity|].
  pose proof (proj1 (proj2 (already_downloaded_adds_two_nodes
    "Robot Rock has already been downloaded" "a.mp3" (Rev2.boot sample_page)
    eq_refl) eq_refl)) as H.
  cbn zeta in H. rewrite H. reflexivity.
Defined.

Lemma refusal_without_text_reads_as_network_error_witness :
  has_no_includes JNull /\
  Rev2.startDownload_then (refused JNull JUndefined) (after submitted) =
    Rev2.startDownload_catch (after submitted).
Proof.
  assert (N : has_no_includes JNull) by (right; left; reflexivity).
  split; [exact N|].
  exact (proj1 (refusal_without_text_reads_as_network_error sample_host JNull
                  JUndefined (after submitted) N)).
Defined.

End SubmitLaws.

(** ** Sessions: well-formed states and intervals that are never stopped *)

Module SessionLaws.
Import Str Js Browser Api Events Spec Laws BrowserFacts PollerFacts.

Lemma NoDup_snoc (l : list nat) (x : nat) :
  NoDup l -> ~ In x l -> NoDup (l ++ [x]).
Proof.
  intros Hl Hx. induction Hl as [|y l Hy Hl IH]; simpl.
  - constructor; [intros []|constructor].
  - constructor.
    + intros H. apply in_app_or in H as [H|[H|[]]]; [tauto|].
      apply Hx. left. congruence.
    + apply IH. intros H. apply Hx. right. exact H.
Qed.

Lemma NoDup_map_filter {A : Type} (f : nat * A -> bool) (l : list (nat * A)) :
  NoDup (map fst l) -> NoDup (map fst (filter f l)).
Proof.
  induction l as [|e l IH]; simpl; intros H; [constructor|].
  inversion H as [|x l' Hx Hl]; subst.
  destruct (f e); simpl; [constructor|]; auto.
  intros Hin. apply Hx. apply in_map_iff in Hin as (e' & E & He').
  apply in_map_iff. exists e'. split; [exact E|].
  apply filter_In in He'. tauto.
Qed.

Lemma fresh_not_In {A : Type} (l : list (nat * A)) (n : nat) :
  (forall e, In e l -> fst e < n) -> ~ In n (map fst l).
Proof.
  intros H Hin. apply in_map_iff in Hin as (e & E & He).
  specialize (H e He). lia.
Qed.

Lemma find_timer_In (hd : nat) (t : Timer) (l : list (nat * Timer)) :
  NoDup (map fst l) -> In (hd, t) l -> find_timer hd l = Some t.
Proof.
  induction l as [|[h' t'] l IH]; simpl; intros Hn Hin; [tauto|].
  inversion Hn as [|x l' Hx Hl]; subst.
  destruct Hin as [E|Hin].
  - injection E as -> ->. rewrite Nat.eqb_refl. reflexivity.
  - destruct (Nat.eqb_spec h' hd) as [->|N]; [|apply IH; assumption].
    exfalso. apply Hx. apply in_map_iff. exists (hd, t). split; [reflexivity|exact Hin].
Qed.

Lemma find_timer_Some (hd : nat) (t : Timer) (l : list (nat * Timer)) :
  find_timer hd l = Some t -> In (hd, t) l.
Proof.
  induction l as [|[h' t'] l IH]; simpl; [discriminate|].
  destruct (Nat.eqb_spec h' hd) as [->|N].
  - intros [= ->]. left. reflexivity.
  - intros H. right. apply IH, H.
Qed.

Lemma find_timer_fresh (hd : nat) (l : list (nat * Timer)) :
  ~ In hd (map fst l) -> find_timer hd l = None.
Proof.
  induction l as [|[h' t'] l IH]; simpl; intros H; [reflexivity|].
  destruct (Nat.eqb_spec h' hd) as [->|N]; [tauto|]. apply IH. tauto.
Qed.

Lemma In_drop_timer (hd : nat) (e : nat * Timer) (l : list (nat * Timer)) :
  In e l -> fst e <> hd -> In e (drop_timer hd l).
Proof.
  intros He Hn. apply filter_In. split; [exact He|].
  apply negb_true_iff, Nat.eqb_neq, Hn.
Qed.

(** Handles are issued in increasing order, so a timer that is new has a
    handle no retired one has. *)
Lemma stays_retired_grow (s s' : State) :
  next_handle s <= next_handle s' ->
  (forall hd, In hd (map fst (timers s')) ->
     In hd (map fst (timers s)) \/ next_handle s <= hd) ->
  stays_retired s s'.
Proof.
  intros Hle Hin hd [Hlt Hn]. split; [lia|].
  intros H. destruct (Hin hd H) as [H'|H']; [tauto|lia].
Qed.

Lemma stays_retired_snoc (s s' : State) (t : Timer) :
  timers s' = (timers s ++ [(next_handle s, t)])%list ->
  next_handle s' = S (next_handle s) ->
  stays_retired s s'.
Proof.
  intros Ht Hh. apply stays_retired_grow; [lia|].
  intros hd. rewrite Ht, map_app. intros H.
  apply in_app_or in H as [H|[<-|[]]]; [left; exact H | right; simpl; lia].
Qed.

Lemma stays_retired_drop (hd : nat) (s s' : State) :
  timers s' = drop_timer hd (timers s) ->
  next_handle s' = next_handle s ->
  stays_retired s s'.
Proof.
  intros Ht Hh. apply stays_retired_grow; [lia|].
  intros hd'. rewrite Ht. intros H. left.
  apply in_map_iff in H as (e & E & He). apply filter_In in He as [He _].
  apply in_map_iff. exists e. tauto.
Qed.

Lemma stays_retired_same (s s' : State) :
  timers s' = timers s -> next_handle s' = next_handle s -> stays_retired s s'.
Proof.
  intros Ht Hh. apply stays_retired_grow; [lia|].
  intros hd. rewrite Ht. tauto.
Qed.

Lemma sound_refl (s : State) : sound s s.
Proof.
  intros W. split; [exact W|]. split; [intros hd ms cb; tauto | intros hd; tauto].
Qed.

Lemma sound_trans (a b c : State) : sound a b -> sound b c -> sound a c.
Proof.
  intros Hab Hbc W. destruct (Hab W) as (Wb & Kab & Rab).
  destruct (Hbc Wb) as (Wc & Kbc & Rbc).
  split; [exact Wc|]. split.
  - intros hd ms cb Hin Hs.
    destruct (Kab hd ms cb Hin Hs) as [Hin' Hs']. apply (Kbc hd ms cb Hin' Hs').
  - intros hd H. apply Rbc, Rab, H.
Qed.

Lemma safe_same : safe (fun s => s).
Proof. intros s. apply sound_refl. Qed.

Lemma safe_andThen (f g : State -> State) :
  safe f -> safe g -> safe (Rev2.andThen f g).
Proof. intros Hf Hg s. eapply sound_trans; [apply Hf | apply Hg]. Qed.

(** A state with the same timers, nodes, counters and handle kept. *)
Lemma sound_same_parts (s s' : State) :
  timers s' = timers s -> next_handle s' = next_handle s ->
  next_node s' = next_node s -> notices (page s') = notices (page s) ->
  progressInterval s' = progressInterval s ->
  sound s s'.
Proof.
  intros Ht Hh Hn Hp Hs (N1 & B1 & N2 & B2 & I).
  split; [|split].
  - unfold well_formed, issued. rewrite Ht, Hh, Hn, Hp, Hs. tauto.
  - intros hd ms cb. rewrite Ht, Hs. tauto.
  - apply stays_retired_same; assumption.
Qed.

Lemma safe_on_page (f : Page -> Page) :
  (forall p, notices (f p) = notices p) -> safe (on_page f).
Proof. intros Hf s. apply sound_same_parts; try reflexivity. apply Hf. Qed.

Lemma safe_await (p : Pending) : safe (await p).
Proof. intros s. apply sound_same_parts; reflexivity. Qed.

Lemma safe_console_error (msg : string) : safe (console_error msg).
Proof. intros s. apply sound_same_parts; reflexivity. Qed.

Lemma safe_set_currentDownloadId (v : Json) : safe (set_currentDownloadId v).
Proof. intros s. apply sound_same_parts; reflexivity. Qed.

Lemma sound_set_pending (l : list Pending) (s : State) : sound s (set_pending l s).
Proof. apply sound_same_parts; reflexivity. Qed.

Lemma safe_setTimeout (cb : Callback) (ms : N) : safe (setTimeout cb ms).
Proof.
  intros s (N1 & B1 & N2 & B2 & I). split; [repeat split|split].
  - cbn. rewrite map_app. apply NoDup_snoc; [exact N1|].
    apply fresh_not_In, B1.
  - cbn. intros e He. apply in_app_or in He as [He|[<-|[]]]; [|simpl; lia].
    specialize (B1 e He). lia.
  - exact N2.
  - exact B2.
  - intros hd Hhd. cbn in *. specialize (I hd Hhd). lia.
  - intros hd ms' cb' Hin Hs. cbn. split; [apply in_or_app; left; exact Hin | exact Hs].
  - eapply stays_retired_snoc; reflexivity.
Qed.

Lemma sound_drop (hd : nat) (s : State) :
  (forall ms cb, In (hd, Interval ms cb) (timers s) -> progressInterval s = Some hd) ->
  sound s (set_timers (drop_timer hd (timers s)) s).
Proof.
  intros Hhd (N1 & B1 & N2 & B2 & I). split; [repeat split|split].
  - cbn. apply NoDup_map_filter, N1.
  - cbn. intros e He. apply filter_In in He as [He _]. apply B1, He.
  - exact N2.
  - exact B2.
  - exact I.
  - intros hd' ms cb Hin Hs. cbn. split; [|exact Hs].
    apply In_drop_timer; [exact Hin|]. simpl. intros ->.
    apply Hs, (Hhd ms cb Hin).
  - eapply stays_retired_drop; reflexivity.
Qed.

Lemma safe_clearInterval : safe (fun s => clearInterval (progressInterval s) s).
Proof.
  intros s. unfold clearInterval. destruct (progressInterval s) as [hd|] eqn:E.
  - apply sound_drop. intros ms cb _. exact E.
  - apply sound_refl.
Qed.

(** A timeout that fires is removed. *)
Lemma sound_timeout (hd : nat) (ms : N) (cb : Callback) (s : State) :
  find_timer hd (timers s) = Some (Timeout ms cb) ->
  sound s (set_timers (drop_timer hd (timers s)) s).
Proof.
  intros Hf W. apply sound_drop; [|exact W].
  intros ms' cb' Hin. destruct W as (N1 & _).
  rewrite (find_timer_In hd _ _ N1 Hin) in Hf. discriminate.
Qed.

Lemma safe_appendToBody (n : Notice) : safe (Rev2.appendToBody n).
Proof.
  intros s (N1 & B1 & N2 & B2 & I). split; [repeat split|split].
  - exact N1.
  - exact B1.
  - cbn. rewrite map_app. apply NoDup_snoc; [exact N2|].
    apply fresh_not_In, B2.
  - cbn. intros e He. apply in_app_or in He as [He|[<-|[]]]; [|simpl; lia].
    specialize (B2 e He). lia.
  - exact I.
  - intros hd ms cb Hin Hs. cbn. tauto.
  - apply stays_retired_same; reflexivity.
Qed.

Lemma safe_removeNode (node : nat) :
  safe (on_page (fun p =>
    set_notices (filter (fun e => negb (Nat.eqb (fst e) node)) (notices p)) p)).
Proof.
  intros s (N1 & B1 & N2 & B2 & I). split; [repeat split|split].
  - exact N1.
  - exact B1.
  - cbn. apply NoDup_map_filter, N2.
  - cbn. intros e He. apply filter_In in He as [He _]. apply B2, He.
  - exact I.
  - intros hd ms cb Hin Hs. cbn. tauto.
  - apply stays_retired_same; reflexivity.
Qed.

Lemma safe_showNotification (msg type : string) : safe (Rev2.showNotification msg type).
Proof.
  intros s. unfold Rev2.showNotification.
  eapply sound_trans; [apply safe_appendToBody | apply safe_setTimeout].
Qed.

Lemma safe_showAlreadyDownloaded (filename : string) :
  safe (Rev2.showAlreadyDownloaded filename).
Proof.
  intros s. unfold Rev2.showAlreadyDownloaded.
  eapply sound_trans; [apply safe_appendToBody | apply safe_setTimeout].
Qed.

(** The new interval gets a new handle, which becomes the one kept. *)
Lemma safe_monitorProgress : safe Rev2.monitorProgress.
Proof.
  intros s (N1 & B1 & N2 & B2 & I). split; [repeat split|split].
  - cbn. rewrite map_app. apply NoDup_snoc; [exact N1|].
    apply fresh_not_In, B1.
  - cbn. intros e He. apply in_app_or in He as [He|[<-|[]]]; [|simpl; lia].
    specialize (B1 e He). lia.
  - exact N2.
  - exact B2.
  - intros hd. cbn. intros [= <-]. lia.
  - intros hd ms cb Hin Hs. cbn. split; [apply in_or_app; left; exact Hin|].
    intros [= E]. specialize (B1 _ Hin). simpl in B1. lia.
  - eapply stays_retired_snoc; reflexivity.
Qed.

Ltac safely :=
  repeat
    match goal with
    | |- safe (Rev2.andThen _ _) => apply safe_andThen
    | |- safe (on_page (fun p => set_notices _ p)) => apply safe_removeNode
    | |- safe (on_page _) => apply safe_on_page; intros; reflexivity
    | |- safe (await _) => apply safe_await
    | |- safe (console_error _) => apply safe_console_error
    | |- safe (setTimeout _ _) => apply safe_setTimeout
    | |- safe (set_currentDownloadId _) => apply safe_set_currentDownloadId
    | |- safe (fun s => clearInterval (progressInterval s) s) =>
        apply safe_clearInterval
    | |- safe (Rev2.showNotification _ _) => apply safe_showNotification
    | |- safe (Rev2.showAlreadyDownloaded _) => apply safe_showAlreadyDownloaded
    | |- safe Rev2.monitorProgress => apply safe_monitorProgress
    | |- safe (fun s => s) => apply safe_same
    | |- safe (if ?b then _ else _) => destruct b
    | |- safe (match ?x with JStr _ => _ | _ => _ end) => destruct x
    | |- safe (match ?x with Some _ => _ | None => _ end) => destruct x
    | |- safe (match ?x with nil => _ | cons _ _ => _ end) => destruct x
    end.

Ltac as_safe :=
  match goal with
  | |- sound ?s (?f ?s) => revert s; change (safe f)
  end.

Section WithHost.
Variable h : Host.

Lemma safe_getVideoInfo (url : string) : safe (Rev2.getVideoInfo url).
Proof. unfold Rev2.getVideoInfo, Rev2.showLoading. safely. Qed.

Lemma safe_handleUrlInput (value : string) : safe (Rev2.handleUrlInput value).
Proof.
  unfold Rev2.handleUrlInput, Rev2.hideVideoInfo. safely. apply safe_getVideoInfo.
Qed.

Lemma safe_getVideoInfo_catch : safe Rev2.getVideoInfo_catch.
Proof. unfold Rev2.getVideoInfo_catch, Rev2.hideLoading, Rev2.showError. safely. Qed.

Lemma safe_getVideoInfo_then (d : Info.t) : safe (Rev2.getVideoInfo_then h d).
Proof.
  pose proof safe_getVideoInfo_catch.
  unfold Rev2.getVideoInfo_then, Rev2.hideLoading, Rev2.showError,
    Rev2.displayVideoInfo.
  safely; assumption.
Qed.

Lemma safe_startDownload : safe Rev2.startDownload.
Proof.
  intros s. unfold Rev2.startDownload.
  destruct (_ || _).
  - apply safe_showNotification.
  - as_safe. unfold Rev2.showLoading. safely.
Qed.

Lemma safe_startDownload_catch : safe Rev2.startDownload_catch.
Proof.
  unfold Rev2.startDownload_catch, Rev2.hideLoading, Rev2.showError,
    Rev2.enable_downloadBtn. safely.
Qed.

Lemma safe_startDownload_then (d : Download.t) : safe (Rev2.startDownload_then d).
Proof.
  pose proof safe_startDownload_catch.
  unfold Rev2.startDownload_then, Rev2.hideLoading, Rev2.showError, Rev2.showSuccess,
    Rev2.enable_downloadBtn.
  safely; assumption.
Qed.

Lemma safe_poll_then (r : Progress.t) : safe (Rev2.poll_then h r).
Proof.
  unfold Rev2.poll_then, Rev2.updateProgress, Rev2.showError, Rev2.showSuccess,
    Rev2.loadDownloads, Rev2.enable_downloadBtn. safely.
Qed.

Lemma safe_loadDownloads_then (d : Listing.t) : safe (Rev2.loadDownloads_then h d).
Proof. unfold Rev2.loadDownloads_then, Rev2.displayDownloads. safely. Qed.

Lemma safe_deleteFile_then (filename : string) (d : Deletion.t) :
  safe (Rev2.deleteFile_then h filename d).
Proof.
  unfold Rev2.deleteFile_then, Rev2.showSuccess, Rev2.showError, Rev2.loadDownloads.
  safely. intros s. destruct (includes _ _); [|apply sound_refl].
  as_safe. unfold Rev2.stopAudio. safely.
Qed.

Lemma safe_run_callback (cb : Callback) : safe (Rev2.run_callback h cb).
Proof.
  destruct cb; cbn [Rev2.run_callback].
  - intros s. apply sound_set_pending.
  - unfold Rev2.resetProgress, Rev2.hideProgressSection. safely.
  - safely.
  - unfold Rev2.loadDownloads. safely.
  - apply safe_getVideoInfo.
Qed.

Lemma sound_settled (p : Pending) (k : State -> State) (s s' : State) :
  safe k -> Rev2.settled p k s = Some s' -> sound s s'.
Proof.
  intros Hk. unfold Rev2.settled. destruct (settle p (pending s)); [|discriminate].
  intros [= <-]. eapply sound_trans; [apply sound_set_pending | apply Hk].
Qed.

(** Every event leads from a well-formed state to a well-formed state
    and stops no interval but the one whose handle is kept. *)
Lemma step_sound (e : Event) (s s' : State) :
  Rev2.step h e s = Some s' -> sound s s'.
Proof.
  destruct e; cbn [Rev2.step];
    try (apply sound_settled; clear s s').
  - intros [= <-]. as_safe. unfold Rev2.handlePaste. safely.
  - intros [= <-].
    apply (sound_trans _ (on_page (set_youtubeUrl_value value) s)).
    + apply safe_on_page. reflexivity.
    + apply safe_handleUrlInput.
  - intros [= <-]. apply safe_startDownload.
  - unfold Rev2.fire. destruct (find_timer handle (timers s)) as [[ms cb|ms cb]|] eqn:F;
      [| |discriminate]; intros [= <-].
    + apply safe_run_callback.
    + eapply sound_trans; [apply (sound_timeout _ _ _ _ F) | apply safe_run_callback].
  - unfold Rev2.checkClipboard_then. safely. apply safe_getVideoInfo.
  - safely.
  - unfold Rev2.checkCookieStatus_then. safely.
  - safely.
  - apply safe_getVideoInfo_then.
  - apply safe_getVideoInfo_catch.
  - apply safe_startDownload_then.
  - apply safe_startDownload_catch.
  - apply safe_poll_then.
  - unfold Rev2.poll_catch. safely.
  - apply safe_loadDownloads_then.
  - unfold Rev2.loadDownloads_catch. safely.
  - intros [= <-]. as_safe. unfold Rev2.playAudio, Rev2.showSuccess. safely.
  - intros [= <-]. as_safe. unfold Rev2.stopAudio. safely.
  - intros [= <-]. apply safe_await.
  - unfold Rev2.downloadFile_then, Rev2.showSuccess, Rev2.showError. safely.
  - unfold Rev2.downloadFile_catch, Rev2.showError. safely.
  - intros [= <-]. as_safe. unfold Rev2.deleteFile. safely.
  - apply safe_deleteFile_then.
  - unfold Rev2.deleteFile_catch, Rev2.showError. safely.
  - safely.
  - unfold Rev2.playAudio_catch, Rev2.showError. safely.
  - destruct (paused _); [discriminate|]. intros [= <-]. as_safe. safely.
  - destruct (Rev2.is_note _ _); [|discriminate]. intros [= <-].
    apply safe_removeNode.
Qed.

Lemma run_sound (tr : list Event) (s s' : State) :
  Rev2.run h tr s = Some s' -> sound s s'.
Proof.
  revert s. induction tr as [|e tr IH]; intros s; cbn [Rev2.run].
  - intros [= <-]. apply sound_refl.
  - destruct (Rev2.step h e s) as [s1|] eqn:E; [|discriminate].
    intros H. eapply sound_trans; [apply (step_sound e s s1 E) | apply IH, H].
Qed.

End WithHost.

Lemma boot_well_formed (p : Page) : notices p = [] -> well_formed (Rev2.boot p).
Proof.
  intros Hp. unfold well_formed. cbn. rewrite Hp. repeat split.
  - constructor; [intros []|constructor].
  - intros e [<-|[]]. simpl. lia.
  - constructor.
  - intros e [].
  - intros hd. discriminate.
Qed.

Lemma reachable_well_formed (h : Host) (p : Page) (tr : list Event) (s : State) :
  notices p = [] -> Rev2.run h tr (Rev2.boot p) = Some s -> well_formed s.
Proof.
  intros Hp Hr. apply (run_sound h tr _ s Hr), boot_well_formed, Hp.
Qed.

Lemma filter_snoc_fresh {A : Type} (n : nat) (x : A) (l : list (nat * A)) :
  ~ In n (map fst l) ->
  filter (fun e => negb (Nat.eqb (fst e) n)) (l ++ [(n, x)]) = l.
Proof.
  intros H. rewrite filter_app. cbn [filter fst]. rewrite Nat.eqb_refl. cbn [negb].
  rewrite app_nil_r. induction l as [|e l IH]; [reflexivity|].
  cbn [filter]. destruct (Nat.eqb_spec (fst e) n) as [E|N].
  - exfalso. apply H. left. exact E.
  - cbn [negb]. f_equal. apply IH. intros Hin. apply H. right. exact Hin.
Qed.

Lemma filter_absent {A : Type} (n : nat) (l : list (nat * A)) :
  ~ In n (map fst l) ->
  filter (fun e => negb (Nat.eqb (fst e) n)) l = l.
Proof.
  intros H. induction l as [|e l IH]; [reflexivity|].
  cbn [filter]. destruct (Nat.eqb_spec (fst e) n) as [E|N].
  - exfalso. apply H. left. exact E.
  - cbn [negb]. f_equal. apply IH. intros Hin. apply H. right. exact Hin.
Qed.

Lemma find_timer_snoc_fresh (hd : nat) (t : Timer) (l : list (nat * Timer)) :
  ~ In hd (map fst l) -> find_timer hd (l ++ [(hd, t)]) = Some t.
Proof.
  induction l as [|[h' t'] l IH]; cbn [find_timer app map fst]; intros H.
  - rewrite Nat.eqb_refl. reflexivity.
  - destruct (Nat.eqb_spec h' hd) as [E|N]; [exfalso; apply H; left; exact E|].
    apply IH. intros Hin. apply H. right. exact Hin.
Qed.

Lemma is_note_snoc (n : nat) (type msg : string) (p : Page) (l : list (nat * Notice)) :
  notices p = (l ++ [(n, Note type msg)])%list -> Rev2.is_note n p = true.
Proof.
  intros E. unfold Rev2.is_note. rewrite E, existsb_app. cbn.
  rewrite Nat.eqb_refl. apply orb_true_r.
Qed.

(** The timers that are left when one that is not a poller is dropped. *)
Lemma pollers_drop_timeout (hd : nat) (ms : N) (cb : Callback) (l : list (nat * Timer)) :
  NoDup (map fst l) -> find_timer hd l = Some (Timeout ms cb) ->
  filter is_poller (drop_timer hd l) = filter is_poller l.
Proof.
  induction l as [|[h' t'] l IH]; [reflexivity|].
  cbn [map fst find_timer]. intros Hn. inversion Hn as [|x l' Hx Hl]; subst.
  unfold drop_timer. cbn [filter fst].
  destruct (Nat.eqb_spec h' hd) as [->|N]; cbn [negb].
  - intros [= ->]. cbn [filter is_poller snd]. f_equal.
    rewrite (filter_absent hd l Hx). reflexivity.
  - intros Hf. cbn [filter]. unfold drop_timer in IH. rewrite (IH Hl Hf). reflexivity.
Qed.

(** *** What leaves the job identifier alone *)

Lemma same_job_same : same_job (fun s => s).
Proof. intros s. reflexivity. Qed.

Lemma same_job_andThen (f g : State -> State) :
  same_job f -> same_job g -> same_job (Rev2.andThen f g).
Proof. intros Hf Hg s. unfold Rev2.andThen. rewrite Hg. apply Hf. Qed.

Lemma same_job_on_page (f : Page -> Page) : same_job (on_page f).
Proof. intros s. reflexivity. Qed.

Lemma same_job_await (p : Pending) : same_job (await p).
Proof. intros s. reflexivity. Qed.

Lemma same_job_console_error (msg : string) : same_job (console_error msg).
Proof. intros s. reflexivity. Qed.

Lemma same_job_setTimeout (cb : Callback) (ms : N) : same_job (setTimeout cb ms).
Proof. intros s. reflexivity. Qed.

Lemma same_job_clearInterval : same_job (fun s => clearInterval (progressInterval s) s).
Proof. intros s. destruct (progressInterval s) eqn:E; cbn; rewrite ?E; reflexivity. Qed.

Lemma same_job_showNotification (msg type : string) :
  same_job (Rev2.showNotification msg type).
Proof. intros s. reflexivity. Qed.

Lemma same_job_showAlreadyDownloaded (filename : string) :
  same_job (Rev2.showAlreadyDownloaded filename).
Proof. intros s. reflexivity. Qed.

Ltac steadily :=
  repeat
    match goal with
    | |- same_job (Rev2.andThen _ _) => apply same_job_andThen
    | |- same_job (on_page _) => apply same_job_on_page
    | |- same_job (await _) => apply same_job_await
    | |- same_job (console_error _) => apply same_job_console_error
    | |- same_job (setTimeout _ _) => apply same_job_setTimeout
    | |- same_job (fun s => clearInterval (progressInterval s) s) =>
        apply same_job_clearInterval
    | |- same_job (Rev2.showNotification _ _) => apply same_job_showNotification
    | |- same_job (Rev2.showAlreadyDownloaded _) => apply same_job_showAlreadyDownloaded
    | |- same_job (fun s => s) => apply same_job_same
    | |- same_job (if ?b then _ else _) => destruct b
    | |- same_job (match ?x with JStr _ => _ | _ => _ end) => destruct x
    | |- same_job (match ?x with Some _ => _ | None => _ end) => destruct x
    | |- same_job (match ?x with nil => _ | cons _ _ => _ end) => destruct x
    end.

Ltac as_same_job :=
  match goal with
  | |- currentDownloadId (?f ?s) = currentDownloadId ?s => revert s; change (same_job f)
  end.

Section Steady.
Variable h : Host.

Lemma same_job_getVideoInfo (url : string) : same_job (Rev2.getVideoInfo url).
Proof. unfold Rev2.getVideoInfo, Rev2.showLoading. steadily. Qed.

Lemma same_job_getVideoInfo_catch : same_job Rev2.getVideoInfo_catch.
Proof. unfold Rev2.getVideoInfo_catch, Rev2.hideLoading, Rev2.showError. steadily. Qed.

Lemma same_job_startDownload_catch : same_job Rev2.startDownload_catch.
Proof.
  unfold Rev2.startDownload_catch, Rev2.hideLoading, Rev2.showError,
    Rev2.enable_downloadBtn. steadily.
Qed.

Lemma same_job_run_callback (cb : Callback) :
  cb <> ResetProgress -> same_job (Rev2.run_callback h cb).
Proof.
  intros Hcb. destruct cb; cbn [Rev2.run_callback]; [|congruence| | |].
  - intros s. reflexivity.
  - steadily.
  - unfold Rev2.loadDownloads. steadily.
  - apply same_job_getVideoInfo.
Qed.

Lemma same_job_settled (p : Pending) (k : State -> State) (s s' : State) :
  same_job k -> Rev2.settled p k s = Some s' ->
  currentDownloadId s' = currentDownloadId s.
Proof.
  intros Hk. unfold Rev2.settled. destruct (settle p (pending s)); [|discriminate].
  intros [= <-]. rewrite Hk. reflexivity.
Qed.

(** No event but an accepted submission and a reset changes the job
    identifier. *)
Lemma step_same_job (e : Event) (s s' : State) :
  changes_job s e = false ->
  Rev2.step h e s = Some s' ->
  currentDownloadId s' = currentDownloadId s.
Proof.
  pose proof same_job_getVideoInfo_catch as G.
  pose proof same_job_startDownload_catch as D.
  destruct e; cbn [Rev2.step changes_job]; intros Hc;
    try (apply same_job_settled; clear s s').
  - intros [= <-]. as_same_job. unfold Rev2.handlePaste. steadily.
  - intros [= <-].
    change (currentDownloadId s)
      with (currentDownloadId (on_page (set_youtubeUrl_value value) s)).
    generalize (on_page (set_youtubeUrl_value value) s). intros s0. as_same_job.
    unfold Rev2.handleUrlInput, Rev2.hideVideoInfo. steadily.
    apply same_job_getVideoInfo.
  - intros [= <-]. unfold Rev2.startDownload. destruct (_ || _); [reflexivity|].
    as_same_job. unfold Rev2.showLoading. steadily.
  - unfold Rev2.fire.
    destruct (find_timer handle (timers s)) as [[ms cb|ms cb]|]; [| |discriminate];
      intros [= <-]; rewrite same_job_run_callback; try reflexivity;
      intros ->; discriminate Hc.
  - unfold Rev2.checkClipboard_then. steadily. apply same_job_getVideoInfo.
  - steadily.
  - unfold Rev2.checkCookieStatus_then. steadily.
  - steadily.
  - unfold Rev2.getVideoInfo_then, Rev2.hideLoading, Rev2.showError,
      Rev2.displayVideoInfo. steadily; assumption.
  - exact G.
  - unfold Rev2.startDownload_then, Rev2.hideLoading, Rev2.showError,
      Rev2.enable_downloadBtn. rewrite Hc. steadily; assumption.
  - exact D.
  - unfold Rev2.poll_then, Rev2.updateProgress, Rev2.showError, Rev2.showSuccess,
      Rev2.loadDownloads, Rev2.enable_downloadBtn. steadily.
  - unfold Rev2.poll_catch. steadily.
  - unfold Rev2.loadDownloads_then, Rev2.displayDownloads. steadily.
  - unfold Rev2.loadDownloads_catch. steadily.
  - intros [= <-]. as_same_job. unfold Rev2.playAudio, Rev2.showSuccess. steadily.
  - intros [= <-]. reflexivity.
  - intros [= <-]. reflexivity.
  - unfold Rev2.downloadFile_then, Rev2.showSuccess, Rev2.showError. steadily.
  - unfold Rev2.downloadFile_catch, Rev2.showError. steadily.
  - intros [= <-]. as_same_job. unfold Rev2.deleteFile. steadily.
  - unfold Rev2.deleteFile_then, Rev2.showSuccess, Rev2.showError, Rev2.loadDownloads.
    steadily. intros s. destruct (includes _ _); reflexivity.
  - unfold Rev2.deleteFile_catch, Rev2.showError. steadily.
  - steadily.
  - unfold Rev2.playAudio_catch, Rev2.showError. steadily.
  - destruct (paused _); [discriminate|]. intros [= <-]. reflexivity.
  - destruct (Rev2.is_note _ _); [|discriminate]. intros [= <-]. reflexivity.
Qed.

Lemma steady_run_same_job (tr : list Event) (s s' : State) :
  steady_run h tr s = Some s' -> currentDownloadId s' = currentDownloadId s.
Proof.
  revert s. induction tr as [|e tr IH]; intros s; cbn [steady_run].
  - intros [= <-]. reflexivity.
  - destruct (changes_job s e) eqn:C; [discriminate|].
    destruct (Rev2.step h e s) as [s1|] eqn:E; [|discriminate].
    intros H. rewrite (IH _ H). apply (step_same_job e s s1 C E).
Qed.

(** A steady run is a run. *)
Lemma steady_run_run (tr : list Event) (s s' : State) :
  steady_run h tr s = Some s' -> Rev2.run h tr s = Some s'.
Proof.
  revert s. induction tr as [|e tr IH]; intros s; cbn [steady_run Rev2.run].
  - tauto.
  - destruct (changes_job s e); [discriminate|].
    destruct (Rev2.step h e s) as [s1|]; [apply IH | discriminate].
Qed.

End Steady.

Section Laws.
Variable h : Host.

(** X8. A notification is one more node with one more timer, a
    timeout of 5000 ms that removes the node.  When the timer fires, the
    nodes and the timers are as they were before the notification; when
    the close button of the notification is used first, the timer still
    fires and finds nothing to remove. *)
Theorem notification_is_removed_once (msg type : string) (s : State) :
  well_formed s ->
  (notices (page (Rev2.showNotification msg type s)) =
     (notices (page s) ++ [(next_node s, Note type msg)])%list /\
   timers (Rev2.showNotification msg type s) =
     (timers s ++ [(next_handle s, Timeout 5000 (RemoveNode (next_node s)))])%list) /\
  (exists s',
     Rev2.step h (Fire (next_handle s)) (Rev2.showNotification msg type s) = Some s' /\
     notices (page s') = notices (page s) /\ timers s' = timers s) /\
  (exists s1 s2,
     Rev2.step h (CloseNotice (next_node s)) (Rev2.showNotification msg type s)
       = Some s1 /\
     notices (page s1) = notices (page s) /\
     Rev2.step h (Fire (next_handle s)) s1 = Some s2 /\
     notices (page s2) = notices (page s) /\ timers s2 = timers s).
Proof.
  intros (N1 & B1 & N2 & B2 & I).
  pose proof (fresh_not_In _ _ B1) as F1. pose proof (fresh_not_In _ _ B2) as F2.
  split; [split; reflexivity|]. split.
  - cbn [Rev2.step]. unfold Rev2.fire.
    change (timers (Rev2.showNotification msg type s))
      with (timers s ++ [(next_handle s, Timeout 5000 (RemoveNode (next_node s)))])%list.
    rewrite (find_timer_snoc_fresh _ _ _ F1). eexists. split; [reflexivity|].
    cbn. split; [apply filter_snoc_fresh, F2|].
    unfold drop_timer. apply filter_snoc_fresh, F1.
  - cbn [Rev2.step].
    rewrite (is_note_snoc (next_node s) type msg
               (page (Rev2.showNotification msg type s)) (notices (page s)) eq_refl).
    eexists. eexists. split; [reflexivity|]. cbn [Rev2.run_callback].
    split; [cbn; apply filter_snoc_fresh, F2|].
    unfold Rev2.fire.
    change (timers (on_page _ (Rev2.showNotification msg type s)))
      with (timers s ++ [(next_handle s, Timeout 5000 (RemoveNode (next_node s)))])%list.
    rewrite (find_timer_snoc_fresh _ _ _ F1).
    split; [reflexivity|]. cbn.
    rewrite (filter_snoc_fresh _ _ _ F2).
    split; [apply filter_absent, F2|].
    unfold drop_timer. apply filter_snoc_fresh, F1.
Qed.

(** X9. The interval that reloads the list of downloads every thirty
    seconds, set when the page is loaded, is never stopped: in every
    state a session reaches it can fire, and it requests the list. *)
Theorem refresh_interval_is_never_stopped (p : Page) (tr : list Event) (s : State) :
  notices p = [] ->
  Rev2.run h tr (Rev2.boot p) = Some s ->
  find_timer 1 (timers s) = Some (Interval 30000 RefreshDownloads) /\
  Rev2.step h (Fire 1) s = Some (Rev2.loadDownloads s).
Proof.
  intros Hp Hr.
  destruct (run_sound h tr _ s Hr (boot_well_formed p Hp)) as (W & K & _).
  assert (F : find_timer 1 (timers s) = Some (Interval 30000 RefreshDownloads)).
  { apply find_timer_In; [apply W|].
    apply (K 1 30000%N RefreshDownloads); [left; reflexivity | discriminate]. }
  split; [exact F|]. cbn [Rev2.step]. unfold Rev2.fire. rewrite F. reflexivity.
Qed.

(** X10. When a submission is accepted while the handle of an earlier
    poll interval is kept, that interval is left running and nothing
    that happens afterwards stops it. *)
Theorem poller_left_behind_is_never_stopped
    (d : Download.t) (s s1 : State) (old : nat) (ms : N) :
  well_formed s ->
  progressInterval s = Some old ->
  In (old, Interval ms PollProgress) (timers s) ->
  truthy (Download.success d) = true ->
  Rev2.step h (DownloadReply d) s = Some s1 ->
  forall tr s', Rev2.run h tr s1 = Some s' ->
    find_timer old (timers s') = Some (Interval ms PollProgress) /\
    progressInterval s' <> Some old.
Proof.
  intros W Hs Hin Hd Hstep tr s' Hr.
  destruct (step_sound h _ _ _ Hstep W) as (W1 & _ & _).
  assert (H1 : In (old, Interval ms PollProgress) (timers s1)
               /\ progressInterval s1 <> Some old).
  { cbn [Rev2.step] in Hstep. unfold Rev2.settled in Hstep.
    destruct (settle AwaitDownload (pending s)) as [l|]; [|discriminate].
    injection Hstep as <-. unfold Rev2.startDownload_then. rewrite Hd. cbn.
    split; [apply in_or_app; left; apply in_or_app; left; exact Hin|].
    intros [= E]. destruct W as (_ & _ & _ & _ & I). specialize (I old Hs). lia. }
  destruct (run_sound h tr _ _ Hr W1) as (W' & K & _).
  destruct (K old ms PollProgress (proj1 H1) (proj2 H1)) as [Hin' Hs'].
  split; [|exact Hs']. apply find_timer_In; [apply W' | exact Hin'].
Qed.

(** X11. From the moment a submission is accepted until another one
    is accepted or a reset fires, every poll interval that fires,
    whichever submission started it, requests the progress of the job
    that was accepted. *)
Theorem every_poller_asks_for_the_latest_job
    (d : Download.t) (s s1 : State) (tr : list Event) (s2 : State) (hd : nat) (ms : N) :
  truthy (Download.success d) = true ->
  Rev2.step h (DownloadReply d) s = Some s1 ->
  steady_run h tr s1 = Some s2 ->
  find_timer hd (timers s2) = Some (Interval ms PollProgress) ->
  Rev2.run h tr s1 = Some s2 /\
  exists s3,
    Rev2.step h (Fire hd) s2 = Some s3 /\
    pending s3 =
      (pending s2 ++ [AwaitProgress ("/progress/" ++ ToString h (Download.download_id d))])%list.
Proof.
  intros Hd Hstep Hrun Hf. split; [apply steady_run_run, Hrun|].
  cbn [Rev2.step]. unfold Rev2.fire. rewrite Hf.
  eexists. split; [reflexivity|].
  cbn [Rev2.run_callback]. unfold Rev2.poll, await. cbn [pending set_pending].
  rewrite (steady_run_same_job h tr s1 s2 Hrun).
  cbn [Rev2.step] in Hstep. unfold Rev2.settled in Hstep.
  destruct (settle AwaitDownload (pending s)) as [l|]; [|discriminate].
  injection Hstep as <-. unfold Rev2.startDownload_then. rewrite Hd. cbn. reflexivity.
Qed.

(** X12. The reset that follows a terminal reply does not look at
    which job is current: it hides the progress section and forgets the
    job identifier, stops no poll interval, and a poll interval that
    fires after it requests the progress of the job named null. *)
Theorem reset_forgets_the_current_job (s : State) (hd : nat) (ms : N) :
  well_formed s ->
  find_timer hd (timers s) = Some (Timeout ms ResetProgress) ->
  exists s1,
    Rev2.step h (Fire hd) s = Some s1 /\
    currentDownloadId s1 = JNull /\
    progressSection_hidden (progressUi (page s1)) = true /\
    progressInterval s1 = progressInterval s /\
    pollers s1 = pollers s /\
    forall hd' ms',
      find_timer hd' (timers s1) = Some (Interval ms' PollProgress) ->
      exists s2,
        Rev2.step h (Fire hd') s1 = Some s2 /\
        pending s2 = (pending s1 ++ [AwaitProgress "/progress/null"])%list.
Proof.
  intros (N1 & _) Hf. cbn [Rev2.step]. unfold Rev2.fire. rewrite Hf.
  eexists. split; [reflexivity|]. cbn [Rev2.run_callback].
  repeat split.
  - unfold pollers. cbn. apply (pollers_drop_timeout hd ms ResetProgress _ N1 Hf).
  - intros hd' ms' Hf'. rewrite Hf'. eexists. split; reflexivity.
Qed.

(** X13. The interval stopped at a terminal reply never fires again,
    whatever happens afterwards. *)
Theorem stopped_interval_never_fires_again
    (url : string) (r : Progress.t) (s s1 : State) (hd : nat)
    (tr : list Event) (s' : State) :
  well_formed s ->
  progressInterval s = Some hd ->
  terminal r ->
  Rev2.step h (ProgressReply url r) s = Some s1 ->
  Rev2.run h tr s1 = Some s' ->
  Rev2.step h (Fire hd) s' = None.
Proof.
  intros W Hs Ht Hstep Hr.
  destruct (step_sound h _ _ _ Hstep W) as (W1 & _ & _).
  cbn [Rev2.step] in Hstep. unfold Rev2.settled in Hstep.
  destruct (settle (AwaitProgress url) (pending s)) as [l|]; [|discriminate].
  injection Hstep as <-.
  destruct (poll_then_terminal h r (set_pending l s) Ht)
    as (type & msg & load & _ & Htm & Hnh & _).
  cbv zeta in Htm, Hnh.
  assert (R1 : retired (Rev2.poll_then h r (set_pending l s)) hd).
  { destruct W as (_ & _ & _ & _ & I). specialize (I hd Hs). split.
    - rewrite Hnh. cbn. lia.
    - rewrite Htm. unfold slot_cleared. cbn [progressInterval set_pending].
      rewrite Hs, map_app. intros Hin.
      apply in_app_or in Hin as [Hin|Hin].
      + apply in_map_iff in Hin as (e & E & He). apply filter_In in He as [_ He].
        apply negb_true_iff, Nat.eqb_neq in He. tauto.
      + cbn in Hin. lia. }
  destruct (run_sound h tr _ _ Hr W1) as (_ & _ & R).
  destruct (R hd R1) as [_ Hn].
  cbn [Rev2.step]. unfold Rev2.fire. rewrite (find_timer_fresh _ _ Hn). reflexivity.
Qed.

End Laws.

Lemma notification_is_removed_once_witness :
  well_formed (after one_job) /\
  exists s',
    Rev2.step sample_host (Fire (next_handle (after one_job)))
      (Rev2.showNotification "Saved" "success" (after one_job)) = Some s' /\
    notices (page s') = notices (page (after one_job)) /\
    timers s' = timers (after one_job).
Proof.
  assert (W : well_formed (after one_job)).
  { apply (reachable_well_formed sample_host sample_page one_job);
      [reflexivity | vm_compute; reflexivity]. }
  split; [exact W|].
  apply (proj1 (proj2
    (notification_is_removed_once sample_host "Saved" "success" (after one_job) W))).
Defined.

Lemma refresh_interval_is_never_stopped_witness :
  notices sample_page = [] /\
  Rev2.run sample_host overlapping_replies (Rev2.boot sample_page)
    = Some (after overlapping_replies) /\
  find_timer 1 (timers (after overlapping_replies))
    = Some (Interval 30000 RefreshDownloads).
Proof.
  assert (E : Rev2.run sample_host overlapping_replies (Rev2.boot sample_page)
              = Some (after overlapping_replies)) by (vm_compute; reflexivity).
  split; [reflexivity|]. split; [exact E|].
  apply (refresh_interval_is_never_stopped sample_host sample_page
           overlapping_replies (after overlapping_replies) eq_refl E).
Defined.

Lemma poller_left_behind_is_never_stopped_witness :
  well_formed (after (one_job ++ [Submit])) /\
  progressInterval (after (one_job ++ [Submit])) = Some 2 /\
  find_timer 2 (timers (after (one_job ++
      [Submit; DownloadReply (accepted "job2");
       Fire 4; ProgressReply "/progress/job2" completed; Fire 7])))
    = Some (Interval 1000 PollProgress).
Proof.
  assert (W : well_formed (after (one_job ++ [Submit]))).
  { apply (reachable_well_formed sample_host sample_page (one_job ++ [Submit]));
      [reflexivity | vm_compute; reflexivity]. }
  split; [exact W|]. split; [reflexivity|].
  refine (proj1 (poller_left_behind_is_never_stopped sample_host (accepted "job2")
           (after (one_job ++ [Submit]))
           (after (one_job ++ [Submit; DownloadReply (accepted "job2")]))
           2 1000%N W eq_refl _ eq_refl _
           [Fire 4; ProgressReply "/progress/job2" completed; Fire 7]
           (after (one_job ++
              [Submit; DownloadReply (accepted "job2");
               Fire 4; ProgressReply "/progress/job2" completed; Fire 7])) _)).
  - vm_compute. tauto.
  - vm_compute. reflexivity.
  - vm_compute. reflexivity.
Defined.

Lemma every_poller_asks_for_the_latest_job_witness :
  steady_run sample_host [Fire 3; Fire 4] (after two_submissions) =
    Some (after (two_submissions ++ [Fire 3; Fire 4])) /\
  exists s3,
    Rev2.step sample_host (Fire 2) (after (two_submissions ++ [Fire 3; Fire 4])) = Some s3 /\
    pending s3 =
      (pending (after (two_submissions ++ [Fire 3; Fire 4])) ++
       [AwaitProgress "/progress/job2"])%list.
Proof.
  assert (R : steady_run sample_host [Fire 3; Fire 4] (after two_submissions) =
              Some (after (two_submissions ++ [Fire 3; Fire 4])))
    by (vm_compute; reflexivity).
  split; [exact R|].
  refine (proj2 (every_poller_asks_for_the_latest_job sample_host (accepted "job2")
            (after [Input sample_url; Submit; DownloadReply (accepted "job1"); Submit])
            (after two_submissions) [Fire 3; Fire 4]
            (after (two_submissions ++ [Fire 3; Fire 4])) 2 1000%N eq_refl _ R _)).
  - vm_compute. reflexivity.
  - vm_compute. reflexivity.
Defined.

Lemma reset_forgets_the_current_job_witness :
  well_formed (after (two_submissions ++
     [Fire 2; ProgressReply "/progress/job2" completed])) /\
  exists s1,
    Rev2.step sample_host (Fire 7)
      (after (two_submissions ++ [Fire 2; ProgressReply "/progress/job2" completed]))
      = Some s1 /\
    currentDownloadId s1 = JNull.
Proof.
  assert (W : well_formed (after (two_submissions ++
     [Fire 2; ProgressReply "/progress/job2" completed]))).
  { apply (reachable_well_formed sample_host sample_page
             (two_submissions ++ [Fire 2; ProgressReply "/progress/job2" completed]));
      [reflexivity | vm_compute; reflexivity]. }
  split; [exact W|].
  destruct (reset_forgets_the_current_job sample_host _ 7 3000%N W eq_refl)
    as (s1 & E & Hid & _).
  exists s1. split; [exact E | exact Hid].
Defined.

Lemma stopped_interval_never_fires_again_witness :
  well_formed (after one_job) /\
  progressInterval (after one_job) = Some 2 /\
  terminal completed /\
  Rev2.step sample_host (Fire 2)
    (after (one_job ++ [ProgressReply "/progress/job1" completed; Fire 4])) = None.
Proof.
  assert (W : well_formed (after one_job)).
  { apply (reachable_well_formed sample_host sample_page one_job);
      [reflexivity | vm_compute; reflexivity]. }
  assert (T : terminal completed).
  { apply terminal_status; [reflexivity | left; reflexivity]. }
  split; [exact W|]. split; [reflexivity|]. split; [exact T|].
  refine (stopped_interval_never_fires_again sample_host "/progress/job1" completed
            (after one_job) (after (one_job ++ [ProgressReply "/progress/job1" completed]))
            2 [Fire 4]
            (after (one_job ++ [ProgressReply "/progress/job1" completed; Fire 4]))
            W eq_refl T _ _).
  - vm_compute. reflexivity.
  - vm_compute. reflexivity.
Defined.

End SessionLaws.

(** ** The progress display *)

Module DisplayLaws.
Import Str Js Browser Api Events Spec Laws.

Lemma Z_range_In (lo hi z : Z) :
  (lo <= z < hi)%Z -> In z (Z_range lo hi).
Proof.
  intros H. unfold Z_range. apply in_map_iff. exists (Z.to_nat (z - lo)).
  split; [lia|]. apply in_seq. lia.
Qed.

Lemma forallb_Z_range (f : Z -> bool) (lo hi : Z) :
  forallb f (Z_range lo hi) = true ->
  forall z, (lo <= z < hi)%Z -> f z = true.
Proof.
  intros H z Hz. rewrite forallb_forall in H. apply H, Z_range_In, Hz.
Qed.

Lemma on_page_timers (f : Page -> Page) (s : State) : timers (on_page f s) = timers s.
Proof. reflexivity. Qed.

Section WithHost.
Variable h : Host.

Lemma progressUi_poll_then (r : Progress.t) (s s0 : State) :
  progressFill_width (progressUi (page (Rev2.poll_then h r s))) =
  progressFill_width (progressUi (page (Rev2.poll_then h r s0))) /\
  progressText (progressUi (page (Rev2.poll_then h r s))) =
  progressText (progressUi (page (Rev2.poll_then h r s0))) /\
  progressStatus (progressUi (page (Rev2.poll_then h r s))) =
  progressStatus (progressUi (page (Rev2.poll_then h r s0))).
Proof.
  unfold Rev2.poll_then.
  destruct (defined (Progress.finished r)), (truthy (Progress.finished r)),
    (truthy (Progress.error r)),
    (is_str (Progress.status r) "completed" || is_str (Progress.status r) "error"),
    (is_str (Progress.status r) "completed");
    unfold Rev2.andThen, clearInterval; cbn;
    destruct (progressInterval s), (progressInterval s0); cbn; auto.
Qed.

(** X14. A reply of a job that goes on changes the progress display
    and nothing else: no timer, request, notification or button, and the
    visibility of the progress section is left as it is. *)
Theorem reply_in_progress_changes_only_the_display (r : Progress.t) (s : State) :
  in_progress r ->
  exists ui,
    Rev2.poll_then h r s = on_page (set_progressUi ui) s /\
    progressSection_hidden ui = progressSection_hidden (progressUi (page s)).
Proof.
  intros [r' Hd Ht | r' Hf Hc He]; unfold Rev2.poll_then.
  - rewrite Hd, Ht. eexists. split; reflexivity.
  - rewrite Hf, Hc, He. cbn [defined orb]. eexists. split; reflexivity.
Qed.

(** X15. A reply that has a [finished] field, whatever its value, is
    read by that field alone: its status makes no difference. *)
Theorem finished_field_overrides_status (r : Progress.t) (st : Json) (s : State) :
  defined (Progress.finished r) = true ->
  Rev2.poll_then h (with_status st r) s = Rev2.poll_then h r s.
Proof.
  intros Hd. unfold Rev2.poll_then, with_status. cbn [Progress.finished
    Progress.progress Progress.error]. rewrite Hd. reflexivity.
Qed.

(** X16. A reply without a percentage: with a [finished] field the bar
    and the label show 0%; with a status only, the width assigned to
    the bar is the text undefined% and the label reads NaN%. *)
Theorem missing_percentage_is_shown (s : State) :
  let with_field := progressUi (page (Rev2.poll_then h (going_on true JUndefined) s)) in
  let with_status := progressUi (page (Rev2.poll_then h (going_on false JUndefined) s)) in
  (progressFill_width with_field = "0%" /\ progressText with_field = "0%") /\
  (progressFill_width with_status = "undefined%" /\ progressText with_status = "NaN%").
Proof. repeat split. Qed.

Lemma shown_tenths_checked (finished_field : bool) :
  forallb (tenths_checked h finished_field) (Z_range 0 1001) = true.
Proof. destruct finished_field; vm_compute; reflexivity. Qed.

(** X17. For a percentage of k tenths, k from 0 to 1000, the label
    shows the nearest integer, a half rounded up; when the percentage is
    an integer the width of the bar is that integer too. *)
Theorem percentage_is_rounded_to_nearest (k : Z) (finished_field : bool) (s : State) :
  (0 <= k <= 1000)%Z ->
  let ui := progressUi (page (Rev2.poll_then h
              (going_on finished_field (JNum (div (of_Z k) (of_Z 10)))) s)) in
  progressText ui = digits ((k + 5) / 10) ++ "%" /\
  ((k mod 10 = 0)%Z -> progressFill_width ui = digits (k / 10) ++ "%").
Proof.
  intros Hk ui.
  pose proof (forallb_Z_range _ 0 1001 (shown_tenths_checked finished_field) k
                ltac:(lia)) as H.
  unfold tenths_checked, shown_tenths in H. cbn [fst snd] in H.
  apply andb_true_iff in H as [H1 H2]. apply String.eqb_eq in H1.
  destruct (progressUi_poll_then
              (going_on finished_field (JNum (div (of_Z k) (of_Z 10))))
              s (Rev2.boot sample_page)) as (Ew & Et & _).
  subst ui. split.
  - rewrite Et. exact H1.
  - intros Hm. rewrite Ew. apply Z.eqb_eq in Hm. rewrite Hm in H2.
    cbn [negb orb] in H2. apply String.eqb_eq, H2.
Qed.

End WithHost.

Lemma reply_in_progress_changes_only_the_display_witness :
  in_progress pending_reply /\
  timers (Rev2.poll_then sample_host pending_reply (after one_job))
    = timers (after one_job).
Proof.
  assert (I : in_progress pending_reply).
  { apply in_progress_status; reflexivity. }
  split; [exact I|].
  destruct (reply_in_progress_changes_only_the_display sample_host pending_reply
              (after one_job) I) as (ui & E & _).
  rewrite E. apply on_page_timers.
Defined.

Lemma finished_field_overrides_status_witness :
  Rev2.poll_then sample_host
    (with_status (JStr "completed") (going_on true (JNum (of_Z 40)))) (after one_job)
  = Rev2.poll_then sample_host (going_on true (JNum (of_Z 40))) (after one_job).
Proof.
  apply (finished_field_overrides_status sample_host
           (going_on true (JNum (of_Z 40))) (JStr "completed") (after one_job)).
  reflexivity.
Defined.

Lemma percentage_is_rounded_to_nearest_witness :
  progressText (progressUi (page (Rev2.poll_then sample_host
     (going_on false (JNum (div (of_Z 125) (of_Z 10)))) (after one_job)))) = "13%".
Proof.
  apply (proj1 (percentage_is_rounded_to_nearest sample_host 125 false (after one_job)
                  ltac:(lia))).
Defined.

End DisplayLaws.

(** ** View counts *)

Module FormatLaws.
Import Str Js Browser Api Events Spec Laws DisplayLaws.

Section WithHost.
Variable h : Host.

Lemma plain_checked_all : forallb (plain_checked h) (Z_range 0 1000) = true.
Proof. vm_compute. reflexivity. Qed.

Lemma thousands_checked_all : forallb (thousands_checked h) (Z_range 1000 2000) = true.
Proof. vm_compute. reflexivity. Qed.

Lemma carry_checked_all : forallb (carry_checked h) (Z_range 999950 1000000) = true.
Proof. vm_compute. reflexivity. Qed.

(** Both revisions write a count in the thousands as its decimal and K. *)
Lemma formatViews_in_thousands (x : number) :
  geb x (of_Z (10 ^ 3)) = true -> geb x (of_Z (10 ^ 6)) = false ->
  geb x (of_Z (10 ^ 9)) = false ->
  text_of h (Rev2.formatViews h (JNum x)) = toFixed1 h (div x (of_Z (10 ^ 3))) ++ "K" /\
  text_of h (Rev1.formatViews h (JNum x)) = toFixed1 h (div x (of_Z (10 ^ 3))) ++ "K".
Proof.
  intros H3 H6 H9. unfold Rev2.formatViews, Rev1.formatViews. cbn [ToNumber].
  rewrite H3, H6, H9. split; reflexivity.
Qed.

(** X18. A count below a thousand is shown with its digits, in both
    revisions. *)
Theorem formatViews_below_a_thousand (z : Z) :
  (0 <= z < 1000)%Z ->
  Rev2.formatViews h (JNum (of_Z z)) = JNum (of_Z z) /\
  Rev1.formatViews h (JNum (of_Z z)) = JNum (of_Z z) /\
  text_of h (JNum (of_Z z)) = digits z.
Proof.
  intros Hz.
  pose proof (forallb_Z_range _ 0 1000 plain_checked_all z ltac:(lia)) as H.
  unfold plain_checked in H.
  apply andb_true_iff in H as [H H4]. apply andb_true_iff in H as [H H3].
  apply andb_true_iff in H as [H1 H2].
  apply negb_true_iff in H1, H2, H3. apply String.eqb_eq in H4.
  unfold Rev2.formatViews, Rev1.formatViews. cbn [ToNumber].
  rewrite H1, H2, H3. split; [reflexivity|]. split; [reflexivity|].
  cbn [text_of ToString]. exact H4.
Qed.

(** X19. A count from 1000 to 1999 is shown in thousands with one
    decimal, to the nearest tenth, in both revisions; a count that ends
    in 50 goes up or down, as the division of binary64 falls. *)
Theorem formatViews_thousands (z : Z) :
  (1000 <= z < 2000)%Z ->
  exists n : Z,
    text_of h (Rev2.formatViews h (JNum (of_Z z))) = tenths n ++ "K" /\
    text_of h (Rev1.formatViews h (JNum (of_Z z))) = tenths n ++ "K" /\
    (Z.abs (100 * n - z) <= 50)%Z.
Proof.
  intros Hz.
  pose proof (forallb_Z_range _ 1000 2000 thousands_checked_all z ltac:(lia)) as H.
  unfold thousands_checked in H. cbv zeta in H.
  apply andb_true_iff in H as [H H4]. apply andb_true_iff in H as [H H9].
  apply andb_true_iff in H as [H3 H6]. apply negb_true_iff in H6, H9.
  destruct (formatViews_in_thousands (of_Z z) H3 H6 H9) as [E2 E1].
  rewrite E2, E1.
  apply orb_true_iff in H4 as [H|H].
  - apply String.eqb_eq in H. rewrite H.
    exists ((z + 50) / 100)%Z. split; [reflexivity|]. split; [reflexivity|].
    pose proof (Z.div_mod (z + 50) 100 ltac:(lia)) as D.
    pose proof (Z.mod_pos_bound (z + 50) 100 ltac:(lia)) as B.
    revert D B. generalize ((z + 50) / 100)%Z ((z + 50) mod 100)%Z. intros q r D B. lia.
  - apply andb_true_iff in H as [Hm H]. apply String.eqb_eq in H. rewrite H.
    apply Z.eqb_eq in Hm.
    exists ((z + 50) / 100 - 1)%Z. split; [reflexivity|]. split; [reflexivity|].
    pose proof (Z.div_mod z 100 ltac:(lia)) as D. rewrite Hm in D.
    assert (E : ((z + 50) / 100 = z / 100 + 1)%Z).
    { symmetry. apply (Z.div_unique (z + 50) 100 (z / 100 + 1) 0); lia. }
    rewrite E. lia.
Qed.

(** X20. The last fifty counts below a million are shown as 1000.0K:
    the rounding of the decimal does not carry into the next suffix. *)
Theorem formatViews_does_not_carry (z : Z) :
  (999950 <= z < 1000000)%Z ->
  text_of h (Rev2.formatViews h (JNum (of_Z z))) = "1000.0K" /\
  text_of h (Rev1.formatViews h (JNum (of_Z z))) = "1000.0K".
Proof.
  intros Hz.
  pose proof (forallb_Z_range _ 999950 1000000 carry_checked_all z ltac:(lia)) as H.
  unfold carry_checked in H.
  apply andb_true_iff in H as [H H4]. apply andb_true_iff in H as [H H9].
  apply andb_true_iff in H as [H3 H6]. apply negb_true_iff in H6, H9.
  destruct (formatViews_in_thousands (of_Z z) H3 H6 H9) as [E2 E1].
  apply String.eqb_eq in H4. rewrite E2, E1, H4. split; reflexivity.
Qed.

(** X21. A preview without a view count, or with a null one, leaves
    the text of the views empty, in both revisions. *)
Theorem missing_view_count_shows_nothing (info : Info.t) (s : State) :
  Info.view_count info = JUndefined \/ Info.view_count info = JNull ->
  videoViews (videoInfo (page (Rev2.displayVideoInfo h info s))) = EmptyString /\
  videoViews (videoInfo (page (Rev1Handlers.displayVideoInfo h info s))) = EmptyString.
Proof.
  intros E. destruct info as [su ti up du vc th ad er cs].
  cbn [Info.view_count] in E.
  destruct E as [->| ->]; split; reflexivity.
Qed.

End WithHost.

Lemma formatViews_below_a_thousand_witness :
  Rev2.formatViews sample_host (JNum (of_Z 512)) = JNum (of_Z 512).
Proof.
  apply (proj1 (formatViews_below_a_thousand sample_host 512 ltac:(lia))).
Defined.

Lemma formatViews_thousands_witness :
  exists n : Z,
    text_of sample_host (Rev2.formatViews sample_host (JNum (of_Z 1150)))
      = tenths n ++ "K" /\
    (Z.abs (100 * n - 1150) <= 50)%Z.
Proof.
  destruct (formatViews_thousands sample_host 1150 ltac:(lia)) as (n & H1 & _ & H3).
  exists n. split; [exact H1 | exact H3].
Defined.

Lemma formatViews_does_not_carry_witness :
  text_of sample_host (Rev2.formatViews sample_host (JNum (of_Z 999999))) = "1000.0K".
Proof.
  apply (proj1 (formatViews_does_not_carry sample_host 999999 ltac:(lia))).
Defined.

Lemma missing_view_count_shows_nothing_witness :
  videoViews (videoInfo (page
    (Rev2.displayVideoInfo sample_host (no_info JUndefined) (Rev2.boot sample_page))))
  = EmptyString.
Proof.
  apply (proj1 (missing_view_count_shows_nothing sample_host (no_info JUndefined)
                  (Rev2.boot sample_page) (or_introl eq_refl))).
Defined.

End FormatLaws.

(** ** The list of downloads, deleting, pasting *)

Module LibraryLaws.
Import Str Js Browser Api Events Validator Spec Laws SessionLaws.

Section WithHost.
Variable h : Host.

(** X22. A listing without entries shows the placeholder.  The
    second revision takes an absent list for an empty one; the first
    fails on it, logs the failure and leaves the list as it is. *)
Theorem listing_without_entries_shows_placeholder (d : Listing.t) (s : State) :
  truthy (Listing.success d) = true ->
  (Listing.downloads d = Some [] ->
     downloadsList_innerHTML (page (Rev2.loadDownloads_then h d s)) = Rev2.empty_state /\
     downloadsList_innerHTML (page (Rev1.loadDownloads_then h d s)) = Rev1.empty_state) /\
  (Listing.downloads d = None ->
     downloadsList_innerHTML (page (Rev2.loadDownloads_then h d s)) = Rev2.empty_state /\
     page (Rev1.loadDownloads_then h d s) = page s /\
     console (Rev1.loadDownloads_then h d s) =
       (console s ++ ["Error loading downloads:"])%list).
Proof.
  intros Hs. unfold Rev2.loadDownloads_then, Rev1.loadDownloads_then. rewrite Hs.
  split; intros ->; repeat split.
Qed.

(** X23. A listing the server marks as failed, or a request for it
    that fails, leaves the list on the page as it is.  The second
    revision logs both; the first logs only the failed request. *)
Theorem failed_listing_keeps_the_list (d : Listing.t) (s : State) :
  truthy (Listing.success d) = false ->
  (page (Rev2.loadDownloads_then h d s) = page s /\
   console (Rev2.loadDownloads_then h d s) =
     (console s ++ ["Failed to load downloads:"])%list /\
   Rev1.loadDownloads_then h d s = s) /\
  (page (Rev2.loadDownloads_catch s) = page s /\
   console (Rev2.loadDownloads_catch s) = (console s ++ ["Error loading downloads:"])%list /\
   Rev1.loadDownloads_catch s = Rev2.loadDownloads_catch s).
Proof.
  intros Hs. unfold Rev2.loadDownloads_then, Rev1.loadDownloads_then. rewrite Hs.
  repeat split.
Qed.

(** X24. A deletion the server refuses shows the error of the reply,
    or a fixed text when the reply has none, and leaves the player, the
    list and the requests in flight as they are.  The first revision
    has no fixed text: it shows the error as it converts to a string. *)
Theorem refused_deletion_only_shows_an_error
    (filename : string) (d : Deletion.t) (s : State) :
  truthy (Deletion.success d) = false ->
  let s2 := Rev2.deleteFile_then h filename d s in
  let s1 := Rev1.deleteFile_then h filename d s in
  player (page s2) = player (page s) /\
  downloadsList_innerHTML (page s2) = downloadsList_innerHTML (page s) /\
  pending s2 = pending s /\
  notices (page s2) =
    (notices (page s) ++
     [(next_node s,
       Note "error" (if truthy (Deletion.error d) then ToString h (Deletion.error d)
                     else "Failed to delete file"))])%list /\
  player (page s1) = player (page s) /\
  pending s1 = pending s /\
  alerts (page s1) = (alerts (page s) ++ [("Error: " ++ ToString h (Deletion.error d))%string])%list.
Proof.
  intros Hs. unfold Rev2.deleteFile_then, Rev1.deleteFile_then. rewrite Hs.
  cbn zeta. unfold or_else. destruct (truthy (Deletion.error d)); repeat split.
Qed.

(** X25. A link is pasted into the empty field, so that the input
    event that follows the paste carries the pasted text, and the link
    is valid both as it stands and once trimmed.  Then it is looked up
    twice: the paste handler sets a timeout of 100 ms and asks for
    nothing, the input handler asks for the preview at once, and the
    timeout asks for it again. *)
Theorem pasted_link_is_looked_up_twice (u : string) (s : State) :
  well_formed s ->
  isValidYouTubeUrl u = true ->
  isValidYouTubeUrl (trim u) = true ->
  exists s1 s2 s3,
    Rev2.step h (Paste u) s = Some s1 /\
    timers s1 = (timers s ++ [(next_handle s, Timeout 100 (InfoFor u))])%list /\
    pending s1 = pending s /\
    Rev2.step h (Input u) s1 = Some s2 /\
    pending s2 = (pending s ++ [AwaitInfo])%list /\
    Rev2.step h (Fire (next_handle s)) s2 = Some s3 /\
    pending s3 = (pending s ++ [AwaitInfo; AwaitInfo])%list /\
    timers s3 = timers s.
Proof.
  intros (N1 & B1 & _) Hu Ht.
  pose proof (fresh_not_In _ _ B1) as F1.
  cbn [Rev2.step]. unfold Rev2.handlePaste, Rev2.handleUrlInput.
  rewrite Hu, Ht.
  eexists. eexists. eexists.
  split; [reflexivity|]. split; [reflexivity|]. split; [reflexivity|].
  split; [reflexivity|]. split; [reflexivity|].
  unfold Rev2.fire.
  change (timers (Rev2.getVideoInfo (trim u)
            (on_page (set_youtubeUrl_value u) (setTimeout (InfoFor u) 100 s))))
    with (timers s ++ [(next_handle s, Timeout 100 (InfoFor u))])%list.
  rewrite (find_timer_snoc_fresh _ _ _ F1).
  split; [reflexivity|]. cbn.
  rewrite <- app_assoc. split; [reflexivity|].
  unfold drop_timer. apply filter_snoc_fresh, F1.
Qed.

End WithHost.

Lemma listing_without_entries_shows_placeholder_witness :
  downloadsList_innerHTML (page (Rev2.loadDownloads_then sample_host
    {| Listing.success := JBool true; Listing.downloads := None |}
    (Rev2.boot sample_page))) = Rev2.empty_state.
Proof.
  apply (proj1 (proj2 (listing_without_entries_shows_placeholder sample_host
    {| Listing.success := JBool true; Listing.downloads := None |}
    (Rev2.boot sample_page) eq_refl) eq_refl)).
Defined.

Lemma failed_listing_keeps_the_list_witness :
  page (Rev2.loadDownloads_then sample_host
    {| Listing.success := JBool false; Listing.downloads := None |}
    (after one_job)) = page (after one_job).
Proof.
  apply (proj1 (proj1 (failed_listing_keeps_the_list sample_host
    {| Listing.success := JBool false; Listing.downloads := None |}
    (after one_job) eq_refl))).
Defined.

Lemma refused_deletion_only_shows_an_error_witness :
  player (page (Rev2.deleteFile_then sample_host "aa.mp3"
    {| Deletion.success := JBool false; Deletion.error := JUndefined |}
    (after play_one))) = player (page (after play_one)).
Proof.
  apply (proj1 (refused_deletion_only_shows_an_error sample_host "aa.mp3"
    {| Deletion.success := JBool false; Deletion.error := JUndefined |}
    (after play_one) eq_refl)).
Defined.

Lemma pasted_link_is_looked_up_twice_witness :
  well_formed (Rev2.boot sample_page) /\
  exists s3,
    Rev2.run sample_host
      [Paste sample_url; Input sample_url; Fire (next_handle (Rev2.boot sample_page))]
      (Rev2.boot sample_page) = Some s3 /\
    pending s3 = (pending (Rev2.boot sample_page) ++ [AwaitInfo; AwaitInfo])%list.
Proof.
  assert (W : well_formed (Rev2.boot sample_page)).
  { apply boot_well_formed. reflexivity. }
  split; [exact W|].
  destruct (pasted_link_is_looked_up_twice sample_host sample_url (Rev2.boot sample_page)
              W eq_refl eq_refl)
    as (s1 & s2 & s3 & E1 & _ & _ & E2 & _ & E3 & Hp & _).
  exists s3. split; [|exact Hp].
  cbn [Rev2.run]. rewrite E1, E2, E3. reflexivity.
Defined.

End LibraryLaws.

(** ** Markup and escaping *)

Module MarkupLaws.
Import Str Js Browser Api Events Validator Spec Laws Markup StrFacts LibraryFacts.

(** X26. Both revisions escape a text character by character, and
    they give the same markup for a text that has no quotation mark, no
    apostrophe and no non-breaking space: the first revision rewrites
    the two quotes, the second the space, and neither the other's. *)
Theorem revisions_escape_alike_without_quotes (s : string) :
  includes s (String "034" EmptyString) = false ->
  includes s "'" = false ->
  includes s (String "160" EmptyString) = false ->
  Rev1.escapeHtml s = Rev2.escapeHtml s.
Proof.
  induction s as [|c t IH]; [reflexivity|].
  rewrite !includes_char_cons. intros H1 H2 H3.
  apply orb_false_iff in H1 as [Q1 Q1'], H2 as [Q2 Q2'], H3 as [Q3 Q3'].
  rewrite rev1_escapeHtml_cons, rev1_escapeHtml_char, (IH Q1' Q2' Q3').
  unfold Rev2.escapeHtml. cbn [Rev2.serialize_text].
  rewrite Ascii.eqb_sym in Q1. rewrite Ascii.eqb_sym in Q2. rewrite Ascii.eqb_sym in Q3.
  rewrite Q1, Q2, Q3. reflexivity.
Qed.

(** X27. The second revision leaves a quotation mark or an apostrophe
    of the text where it is, so the markup has one exactly when the text
    has; the markup of the first revision has neither. *)
Theorem only_the_first_revision_rewrites_quotes (s : string) (c : ascii) :
  c = "034"%char \/ c = "'"%char ->
  includes (Rev2.escapeHtml s) (String c EmptyString) = includes s (String c EmptyString) /\
  includes (Rev1.escapeHtml s) (String c EmptyString) = false.
Proof.
  intros Hc. split.
  - unfold Rev2.escapeHtml. induction s as [|x t IH]; [reflexivity|].
    cbn [Rev2.serialize_text]. rewrite includes_char_app, IH, includes_char_cons.
    f_equal.
    destruct (Ascii.eqb_spec x "&") as [->|N1];
      [destruct Hc as [->| ->]; reflexivity|].
    destruct (Ascii.eqb_spec x "160") as [->|N2];
      [destruct Hc as [->| ->]; reflexivity|].
    destruct (Ascii.eqb_spec x "<") as [->|N3];
      [destruct Hc as [->| ->]; reflexivity|].
    destruct (Ascii.eqb_spec x ">") as [->|N4];
      [destruct Hc as [->| ->]; reflexivity|].
    rewrite includes_char_cons. cbn. apply orb_false_r.
  - induction s as [|x t IH]; [destruct Hc as [->| ->]; reflexivity|].
    rewrite rev1_escapeHtml_cons, includes_char_app, IH, orb_false_r.
    rewrite rev1_escapeHtml_char.
    destruct (Ascii.eqb_spec x "&"); [destruct Hc as [->| ->]; reflexivity|].
    destruct (Ascii.eqb_spec x "<"); [destruct Hc as [->| ->]; reflexivity|].
    destruct (Ascii.eqb_spec x ">"); [destruct Hc as [->| ->]; reflexivity|].
    destruct (Ascii.eqb_spec x "034") as [->|N4]; [destruct Hc as [->| ->]; reflexivity|].
    destruct (Ascii.eqb_spec x "'") as [->|N5]; [destruct Hc as [->| ->]; reflexivity|].
    rewrite includes_char_cons. cbn [includes]. 
    destruct Hc as [->| ->]; rewrite Ascii.eqb_sym.
    + apply Ascii.eqb_neq in N4. rewrite N4. reflexivity.
    + apply Ascii.eqb_neq in N5. rewrite N5. reflexivity.
Qed.

Lemma strip_mp3_later (a b : string) :
  strip_prefix ".mp3" (a ++ ".mp") = None ->
  a <> EmptyString ->
  strip_prefix ".mp3" (a ++ ".mp3" ++ b) = None.
Proof.
  intros H Ha.
  destruct a as [|c0 a]; [congruence|]. clear Ha.
  cbn [append strip_prefix] in *.
  destruct (Ascii.eqb "." c0); [|reflexivity].
  destruct a as [|c1 a]; [reflexivity|]. cbn [append strip_prefix] in *.
  destruct (Ascii.eqb "m" c1); [|reflexivity].
  destruct a as [|c2 a]; [reflexivity|]. cbn [append strip_prefix] in *.
  destruct (Ascii.eqb "p" c2); [|reflexivity].
  destruct a as [|c3 a]; [reflexivity|]. cbn [append strip_prefix] in *.
  destruct (Ascii.eqb "3" c3); [|reflexivity].
  rewrite strip_prefix_nil in H. discriminate.
Qed.

Lemma replace_first_mp3 (a b : string) :
  includes (a ++ ".mp") ".mp3" = false ->
  replace_first ".mp3" EmptyString (a ++ ".mp3" ++ b) = a ++ b.
Proof.
  induction a as [|c a IH]; intros H.
  - change (EmptyString ++ ".mp3" ++ b) with (".mp3" ++ b).
    destruct b; reflexivity.
  - rewrite includes_unfold in H.
    destruct (strip_prefix ".mp3" (String c a ++ ".mp")) eqn:E; [discriminate|].
    change (String c a ++ ".mp") with (String c (a ++ ".mp")) in H.
    pose proof (strip_mp3_later (String c a) b E ltac:(discriminate)) as E'.
    change (String c a ++ ".mp3" ++ b) with (String c (a ++ ".mp3" ++ b)) in *.
    cbn [replace_first]. rewrite E'. cbn [append]. f_equal. apply IH, H.
Qed.

Lemma replace_first_absent (pat by_ s : string) :
  includes s pat = false -> replace_first pat by_ s = s.
Proof.
  induction s as [|c s IH]; rewrite includes_unfold; intros H.
  - cbn [replace_first]. destruct (strip_prefix pat EmptyString); [discriminate|reflexivity].
  - cbn [replace_first]. destruct (strip_prefix pat (String c s)); [discriminate|].
    f_equal. apply IH, H.
Qed.

(** X28. A notification carries its message as markup, not as text:
    the message stands unescaped between the tags of the span, with the
    icon its type asks for, and the class name ends in the type. *)
Theorem notification_message_is_markup (msg type : string) :
  includes (innerHTML_of (Note type msg)) ("<span>" ++ msg ++ "</span>") = true /\
  includes (innerHTML_of (Note type msg))
    ("fas fa-" ++
     (if String.eqb type "success" then "check-circle"
      else if String.eqb type "error" then "exclamation-circle"
      else "info-circle") ++ dq ++ "></i>") = true /\
  className (Note type msg) = "notification notification-" ++ type.
Proof.
  cbn [innerHTML_of className]. unfold notification_innerHTML, notification_className.
  split; [find_chunks|]. split; [find_chunks | reflexivity].
Qed.

(** X29. The notice of a file already downloaded offers to play it
    under the file name without its first .mp3, escaped, while the file
    name itself goes into both handlers as it is. *)
Theorem already_downloaded_title_drops_first_mp3 (a b : string) :
  includes (a ++ ".mp") ".mp3" = false ->
  includes (innerHTML_of (AlreadyDownloaded (a ++ ".mp3" ++ b)))
    ("onclick=" ++ dq ++ "playFile('" ++ (a ++ ".mp3" ++ b) ++ "', '" ++
     Rev2.escapeHtml (a ++ b) ++ "')" ++ dq) = true /\
  includes (innerHTML_of (AlreadyDownloaded (a ++ ".mp3" ++ b)))
    ("onclick=" ++ dq ++ "downloadFile('" ++ (a ++ ".mp3" ++ b) ++ "')" ++ dq) = true.
Proof.
  intros H. cbn [innerHTML_of]. unfold alreadyDownloaded_innerHTML.
  rewrite (replace_first_mp3 a b H).
  split; find_chunks.
Qed.

Lemma revisions_escape_alike_without_quotes_witness :
  Rev1.escapeHtml "<b>Tom & Jerry</b>" = Rev2.escapeHtml "<b>Tom & Jerry</b>".
Proof.
  apply (revisions_escape_alike_without_quotes "<b>Tom & Jerry</b>");
    vm_compute; reflexivity.
Defined.

Lemma only_the_first_revision_rewrites_quotes_witness :
  includes (Rev2.escapeHtml "it's") "'" = includes "it's" "'" /\
  includes (Rev1.escapeHtml "it's") "'" = false.
Proof.
  apply (only_the_first_revision_rewrites_quotes "it's" "'" (or_intror eq_refl)).
Defined.

Lemma already_downloaded_title_drops_first_mp3_witness :
  includes ("song" ++ ".mp") ".mp3" = false /\
  includes (innerHTML_of (AlreadyDownloaded ("song" ++ ".mp3" ++ ".mp3")))
    ("onclick=" ++ dq ++ "playFile('" ++ ("song" ++ ".mp3" ++ ".mp3") ++ "', '" ++
     Rev2.escapeHtml ("song" ++ ".mp3") ++ "')" ++ dq) = true.
Proof.
  split; [reflexivity|].
  apply (proj1 (already_downloaded_title_drops_first_mp3 "song" ".mp3" eq_refl)).
Defined.

End MarkupLaws.

(** ** The two revisions, side by side *)

Module RevisionLaws.
Import Str Js Browser Api Events Validator Spec Laws.

Section WithHost.
Variable h : Host.

(** X30. On a reply without a [finished] field the two revisions do
    the same to the progress display, the button, the poll intervals,
    the requests in flight, the handle kept and the job identifier; they
    differ in how they tell the user and in the delay of the reset. *)
Theorem revisions_agree_on_status_replies (r : Progress.t) (s : State) :
  Progress.finished r = JUndefined ->
  let s1 := Rev1.poll_then h r s in
  let s2 := Rev2.poll_then h r s in
  progressUi (page s1) = progressUi (page s2) /\
  downloadBtn (page s1) = downloadBtn (page s2) /\
  pollers s1 = pollers s2 /\
  pending s1 = pending s2 /\
  progressInterval s1 = progressInterval s2 /\
  currentDownloadId s1 = currentDownloadId s2.
Proof.
  intros Hf. unfold Rev1.poll_then, Rev2.poll_then. rewrite Hf. cbn [defined].
  destruct (is_str (Progress.status r) "completed") eqn:Hc;
    [|destruct (is_str (Progress.status r) "error") eqn:He]; cbn [orb];
    unfold Rev1.andThen, Rev2.andThen, clearInterval, pollers; cbn;
    destruct (progressInterval s); cbn;
    rewrite ?filter_app, ?app_nil_r; cbn; rewrite ?app_nil_r; repeat split.
Qed.

End WithHost.

Lemma revisions_agree_on_status_replies_witness :
  pollers (Rev1.poll_then sample_host completed (after one_job)) =
  pollers (Rev2.poll_then sample_host completed (after one_job)).
Proof.
  apply (proj1 (proj2 (proj2 (revisions_agree_on_status_replies sample_host completed
                                (after one_job) eq_refl)))).
Defined.

End RevisionLaws.
